(** * Deep analysis engine (src/core/analysis.py): a shallow embedding

The engine is Python over pandas, numpy, scipy and scikit-learn.  The
    control logic of [DeepAnalysisEngine] is embedded function by function;
    the numeric routines of the libraries it calls are the fields of the
    class [Backend] below.  Python floats are IEEE-754 binary64 values
    ([PrimFloat.float]), Python ints are [Z], dicts with a fixed key set are
    records, and dicts keyed by data are [gmap]s. *)

From Stdlib Require Import ZArith List Floats Sorted Permutation Lia.
From stdpp Require Import gmap strings list pretty.

Open Scope Z_scope.

(** ** Python outcomes: a value or a raised exception *)

Module Py.

(** The exception classes the engine can meet; all are subclasses of
    [Exception] ([LibraryError] stands for anything a library call raises). *)
Inductive exn : Type :=
| IndexError (msg : string)
| ValueError (msg : string)
| KeyError (msg : string)
| LibraryError (msg : string).

Inductive res (A : Type) : Type :=
| Ret (a : A)
| Raise (e : exn).
Arguments Ret {A} a.
Arguments Raise {A} e.

Definition bind {A B} (r : res A) (k : A -> res B) : res B :=
  match r with
  | Ret a => k a
  | Raise e => Raise e
  end.

(** [len(l)] *)
Definition len {A} (l : list A) : Z := Z.of_nat (length l).

(** A [range(start, stop)] object (the engine only builds ranges of step 1). *)
Record range : Type := mkRange { start : Z; stop : Z }.

Definition range_len (r : range) : Z := Z.max 0 (stop r - start r).

(** [r[i]]: negative indices count from the end, anything outside raises. *)
Definition range_getitem (r : range) (i : Z) : res Z :=
  let i' := if i <? 0 then i + range_len r else i in
  if (0 <=? i') && (i' <? range_len r) then Ret (start r + i')
  else Raise (IndexError "range object index out of range").

(** [list(r)], also the order in which [for k in r] visits the elements. *)
Definition range_to_list (r : range) : list Z :=
  map (fun i => start r + Z.of_nat i) (seq 0 (Z.to_nat (range_len r))).

End Py.

Import Py.

#[global] Instance res_ret : MRet res := @Ret.
#[global] Instance res_bind : MBind res := fun A B k r => Py.bind r k.

(** ** numpy on one-dimensional float arrays *)

Module Np.

(** [np.diff(a)]: [out[i] = a[i+1] - a[i]]. *)
Fixpoint diff (a : list float) : list float :=
  match a with
  | x :: (y :: _) as tl => PrimFloat.sub y x :: diff tl
  | _ => []
  end.

(** The scan of [np.argmax] on floats: the running maximum [mp] is replaced
    whenever [not (x <= mp)], and the scan stops at the first NaN. *)
Fixpoint argmax_scan (mp : float) (best i : Z) (a : list float) : Z :=
  match a with
  | [] => best
  | x :: tl =>
      if PrimFloat.is_nan mp then best
      else if negb (PrimFloat.leb x mp) then argmax_scan x i (i + 1) tl
      else argmax_scan mp best (i + 1) tl
  end.

(** [np.argmax(a)]; raises on an empty array. *)
Definition argmax (a : list float) : res Z :=
  match a with
  | [] => Raise (ValueError "attempt to get argmax of an empty sequence")
  | x :: tl => Ret (argmax_scan x 0 1 tl)
  end.

End Np.

(** ** Elbow selection *)

(** [DeepAnalysisEngine._find_elbow(k_range, inertias)] *)
Definition _find_elbow (k_range : range) (inertias : list float) : res Z :=
  if len inertias <? 3 then range_getitem k_range 0
  else
    let diffs := Np.diff inertias in
    let diffs2 := Np.diff diffs in
    if len diffs2 >? 0 then
      am ← Np.argmax diffs2;
      let elbow_idx := am + 2 in
      range_getitem k_range (Z.min elbow_idx (range_len k_range - 1))
    else range_getitem k_range (range_len k_range / 2).

(** The sweep of [clustering_analysis]: [range(2, min(11, len(X)))]. *)
Definition K_range (n_rows : Z) : range := mkRange 2 (Z.min 11 n_rows).

(** ** The Dataset: a pandas DataFrame *)

(** One entry of a column; [VNA] is a missing value. *)
Inductive cell : Type :=
| VInt (z : Z)
| VFloat (f : float)
| VBool (b : bool)
| VStr (s : string)
| VNA.

(** A categorical dtype carries its categories, in their order. *)
Inductive dtype : Type :=
| Int64 | Float64 | Bool | Object | Category (categories : list cell) | Datetime64.

#[global] Instance spec_float_eq_dec : EqDecision spec_float.
Proof. solve_decision. Defined.

#[global] Instance float_eq_dec : EqDecision float.
Proof.
  intros x y. destruct (decide (Prim2SF x = Prim2SF y)) as [H | H].
  - left. rewrite <- (FloatAxioms.SF2Prim_Prim2SF x), <- (FloatAxioms.SF2Prim_Prim2SF y).
    f_equal. exact H.
  - right. intros ->. apply H. reflexivity.
Defined.

#[global] Instance cell_eq_dec : EqDecision cell.
Proof. solve_decision. Defined.

#[global] Instance dtype_eq_dec : EqDecision dtype.
Proof. solve_decision. Defined.

(** [np.number] covers the integer and floating dtypes, not [bool]. *)
Definition is_number (d : dtype) : bool :=
  match d with Int64 | Float64 => true | _ => false end.

(** The dtypes picked by [include=['object', 'category']]. *)
Definition is_object_or_category (d : dtype) : bool :=
  match d with Object | Category _ => true | _ => false end.

(** [pd.isna]: a float NaN is missing as well. *)
Definition isna (c : cell) : bool :=
  match c with
  | VNA => true
  | VFloat f => PrimFloat.is_nan f
  | _ => false
  end.

(** [==] on the entries of one column (a column holds one kind of value). *)
Definition cell_eqb (a b : cell) : bool :=
  match a, b with
  | VInt x, VInt y => x =? y
  | VFloat x, VFloat y => PrimFloat.eqb x y
  | VBool x, VBool y => Bool.eqb x y
  | VStr x, VStr y => String.eqb x y
  | _, _ => false
  end.

(** [<] on the entries of one column, the order in which [groupby] lists
    the keys of a column that is not categorical. *)
Definition cell_ltb (a b : cell) : bool :=
  match a, b with
  | VInt x, VInt y => x <? y
  | VFloat x, VFloat y => PrimFloat.ltb x y
  | VBool x, VBool y => negb x && y
  | VStr x, VStr y => String.ltb x y
  | _, _ => false
  end.

Record Series : Type := mkSeries {
  s_name : string;
  s_dtype : dtype;
  s_values : list cell
}.

(** A DataFrame: its row count and its columns in order.  Column names are
    unique and every column is [n_rows] long. *)
Record DataFrame : Type := mkFrame {
  n_rows : Z;
  df_columns : list Series
}.

(** [df.select_dtypes(include=[np.number])] *)
Definition select_number (df : DataFrame) : DataFrame :=
  mkFrame (n_rows df) (List.filter (fun s => is_number (s_dtype s)) (df_columns df)).

(** [df.select_dtypes(include=['object', 'category'])] *)
Definition select_categorical (df : DataFrame) : DataFrame :=
  mkFrame (n_rows df)
          (List.filter (fun s => is_object_or_category (s_dtype s)) (df_columns df)).

(** [df.columns] *)
Definition column_names (df : DataFrame) : list string :=
  map s_name (df_columns df).

(** [name in df.columns] *)
Definition has_column (name : string) (df : DataFrame) : bool :=
  existsb (String.eqb name) (column_names df).

(** [df[name]] for a name known to be a column. *)
Definition get_column (name : string) (df : DataFrame) : res Series :=
  match List.find (fun s => String.eqb name (s_name s)) (df_columns df) with
  | Some s => Ret s
  | None => Raise (KeyError name)
  end.

(** [df.drop(columns=[name])]: a new frame without that column. *)
Definition drop_column (name : string) (df : DataFrame) : DataFrame :=
  mkFrame (n_rows df)
          (List.filter (fun s => negb (String.eqb name (s_name s))) (df_columns df)).

(** [s.dropna()] on the values. *)
Definition dropna (vs : list cell) : list cell :=
  List.filter (fun c => negb (isna c)) vs.

(** The distinct values of a column in order of first appearance. *)
Fixpoint unique (vs : list cell) : list cell :=
  match vs with
  | [] => []
  | v :: tl => v :: List.filter (fun c => negb (cell_eqb v c)) (unique tl)
  end.

(** [s.nunique()]: missing values are not counted. *)
Definition nunique (s : Series) : Z := len (unique (dropna (s_values s))).

(** [s.fillna(v)] and [df.fillna(means)] (a new frame; [means] gives the
    fill value of each column). *)
Definition fill_cell (v : float) (c : cell) : cell :=
  if isna c then VFloat v else c.

Definition fillna (means : Series -> float) (df : DataFrame) : DataFrame :=
  mkFrame (n_rows df)
          (map (fun s => mkSeries (s_name s) (s_dtype s)
                                  (map (fill_cell (means s)) (s_values s)))
               (df_columns df)).

(** ** Result values *)

(** What a fitted [KMeans] exposes: [labels_], [cluster_centers_], [inertia_]. *)
Record KMeansFit : Type := mkKMeansFit {
  km_labels : list Z;
  km_centers : list (list float);
  km_inertia : float
}.

Record KMeansResult : Type := mkKMeansResult {
  kmeans_n_clusters : Z;
  kmeans_labels : list Z;
  kmeans_centroids : list (list float);
  kmeans_inertia : float;
  kmeans_cluster_sizes : gmap Z Z
}.

Record DBSCANResult : Type := mkDBSCANResult {
  dbscan_labels : list Z;
  dbscan_n_clusters : Z;
  dbscan_n_noise_points : Z;
  dbscan_cluster_sizes : gmap Z Z
}.

Record ClusteringResult : Type := mkClusteringResult {
  kmeans : KMeansResult;
  dbscan : DBSCANResult
}.

(** A correlation matrix: a square frame of floats with its column labels. *)
Record CorrMatrix : Type := mkCorr {
  cm_columns : list string;
  cm_values : list (list float)
}.

(** One record of [strong_correlations]. *)
Record StrongCorr : Type := mkStrongCorr {
  variable1 : string;
  variable2 : string;
  correlation : float;
  strength : string
}.

(** One value of the [hypothesis_tests] dict. *)
Inductive TestEntry : Type :=
| TestOutcome (test : string) (statistic p_value : float)
              (significant : bool) (groups_count : Z)
| TestError (error : string).

(** One value of the [distribution_tests] dict. *)
Record DistributionTest : Type := mkDistributionTest {
  shapiro_wilk_stat : float;
  shapiro_wilk_p_value : float;
  is_normal : bool;
  skewness : float;
  kurtosis : float
}.

Record Correlations : Type := mkCorrelations {
  correlation_matrix : CorrMatrix;
  strong_correlations : list StrongCorr
}.

Record StatisticalResult : Type := mkStatisticalResult {
  descriptive_stats : gmap string (gmap string float);
  distribution_tests : gmap string DistributionTest;
  correlations : option Correlations;
  hypothesis_tests : gmap string TestEntry
}.

(** One record of [feature_importance] and one of [shap_importance]. *)
Record ImportanceRecord : Type := mkImportance {
  feature : string;
  importance : float
}.

Record ShapRecord : Type := mkShap {
  shap_feature : string;
  shap_importance_value : float
}.

(** [str(e)] *)
Definition exn_message (e : exn) : string :=
  match e with
  | IndexError m | ValueError m | KeyError m | LibraryError m => m
  end.

(** [list(labels).count(v)] *)
Definition count (v : Z) (labels : list Z) : Z :=
  len (List.filter (Z.eqb v) labels).

(** [pd.Series(labels).value_counts().to_dict()]: label to number of rows. *)
Definition value_counts (labels : list Z) : gmap Z Z :=
  foldr (fun x m => <[x := default 0 (m !! x) + 1]> m) ∅ labels.

(** [v in labels] on an array of labels. *)
Definition contains (v : Z) (labels : list Z) : bool :=
  existsb (Z.eqb v) labels.

(** The [dbscan] entry of the clustering result, from the fitted labels. *)
Definition dbscan_result (labels : list Z) : DBSCANResult :=
  mkDBSCANResult
    labels
    (Z.of_nat (size (list_to_set labels : gset Z))
       - (if contains (-1) labels then 1 else 0))
    (count (-1) labels)
    (value_counts (List.filter (fun l => negb (l =? -1)) labels)).

(** ** The order of binary64 values

    [PrimFloat.leb] and [PrimFloat.ltb] are specified by [SFcompare] on
    [spec_float].  Away from NaN that comparison is the lexicographic order
    of the three ranks below, which gives totality and transitivity. *)

Module FloatOrder.

Definition rank1 (f : spec_float) : Z :=
  match f with
  | S754_infinity true => -2
  | S754_finite true _ _ => -1
  | S754_finite false _ _ => 1
  | S754_infinity false => 2
  | _ => 0
  end.

Definition rank2 (f : spec_float) : Z :=
  match f with
  | S754_finite true _ e => - e
  | S754_finite false _ e => e
  | _ => 0
  end.

Definition rank3 (f : spec_float) : Z :=
  match f with
  | S754_finite true m _ => - Z.pos m
  | S754_finite false m _ => Z.pos m
  | _ => 0
  end.

Definition not_nan (f : spec_float) : Prop := f <> S754_nan.

Definition lex_le (a b : spec_float) : Prop :=
  rank1 a < rank1 b \/
  (rank1 a = rank1 b /\
   (rank2 a < rank2 b \/ (rank2 a = rank2 b /\ rank3 a <= rank3 b))).

Definition lex_lt (a b : spec_float) : Prop :=
  rank1 a < rank1 b \/
  (rank1 a = rank1 b /\
   (rank2 a < rank2 b \/ (rank2 a = rank2 b /\ rank3 a < rank3 b))).

End FloatOrder.

(** ** The libraries behind the engine

The numeric routines of pandas, scipy, scikit-learn and shap that the
    engine calls.  A routine that can raise returns a [res]. *)

Class Backend : Type := {
  (** a fitted random forest *)
  estimator : Type;
  (** [classification_report(..., output_dict=True)] *)
  class_report : Type;
  (** a [shap.TreeExplainer] and what its [shap_values] returns *)
  explainer : Type;
  shap_array : Type;
  (** pandas *)
  describe : DataFrame -> res (gmap string (gmap string float));
  column_mean : Series -> float;
  skew : Series -> float;
  kurt : Series -> float;
  sample : Z -> list cell -> res (list cell);
  corr : DataFrame -> CorrMatrix;
  get_dummies : DataFrame -> DataFrame;
  sort_values_desc : list (string * float) -> list (string * float);
  (** scipy.stats *)
  shapiro : list cell -> res (float * float);
  ttest_ind : list cell -> list cell -> res (float * float);
  f_oneway : list (list cell) -> res (float * float);
  (** sklearn, with the seeds and parameters the engine fixes *)
  KMeans_fit : Z -> DataFrame -> res KMeansFit;
  DBSCAN_fit_predict : DataFrame -> res (list Z);
  train_test_split :
    DataFrame -> Series -> res (DataFrame * DataFrame * Series * Series);
  RandomForestClassifier_fit : DataFrame -> Series -> res estimator;
  RandomForestRegressor_fit : DataFrame -> Series -> res estimator;
  predict : estimator -> DataFrame -> res (list cell);
  score : estimator -> DataFrame -> Series -> res float;
  feature_importances_ : estimator -> list float;
  classification_report : Series -> list cell -> res class_report;
  mean_squared_error : Series -> list cell -> res float;
  r2_score : Series -> list cell -> res float;
  (** shap *)
  TreeExplainer : estimator -> res explainer;
  shap_values : explainer -> DataFrame -> res shap_array;
  shap_ndim : shap_array -> Z;
  shap_getitem0 : shap_array -> res shap_array;
  abs_mean0 : shap_array -> res (list float)
}.

(** ** Strong correlations *)

(** The literals [0.7], [0.9] and [0.05] as Python reads them. *)
Definition f0_7 : float := 0x1.6666666666666p-1%float.
Definition f0_9 : float := 0x1.ccccccccccccdp-1%float.
Definition f0_05 : float := 0x1.999999999999ap-5%float.

(** [a >= b] on floats. *)
Definition float_ge (a b : float) : bool := PrimFloat.leb b a.

(** What numpy raises for a position past the end of an axis. *)
Definition out_of_bounds (index size : nat) : exn :=
  IndexError ("index " +:+ pretty index +:+ " is out of bounds for axis 0 with size "
              +:+ pretty size).

(** [corr_matrix.iloc[i, j]]: the column is looked up first, then the row
    inside it. *)
Definition iloc (m : CorrMatrix) (i j : nat) : res float :=
  if bool_decide (length (cm_columns m) <= j)%nat then
    Raise (out_of_bounds j (length (cm_columns m)))
  else
    match cm_values m !! i with
    | Some row =>
        match row !! j with
        | Some v => Ret v
        | None => Raise (out_of_bounds j (length row))
        end
    | None => Raise (out_of_bounds i (length (cm_values m)))
    end.

(** [corr_matrix.columns[i]] for [i] below the number of columns. *)
Definition column_label (m : CorrMatrix) (i : nat) : string :=
  default "" (cm_columns m !! i).

(** The index pairs of the two nested loops, in the order visited. *)
Definition index_pairs (n : nat) : list (nat * nat) :=
  flat_map (fun i => map (fun j => (i, j)) (seq (S i) (n - S i))) (seq 0 n).

Definition strength_label (corr_value : float) : string :=
  if float_ge (PrimFloat.abs corr_value) f0_9 then "very strong" else "strong".

Definition strong_entry (m : CorrMatrix) (i j : nat) (corr_value : float) : StrongCorr :=
  mkStrongCorr (column_label m i) (column_label m j) corr_value
               (strength_label corr_value).

(** The body of the loops: read the cell, append when it passes. *)
Fixpoint scan_pairs (m : CorrMatrix) (threshold : float)
         (pairs : list (nat * nat)) (strong_corrs : list StrongCorr)
  : res (list StrongCorr) :=
  match pairs with
  | [] => Ret strong_corrs
  | (i, j) :: tl =>
      corr_value ← iloc m i j;
      scan_pairs m threshold tl
        (if float_ge (PrimFloat.abs corr_value) threshold
         then strong_corrs ++ [strong_entry m i j corr_value]
         else strong_corrs)
  end.

(** [sorted(l, key=key, reverse=True)]: the stable sort by decreasing key.
    An element stays ahead of the later elements it ties with. *)
Fixpoint insert_desc {A} (key : A -> float) (x : A) (l : list A) : list A :=
  match l with
  | [] => [x]
  | y :: tl =>
      if PrimFloat.ltb (key x) (key y) then y :: insert_desc key x tl
      else x :: l
  end.

Definition sorted_desc {A} (key : A -> float) (l : list A) : list A :=
  foldr (insert_desc key) [] l.

Definition abs_correlation (x : StrongCorr) : float :=
  PrimFloat.abs (correlation x).

(** [DeepAnalysisEngine._find_strong_correlations(corr_matrix, threshold)] *)
Definition _find_strong_correlations (corr_matrix : CorrMatrix) (threshold : float)
  : res (list StrongCorr) :=
  strong_corrs ← scan_pairs corr_matrix threshold
                    (index_pairs (length (cm_columns corr_matrix))) [];
  Ret (sorted_desc abs_correlation strong_corrs).

Definition corr_example : CorrMatrix :=
  mkCorr ["a"; "b"; "c"]
         [[1%float; 0.75%float; (-0.9375)%float];
          [0.75%float; 1%float; 0.5%float];
          [(-0.9375)%float; 0.5%float; 1%float]].

(** ** Hypothesis tests between a categorical and a numeric column *)

(** Ascending insertion sort of group keys ([groupby] sorts the keys it
    finds in a column that is not categorical). *)
Fixpoint insert_key (k : cell) (l : list cell) : list cell :=
  match l with
  | [] => [k]
  | y :: tl => if cell_ltb k y then k :: l else y :: insert_key k tl
  end.

Definition sort_keys (l : list cell) : list cell := foldr insert_key [] l.

(** The keys of [df.groupby(cat_col)].  A categorical column lists its
    categories in category order, the ones no row has included (their groups
    are empty; pandas 3 leaves them out, and [len(g) > 1] drops them either
    way).  Any other column lists its distinct non-missing values in
    ascending order. *)
Definition group_keys (cat : Series) : list cell :=
  match s_dtype cat with
  | Category categories => categories
  | _ => sort_keys (unique (dropna (s_values cat)))
  end.

(** [group[num_col].dropna()] for the group of key [k]. *)
Definition group_values (cat num : Series) (k : cell) : list cell :=
  dropna (map snd (List.filter (fun cv => cell_eqb (fst cv) k)
                               (combine (s_values cat) (s_values num)))).

(** [[group[num_col].dropna() for name, group in df.groupby(cat_col)]] *)
Definition groups_of (cat num : Series) : list (list cell) :=
  map (group_values cat num) (group_keys cat).

(** [[g for g in groups if len(g) > 1]] *)
Definition valid_groups (cat num : Series) : list (list cell) :=
  List.filter (fun g => len g >? 1) (groups_of cat num).

(** The library call the dispatcher settles on. *)
Inductive TestCall : Type :=
| Call_ttest_ind (a b : list cell)
| Call_f_oneway (groups : list (list cell)).

Definition test_name (c : TestCall) : string :=
  match c with
  | Call_ttest_ind _ _ => "t-test"
  | Call_f_oneway _ => "ANOVA"
  end.

(** [groups[i]] for [i] below [len(groups)]. *)
Definition group_at (groups : list (list cell)) (i : nat) : list cell :=
  default [] (groups !! i).

(** Which test runs on the valid groups, if any. *)
Definition dispatch (groups : list (list cell)) : option TestCall :=
  if len groups >=? 2 then
    if len groups =? 2 then
      Some (Call_ttest_ind (group_at groups 0) (group_at groups 1))
    else Some (Call_f_oneway groups)
  else None.

Section Engine.

Context `{B : Backend}.

Definition run_test (c : TestCall) : res (float * float) :=
  match c with
  | Call_ttest_ind a b => ttest_ind a b
  | Call_f_oneway groups => f_oneway groups
  end.

(** The entry written for one column pair, [None] when nothing is written.
    An exception inside the test becomes an error entry. *)
Definition test_pair (cat num : Series) : option TestEntry :=
  let groups := valid_groups cat num in
  match dispatch groups with
  | None => None
  | Some call =>
      Some match run_test call with
           | Ret (stat, p_value) =>
               TestOutcome (test_name call) stat p_value
                           (PrimFloat.ltb p_value f0_05) (len groups)
           | Raise e => TestError (exn_message e)
           end
  end.

(** The dict key [f'{cat_col}_vs_{num_col}']. *)
Definition pair_key (cat num : Series) : string :=
  s_name cat +:+ "_vs_" +:+ s_name num.

(** [DeepAnalysisEngine._perform_hypothesis_tests(df)] *)
Definition _perform_hypothesis_tests (df : DataFrame) : gmap string TestEntry :=
  let numerical_cols := df_columns (select_number df) in
  let categorical_cols := df_columns (select_categorical df) in
  foldl (fun tests cat_col =>
           foldl (fun tests num_col =>
                    match test_pair cat_col num_col with
                    | Some entry => <[pair_key cat_col num_col := entry]> tests
                    | None => tests
                    end)
                 tests numerical_cols)
        ∅ categorical_cols.

(** ** Engine state and the store of frames

    A frame is passed by reference: the store maps references to frames, and
    the engine object holds [analysis_results] and [models]. *)

Inductive Performance : Type :=
| ClassificationPerformance (report : class_report) (accuracy : float)
| RegressionPerformance (mse rmse r2 : float).

Record FeatureImportanceResult : Type := mkFeatureImportanceResult {
  task_type : string;
  performance : Performance;
  feature_importance : list ImportanceRecord;
  shap_importance : list ShapRecord;
  top_features : list string
}.

(** What an analysis operation returns: its result dict, or the dict with
    the single key ['error']. *)
Inductive AnalysisResult : Type :=
| Statistical (r : StatisticalResult)
| Clustering (r : ClusteringResult)
| FeatureImportance (r : FeatureImportanceResult)
| ErrorResult (error : string).

Record World : Type := mkWorld {
  frames : gmap nat DataFrame;
  analysis_results : gmap string AnalysisResult;
  models : gmap string estimator
}.

(** A computation over the world that returns or raises. *)
Record M (A : Type) : Type := mkM { run : World -> res A * World }.
Arguments mkM {A} run.
Arguments run {A} m w.

#[global] Instance M_ret : MRet M := fun A a => mkM (fun w => (Ret a, w)).
#[global] Instance M_bind : MBind M := fun A B k m =>
  mkM (fun w => match run m w with
                | (Ret a, w') => run (k a) w'
                | (Raise e, w') => (Raise e, w')
                end).

(** A pure step that may raise. *)
Definition lift {A} (r : res A) : M A := mkM (fun w => (r, w)).

(** Reading the frame behind a reference. *)
Definition read_frame (l : nat) : M DataFrame :=
  mkM (fun w => match frames w !! l with
                | Some df => (Ret df, w)
                | None => (Raise (KeyError "no such frame"), w)
                end).

(** A frame the engine builds and binds to a variable gets a reference of
    its own. *)
Definition new_frame (df : DataFrame) : M nat :=
  mkM (fun w =>
         let l := fresh (dom (frames w)) in
         (Ret l, mkWorld (<[l := df]> (frames w)) (analysis_results w) (models w))).

(** [self.analysis_results[key] = result] *)
Definition set_result (key : string) (r : AnalysisResult) : M unit :=
  mkM (fun w => (Ret tt, mkWorld (frames w) (<[key := r]> (analysis_results w)) (models w))).

(** [self.models[key] = model] *)
Definition set_model (key : string) (model : estimator) : M unit :=
  mkM (fun w => (Ret tt, mkWorld (frames w) (analysis_results w) (<[key := model]> (models w)))).

(** A [for] loop that collects one value per element. *)
Fixpoint for_each {A C} (f : A -> M C) (l : list A) : M (list C) :=
  match l with
  | [] => mret []
  | x :: tl => y ← f x; ys ← for_each f tl; mret (y :: ys)
  end.

(** A [for] loop that threads an accumulator. *)
Fixpoint for_fold {A S} (f : S -> A -> M S) (l : list A) (s : S) : M S :=
  match l with
  | [] => mret s
  | x :: tl => s' ← f s x; for_fold f tl s'
  end.

(** ** Statistical analysis *)

(** One pass of the distribution loop: constant columns are skipped. *)
Definition distribution_step (tests : gmap string DistributionTest) (col : Series)
  : M (gmap string DistributionTest) :=
  if nunique col >? 1 then
    let values := dropna (s_values col) in
    drawn ← lift (sample (Z.min 5000 (len values)) values);
    '(stat, p_value) ← lift (shapiro drawn);
    mret (<[s_name col :=
              mkDistributionTest stat p_value (PrimFloat.ltb f0_05 p_value)
                                 (skew col) (kurt col)]> tests)
  else mret tests.

(** [DeepAnalysisEngine.statistical_analysis(df)] *)
Definition statistical_analysis (df_ref : nat) : M AnalysisResult :=
  df ← read_frame df_ref;
  let numerical_cols := df_columns (select_number df) in
  stats ← lift (describe (select_number df));
  distribution ← for_fold distribution_step numerical_cols ∅;
  correlations ←
    (if len numerical_cols >? 1 then
       let correlation_matrix := corr (select_number df) in
       strong ← lift (_find_strong_correlations correlation_matrix f0_7);
       mret (Some (mkCorrelations correlation_matrix strong))
     else mret None);
  let results :=
    mkStatisticalResult stats distribution correlations
                        (_perform_hypothesis_tests df) in
  _ ← set_result "statistical" (Statistical results);
  mret (Statistical results).

(** ** Clustering analysis *)

(** The elbow sweep: one fit per candidate [k], keeping the inertia. *)
Definition sweep (X_ref : nat) (ks : list Z) : M (list float) :=
  for_each (fun k =>
              X ← read_frame X_ref;
              fit ← lift (KMeans_fit k X);
              mret (km_inertia fit))
           ks.

(** [DeepAnalysisEngine.clustering_analysis(df, n_clusters)] *)
Definition clustering_analysis (df_ref : nat) (n_clusters : option Z)
  : M AnalysisResult :=
  df ← read_frame df_ref;
  let numerical_cols := df_columns (select_number df) in
  if len numerical_cols <? 2 then
    mret (ErrorResult "Need at least 2 numerical columns for clustering")
  else
    X_ref ← new_frame (fillna column_mean (select_number df));
    X ← read_frame X_ref;
    n_clusters ←
      match n_clusters with
      | None =>
          let k_range := K_range (n_rows X) in
          inertias ← sweep X_ref (range_to_list k_range);
          lift (_find_elbow k_range inertias)
      | Some k => mret k
      end;
    km ← lift (KMeans_fit n_clusters X);
    dbscan_labels ← lift (DBSCAN_fit_predict X);
    let results :=
      mkClusteringResult
        (mkKMeansResult n_clusters (km_labels km) (km_centers km) (km_inertia km)
                        (value_counts (km_labels km)))
        (dbscan_result dbscan_labels) in
    _ ← set_result "clustering" (Clustering results);
    mret (Clustering results).

(** ** Feature importance analysis *)

(** [try: body except Exception as e: handler(e)] *)
Definition try_except {A} (body : M A) (handler : exn -> M A) : M A :=
  mkM (fun w => match run body w with
                | (Ret a, w') => (Ret a, w')
                | (Raise e, w') => run (handler e) w'
                end).

(** The task type the analysis works with: inferred when ['auto']. *)
Definition infer_task_type (task_type : string) (y : Series) : string :=
  if String.eqb task_type "auto" then
    if bool_decide (s_dtype y = Object) || (nunique y <? 10)
    then "classification" else "regression"
  else task_type.

(** [pd.DataFrame({'feature': names, <key>: values})]: the rows of the new
    two-column table; arrays of different lengths are refused. *)
Definition importance_table (names : list string) (values : list float)
  : res (list (string * float)) :=
  if len names =? len values then Ret (combine names values)
  else Raise (ValueError "All arrays must be of the same length").

(** [X.iloc[:n]]: the first [n] rows. *)
Definition iloc_head (n : Z) (df : DataFrame) : DataFrame :=
  mkFrame (Z.min (Z.max 0 n) (n_rows df))
          (map (fun s => mkSeries (s_name s) (s_dtype s)
                                  (take (Z.to_nat n) (s_values s)))
               (df_columns df)).

(** Model fit and held-out performance, by task. *)
Definition fit_and_score (task_type : string) (X_train X_test : DataFrame)
           (y_train y_test : Series) : res (estimator * Performance) :=
  if String.eqb task_type "classification" then
    model ← RandomForestClassifier_fit X_train y_train;
    y_pred ← predict model X_test;
    report ← classification_report y_test y_pred;
    accuracy ← score model X_test y_test;
    Ret (model, ClassificationPerformance report accuracy)
  else
    model ← RandomForestRegressor_fit X_train y_train;
    y_pred ← predict model X_test;
    mse ← mean_squared_error y_test y_pred;
    mse' ← mean_squared_error y_test y_pred;
    r2 ← r2_score y_test y_pred;
    Ret (model, RegressionPerformance mse (PrimFloat.sqrt mse') r2).

(** The body of the [try] on the held-out frame: SHAP attributions on at
    most 100 rows, averaged in absolute value per feature and ranked. *)
Definition shap_attempt (task_type : string) (model : estimator)
           (X_test : DataFrame) (columns : list string) : res (list (string * float)) :=
  let sample_size := Z.min 100 (n_rows X_test) in
  explainer ← TreeExplainer model;
  values ← shap_values explainer (iloc_head sample_size X_test);
  values ← (if String.eqb task_type "classification" && (shap_ndim values =? 3)
            then shap_getitem0 values else Ret values);
  means ← abs_mean0 values;
  table ← importance_table columns means;
  Ret (sort_values_desc table).

Definition shap_step (task_type : string) (model : estimator)
           (X_test_ref : nat) (columns : list string) : M (list (string * float)) :=
  X_test ← read_frame X_test_ref;
  lift (shap_attempt task_type model X_test columns).

(** The [except] branch: the native importances under the SHAP key. *)
Definition shap_fallback (model : estimator) (columns : list string)
  : M (list (string * float)) :=
  table ← lift (importance_table columns (feature_importances_ model));
  mret (sort_values_desc table).

(** [frame.to_dict('records')] for the two tables. *)
Definition importance_records (t : list (string * float)) : list ImportanceRecord :=
  map (fun r => mkImportance (fst r) (snd r)) t.

Definition shap_records (t : list (string * float)) : list ShapRecord :=
  map (fun r => mkShap (fst r) (snd r)) t.

(** [DeepAnalysisEngine.feature_importance_analysis(df, target_column, task_type)] *)
Definition feature_importance_analysis (df_ref : nat) (target_column : string)
           (task_type : string) : M AnalysisResult :=
  df ← read_frame df_ref;
  if negb (has_column target_column df) then
    mret (ErrorResult ("Target column " +:+ target_column +:+ " not found"))
  else
    X_ref ← new_frame (drop_column target_column df);
    y ← lift (get_column target_column df);
    X ← read_frame X_ref;
    X_encoded_ref ← new_frame (get_dummies X);
    X_encoded ← read_frame X_encoded_ref;
    let task_type := infer_task_type task_type y in
    '(X_train, X_test, y_train, y_test) ← lift (train_test_split X_encoded y);
    X_train_ref ← new_frame X_train;
    X_test_ref ← new_frame X_test;
    X_train ← read_frame X_train_ref;
    X_test ← read_frame X_test_ref;
    '(model, performance) ← lift (fit_and_score task_type X_train X_test y_train y_test);
    table ← lift (importance_table (column_names X_encoded) (feature_importances_ model));
    let feature_importance := sort_values_desc table in
    shap_importance ←
      try_except (shap_step task_type model X_test_ref (column_names X_encoded))
                 (fun e => shap_fallback model (column_names X_encoded));
    let results :=
      mkFeatureImportanceResult
        task_type performance
        (importance_records feature_importance)
        (shap_records shap_importance)
        (take 10 (map fst feature_importance)) in
    _ ← set_model target_column model;
    _ ← set_result "feature_importance" (FeatureImportance results);
    mret (FeatureImportance results).

End Engine.

Arguments mkM {B A} run.
Arguments run {B A} m w.

(** The world after a new frame has been stored. *)
Definition stored `{B : Backend} (df : DataFrame) (w : World) : World :=
  mkWorld (<[fresh (dom (frames w)) := df]> (frames w))
          (analysis_results w) (models w).

(** An operation leaves every frame of the store as it found it (it may
    add frames of its own). *)
Definition preserves_frames `{B : Backend} {A} (m : M A) : Prop :=
  forall w, frames w ⊆ frames (snd (run m w)).

(** An outcome that is a returned [ErrorResult]. *)
Definition returns_error `{B : Backend} (r : res AnalysisResult) : Prop :=
  exists msg, r = Ret (ErrorResult msg).

(** An operation that returns a proper result or raises, whatever the world. *)
Definition never_error `{B : Backend} (m : M AnalysisResult) : Prop :=
  forall w, ~ returns_error (fst (run m w)).

(** Whatever an operation returns satisfies [P]. *)
Definition returns_only `{B : Backend} {A} (P : A -> Prop) (m : M A) : Prop :=
  forall w a w', run m w = (Ret a, w') -> P a.

(** The density-based part of a clustering result was computed from the
    labels [DBSCAN] gave on the matrix [X]. *)
Definition dbscan_from `{B : Backend} (X : DataFrame) (r : AnalysisResult) : Prop :=
  match r with
  | Clustering c =>
      DBSCAN_fit_predict X = Ret (dbscan_labels (dbscan c)) /\
      dbscan c = dbscan_result (dbscan_labels (dbscan c))
  | _ => True
  end.

(** The cluster count of a clustering result lies within the sweep of a
    Dataset of [row_count] rows. *)
Definition chosen_k_within `{B : Backend} (row_count : Z) (r : AnalysisResult) : Prop :=
  match r with
  | Clustering c => 2 <= kmeans_n_clusters (kmeans c) <= Z.min 11 row_count - 1
  | _ => True
  end.

(** ** A small backend for running the engine on examples

    Every routine returns a fixed answer of the right shape, the forest's
    importances are one half per feature, label arrays mark the first row as
    noise, and the tree explainer refuses the model. *)

Definition demo_labels (df : DataFrame) : list Z :=
  match Z.to_nat (n_rows df) with
  | O => []
  | S n => -1 :: repeat 0 n
  end.

Definition demo_forest (X : DataFrame) : list float :=
  map (fun _ => 0.5%float) (df_columns X).

Definition demo_corr (df : DataFrame) : CorrMatrix :=
  mkCorr (column_names df)
         (map (fun _ => map (fun _ => 1%float) (df_columns df)) (df_columns df)).

#[local] Instance demo_backend : Backend := {|
  estimator := list float;
  class_report := unit;
  explainer := unit;
  shap_array := unit;
  describe := fun _ => Ret ∅;
  column_mean := fun _ => 0%float;
  skew := fun _ => 0%float;
  kurt := fun _ => 0%float;
  sample := fun n vs => Ret (take (Z.to_nat n) vs);
  corr := demo_corr;
  get_dummies := select_number;
  sort_values_desc := sorted_desc snd;
  shapiro := fun _ => Ret (1%float, 1%float);
  ttest_ind := fun _ _ => Ret (0%float, 1%float);
  f_oneway := fun _ => Ret (0%float, 1%float);
  KMeans_fit := fun k X => Ret (mkKMeansFit (map (fun _ => 0) (demo_labels X)) [] 0%float);
  DBSCAN_fit_predict := fun X => Ret (demo_labels X);
  train_test_split := fun X y => Ret (X, iloc_head 1 X, y, y);
  RandomForestClassifier_fit := fun X _ => Ret (demo_forest X);
  RandomForestRegressor_fit := fun X _ => Ret (demo_forest X);
  predict := fun _ _ => Ret [];
  score := fun _ _ _ => Ret 1%float;
  feature_importances_ := fun model => model;
  classification_report := fun _ _ => Ret tt;
  mean_squared_error := fun _ _ => Ret 0%float;
  r2_score := fun _ _ => Ret 1%float;
  TreeExplainer := fun _ => Raise (LibraryError "Model type not yet supported by TreeExplainer");
  shap_values := fun _ _ => Ret tt;
  shap_ndim := fun _ => 2;
  shap_getitem0 := fun v => Ret v;
  abs_mean0 := fun _ => Ret []
|}.

(** A three-row Dataset: two numeric columns and a categorical one. *)
Definition demo_frame : DataFrame :=
  mkFrame 3 [mkSeries "x" Float64 [VFloat 1; VFloat 2; VNA];
             mkSeries "y" Int64 [VInt 1; VInt 2; VInt 3];
             mkSeries "g" Object [VStr "a"; VStr "b"; VStr "a"]].

(** A two-row Dataset with two numeric columns. *)
Definition tiny_frame : DataFrame :=
  mkFrame 2 [mkSeries "x" Float64 [VFloat 1; VFloat 2];
             mkSeries "y" Int64 [VInt 1; VInt 2]].

Definition world_of (df : DataFrame) : World :=
  mkWorld {[ 0%nat := df ]} ∅ ∅.

(** A numeric target with exactly ten distinct values. *)
Definition ten_valued_target : Series :=
  mkSeries "target" Int64
           (map VInt [1; 2; 3; 4; 5; 6; 7; 8; 9; 10; 1; 2; 3; 4; 5; 6; 7; 8; 9; 10]).

(** A categorical-dtype target with twelve distinct levels. *)
Definition twelve_level_target : Series :=
  mkSeries "level"
           (Category (map VStr ["a"; "b"; "c"; "d"; "e"; "f"; "g"; "h"; "i"; "j"; "k"; "l"]))
           (map VStr ["a"; "b"; "c"; "d"; "e"; "f"; "g"; "h"; "i"; "j"; "k"; "l"]).

(** ** Reference notions for the statements *)

(** A correlation matrix is square: one row and one column per label. *)
Definition square (m : CorrMatrix) : Prop :=
  length (cm_values m) = length (cm_columns m) /\
  Forall (fun row => length row = length (cm_columns m)) (cm_values m).

(** The entry at row [i], column [j] (NaN outside the matrix). *)
Definition cell_at (m : CorrMatrix) (i j : nat) : float :=
  default PrimFloat.nan (row ← cm_values m !! i; row !! j).

(** Ranking by a float key: [a] may come before [b], and the key of [a]
    is a number. *)
Definition key_ge {A} (key : A -> float) (a b : A) : Prop :=
  float_ge (key a) (key b) = true.

Definition key_ok {A} (key : A -> float) (a : A) : Prop :=
  PrimFloat.is_nan (key a) = false.

(** [a] may come before [b] in a ranking by decreasing absolute correlation. *)
Definition abs_ge : StrongCorr -> StrongCorr -> Prop := key_ge abs_correlation.

(** What the strong-correlations list says of one of its records. *)
Definition strong_record_ok (e : StrongCorr) : Prop :=
  float_ge (abs_correlation e) f0_7 = true /\
  (strength e = "very strong" <-> float_ge (abs_correlation e) f0_9 = true) /\
  (strength e = "strong" <-> float_ge (abs_correlation e) f0_9 = false).

(** The record [e] is that of the column pair at positions [i] and [j]: it
    names the two columns, carries the matrix entry of row [i] and column
    [j], and is labelled "very strong" exactly when the absolute value of
    that entry is at least 0.9 (as a binary64 literal), "strong" otherwise. *)
Definition record_of_pair (m : CorrMatrix) (i j : nat) (e : StrongCorr) : Prop :=
  cm_columns m !! i = Some (variable1 e) /\
  cm_columns m !! j = Some (variable2 e) /\
  (exists row, cm_values m !! i = Some row /\ row !! j = Some (correlation e)) /\
  (strength e = "very strong" <->
   PrimFloat.leb 0x1.ccccccccccccdp-1 (PrimFloat.abs (correlation e)) = true) /\
  (strength e = "strong" <->
   PrimFloat.leb 0x1.ccccccccccccdp-1 (PrimFloat.abs (correlation e)) = false).

(** [a] is listed before [b] only if its absolute correlation is at least
    that of [b]. *)
Definition ranked_before (a b : StrongCorr) : Prop :=
  PrimFloat.leb (PrimFloat.abs (correlation b)) (PrimFloat.abs (correlation a)) = true.

(** The observations of category [k]: the non-missing numeric values of the
    rows whose categorical entry is [k], in row order. *)
Definition observations (cat num : Series) (k : cell) : list cell :=
  flat_map (fun row =>
              if cell_eqb (fst row) k && negb (isna (snd row)) then [snd row] else [])
           (combine (s_values cat) (s_values num)).

(** The groups a test can use: the observations of each key, in key order,
    the groups with fewer than 2 observations left out. *)
Definition groups_with_two (cat num : Series) (keys : list cell) : list (list cell) :=
  List.filter (fun g => 2 <=? len g) (map (observations cat num) keys).

(** The dict entry made from the outcome of a test: statistic, p-value and
    significance at 0.05, or the message of what the test raised. *)
Definition entry_of (name : string) (outcome : res (float * float)) (groups_count : Z)
  : TestEntry :=
  match outcome with
  | Ret (stat, p_value) =>
      TestOutcome name stat p_value
                  (PrimFloat.ltb p_value 0x1.999999999999ap-5) groups_count
  | Raise e => TestError (exn_message e)
  end.

(** Two entries of the same kind, and a column whose non-missing entries
    are all of one kind. *)
Definition same_kind (a b : cell) : bool :=
  match a, b with
  | VInt _, VInt _ | VFloat _, VFloat _ | VBool _, VBool _ | VStr _, VStr _ => true
  | _, _ => false
  end.

Definition one_kind (vs : list cell) : Prop :=
  forall a b, a ∈ vs -> b ∈ vs -> isna a = false -> isna b = false ->
              same_kind a b = true.

(** [a] comes strictly before [b] in the order of the entries. *)
Definition cell_lt (a b : cell) : Prop := cell_ltb a b = true.

(** A categorical Dataset column with the categories listed as b, a. *)
Definition reversed_categories : Series :=
  mkSeries "g" (Category [VStr "b"; VStr "a"])
           [VStr "a"; VStr "a"; VStr "b"; VStr "b"].

Definition four_values : Series :=
  mkSeries "v" Int64 [VInt 1; VInt 2; VInt 3; VInt 5].

(** ** Further reference notions *)

(** [v] at position [am] is the first largest entry of [a]. *)
Definition first_maximum (a : list float) (am : Z) (v : float) : Prop :=
  0 <= am /\
  a !! Z.to_nat am = Some v /\
  Forall (fun y => PrimFloat.leb y v = true) a /\
  forall (j : nat) (y : float),
    (j < Z.to_nat am)%nat -> a !! j = Some y -> PrimFloat.ltb y v = true.

Definition no_nan (a : list float) : Prop :=
  Forall (fun y => PrimFloat.is_nan y = false) a.

(** The automatic cluster count of a clustering result, by row count. *)
Definition auto_k_values `{B : Backend} (row_count : Z) (r : AnalysisResult) : Prop :=
  match r with
  | Clustering c =>
      (row_count <= 4 -> kmeans_n_clusters (kmeans c) = 2) /\
      (5 <= row_count -> 4 <= kmeans_n_clusters (kmeans c))
  | _ => True
  end.

(** A five-row Dataset: two numeric columns and a categorical one with two
    groups of two rows and one of a single row. *)
Definition five_row_frame : DataFrame :=
  mkFrame 5 [mkSeries "x" Float64 [VFloat 1; VFloat 2; VFloat 3; VFloat 4; VFloat 5];
             mkSeries "y" Int64 [VInt 5; VInt 4; VInt 3; VInt 2; VInt 1];
             mkSeries "g" Object [VStr "a"; VStr "a"; VStr "b"; VStr "b"; VStr "c"]].

(** ** The session: what the engine object remembers *)

(** The session of [w'] is that of [w]. *)
Definition session_kept `{B : Backend} (w w' : World) : Prop :=
  analysis_results w' = analysis_results w /\ models w' = models w.

(** Every run of [m] ends in a world related to the one it started in. *)
Definition respects `{B : Backend} {A} (R : World -> World -> Prop) (m : M A) : Prop :=
  forall w, R w (snd (run m w)).

(** What one run of an analysis operation did to the session: a proper
    result is stored under [key] (and, for a supervised analysis, some model
    under the target name); an [ErrorResult] or an exception stores nothing. *)
Definition session_effect `{B : Backend} (key : string) (target : option string)
           (w : World) (out : res AnalysisResult) (w' : World) : Prop :=
  match out with
  | Raise _ | Ret (ErrorResult _) => session_kept w w'
  | Ret r =>
      analysis_results w' = <[key := r]> (analysis_results w) /\
      match target with
      | None => models w' = models w
      | Some t => exists model, models w' = <[t := model]> (models w)
      end
  end.

Definition has_session_effect `{B : Backend} (key : string) (target : option string)
           (m : M AnalysisResult) : Prop :=
  forall w, session_effect key target w (fst (run m w)) (snd (run m w)).

(** [DeepAnalysisEngine.__init__]: an engine with no results and no models,
    beside the frames that exist. *)
Definition new_engine `{B : Backend} (store : gmap nat DataFrame) : World :=
  mkWorld store ∅ ∅.

(** The column pairs of the two nested loops of the hypothesis tests, in the
    order visited. *)
Definition column_pairs (df : DataFrame) : list (Series * Series) :=
  flat_map (fun cat_col => map (fun num_col => (cat_col, num_col))
                               (df_columns (select_number df)))
           (df_columns (select_categorical df)).

(** No other pair of the loops writes under the key of [(cat, num)]. *)
Definition key_unique (df : DataFrame) (cat num : Series) : Prop :=
  forall cat' num',
    In (cat', num') (column_pairs df) ->
    pair_key cat' num' = pair_key cat num -> cat' = cat /\ num' = num.

(** One pass of the inner loop body of the hypothesis tests. *)
Definition tests_step `{B : Backend} (tests : gmap string TestEntry)
           (p : Series * Series) : gmap string TestEntry :=
  match test_pair (fst p) (snd p) with
  | Some entry => <[pair_key (fst p) (snd p) := entry]> tests
  | None => tests
  end.

(** The columns of [five_row_frame]. *)
Definition five_x : Series :=
  mkSeries "x" Float64 [VFloat 1; VFloat 2; VFloat 3; VFloat 4; VFloat 5].
Definition five_y : Series :=
  mkSeries "y" Int64 [VInt 5; VInt 4; VInt 3; VInt 2; VInt 1].
Definition five_g : Series :=
  mkSeries "g" Object [VStr "a"; VStr "a"; VStr "b"; VStr "b"; VStr "c"].

(** What a result of [statistical_analysis] on the Dataset [df] looks like. *)
Definition statistical_shape `{B : Backend} (df : DataFrame) (r : AnalysisResult) : Prop :=
  match r with
  | Statistical s =>
      describe (select_number df) = Ret (descriptive_stats s) /\
      (forall name,
          is_Some (distribution_tests s !! name) <->
          exists col, In col (df_columns (select_number df)) /\
                      s_name col = name /\ 1 < nunique col) /\
      (correlations s = None <-> len (df_columns (select_number df)) <= 1) /\
      (forall c, correlations s = Some c ->
                 correlation_matrix c = corr (select_number df) /\
                 _find_strong_correlations (corr (select_number df)) f0_7
                 = Ret (strong_correlations c)) /\
      hypothesis_tests s = _perform_hypothesis_tests df
  | _ => False
  end.

(** What a result of [feature_importance_analysis] looks like, for the
    target series [y] and the task type asked for. *)
Definition importance_shape `{B : Backend} (task : string) (y : Series)
           (r : AnalysisResult) : Prop :=
  match r with
  | FeatureImportance f =>
      task_type f = infer_task_type task y /\
      (task_type f = "classification" <->
       exists report accuracy,
         performance f = ClassificationPerformance report accuracy) /\
      (task_type f <> "classification" <->
       exists mse rmse r2, performance f = RegressionPerformance mse rmse r2) /\
      top_features f = take 10 (map feature (feature_importance f))
  | _ => False
  end.

(** [sum(sizes.values())] *)
Definition sizes_total (sizes : gmap Z Z) : Z :=
  foldr (fun kv acc => snd kv + acc) 0 (map_to_list sizes).

(** The size histograms of a clustering result account for every label. *)
Definition sizes_add_up `{B : Backend} (r : AnalysisResult) : Prop :=
  match r with
  | Clustering c =>
      sizes_total (kmeans_cluster_sizes (kmeans c)) = len (kmeans_labels (kmeans c)) /\
      dbscan_n_noise_points (dbscan c) + sizes_total (dbscan_cluster_sizes (dbscan c))
      = len (dbscan_labels (dbscan c)) /\
      (forall l n, kmeans_cluster_sizes (kmeans c) !! l = Some n -> 1 <= n) /\
      (forall l n, dbscan_cluster_sizes (dbscan c) !! l = Some n -> 1 <= n)
  | _ => True
  end.

(** ** Time series analysis

    A timestamp is its count of nanoseconds since the epoch, [None] is NaT.
    A frame indexed by date is kept in the store with its index as first
    column. *)

Record BasicStats : Type := mkBasicStats {
  start_date : string;
  end_date : string;
  data_points : Z;
  ts_mean : float;
  ts_std : float;
  trend : string
}.

Record Seasonality : Type := mkSeasonality {
  weekly_variation_coefficient : float;
  monthly_variation_coefficient : float;
  has_weekly_pattern : bool;
  has_monthly_pattern : bool;
  weekly_pattern : list (cell * float);
  monthly_pattern : list (cell * float)
}.

(** The value under ['stationarity']: the test outcome, or the error entry
    written when statsmodels cannot be imported. *)
Inductive Stationarity : Type :=
| AdfOutcome (adf_statistic adf_p_value : float) (is_stationary : bool)
             (critical_values : gmap string float)
| StationarityError (error : string).

Record TimeSeriesResult : Type := mkTimeSeriesResult {
  basic_stats : BasicStats;
  seasonality : option Seasonality;
  stationarity : Stationarity
}.

(** What [time_series_analysis] returns: its result dict or the dict with
    the single key ['error']. *)
Inductive TimeSeriesOutcome : Type :=
| TimeSeries (r : TimeSeriesResult)
| TimeSeriesError (error : string).

(** The date and statistics routines behind the time series analysis. *)
Class TimeBackend : Type := {
  (** [pd.to_datetime] on the values of one column *)
  to_datetime : list cell -> res (list (option Z));
  (** the rows (date, value) in the order [sort_values] on the date gives *)
  sort_rows : list (option Z * cell) -> list (option Z * cell);
  sort_rows_perm : forall rows, Permutation (sort_rows rows) rows;
  (** [Timestamp.isoformat()], of NaT as well *)
  isoformat : option Z -> string;
  (** [index.dayofweek] and [index.month]: dtype and values *)
  dayofweek : list (option Z) -> dtype * list cell;
  month : list (option Z) -> dtype * list cell;
  (** [Series.mean()] and [Series.std()] on a column of the frame *)
  value_mean : list cell -> res float;
  value_std : list cell -> res float;
  (** [mean()] and [std()] of a series of group means *)
  pattern_mean : list float -> float;
  pattern_std : list float -> float;
  (** [statsmodels.tsa.stattools.adfuller], [None] when statsmodels cannot
      be imported: statistic, p-value and critical values *)
  adfuller : option (list cell -> res (float * float * gmap string float))
}.

(** The literal [0.1] as Python reads it. *)
Definition f0_1 : float := 0x1.999999999999ap-4%float.

(** How a timestamp sits in a column of cells. *)
Definition date_cell (d : option Z) : cell :=
  match d with Some z => VInt z | None => VNA end.

(** [a > b] on two entries of one column; entries of different kinds do
    not compare. *)
Definition cell_gt (a b : cell) : res bool :=
  match a, b with
  | VInt x, VInt y => Ret (y <? x)
  | VFloat x, VFloat y => Ret (PrimFloat.ltb y x)
  | VBool x, VBool y => Ret (negb y && x)
  | VStr x, VStr y => Ret (String.ltb y x)
  | _, _ => Raise (LibraryError "'>' not supported between these instances")
  end.

(** [index.min()] and [index.max()]: NaT entries are skipped. *)
Definition index_min (index : list (option Z)) : option Z :=
  foldr (fun d acc =>
           match d, acc with
           | Some x, Some y => Some (Z.min x y)
           | Some x, None => Some x
           | None, _ => acc
           end) None index.

Definition index_max (index : list (option Z)) : option Z :=
  foldr (fun d acc =>
           match d, acc with
           | Some x, Some y => Some (Z.max x y)
           | Some x, None => Some x
           | None, _ => acc
           end) None index.

(** [frame[name] = values]: the column is replaced, or added at the end. *)
Fixpoint set_column (s : Series) (columns : list Series) : list Series :=
  match columns with
  | [] => [s]
  | c :: tl =>
      if String.eqb (s_name s) (s_name c) then s :: tl else c :: set_column s tl
  end.

(** [frame[name]] among the columns of an indexed frame. *)
Definition column_of (name : string) (columns : list Series) : res Series :=
  match List.find (fun s => String.eqb name (s_name s)) columns with
  | Some s => Ret s
  | None => Raise (KeyError name)
  end.

(** The frame of an index and its columns, as the store keeps it. *)
Definition indexed_frame (date_column : string) (index : list (option Z))
           (columns : list Series) : DataFrame :=
  mkFrame (len index)
          (mkSeries date_column Datetime64 (map date_cell index) :: columns).

(** A collecting loop over steps that may raise. *)
Fixpoint for_each_res {A C} (f : A -> res C) (l : list A) : res (list C) :=
  match l with
  | [] => Ret []
  | x :: tl => y ← f x; ys ← for_each_res f tl; Ret (y :: ys)
  end.

Section TimeSeries.

Context `{B : Backend} `{T : TimeBackend}.

(** The engine object with the slot of its ['time_series'] result, which
    [analysis_results] holds beside the other three. *)
Record Session : Type := mkSession {
  engine_world : World;
  time_series_slot : option TimeSeriesResult
}.

Record MS (A : Type) : Type := mkMS { run_session : Session -> res A * Session }.
Arguments mkMS {A} run_session.
Arguments run_session {A} m s.

#[global] Instance MS_ret : MRet MS := fun A a => mkMS (fun s => (Ret a, s)).
#[global] Instance MS_bind : MBind MS := fun A C k m =>
  mkMS (fun s => match run_session m s with
                 | (Ret a, s') => run_session (k a) s'
                 | (Raise e, s') => (Raise e, s')
                 end).

(** A step on the store and the other results. *)
Definition in_world {A} (m : M A) : MS A :=
  mkMS (fun s => let (r, w') := run m (engine_world s) in
                 (r, mkSession w' (time_series_slot s))).

(** [frame[name] = values] on a frame of the store. *)
Definition write_frame (l : nat) (df : DataFrame) : M unit :=
  mkM (fun w => (Ret tt, mkWorld (<[l := df]> (frames w)) (analysis_results w) (models w))).

(** [self.analysis_results['time_series'] = results] *)
Definition set_time_series (r : TimeSeriesResult) : MS unit :=
  mkMS (fun s => (Ret tt, mkSession (engine_world s) (Some r))).

(** [frame.groupby(key)[value_column].mean()]: the mean of each group, by
    key in ascending order.  A key that also names the index is refused. *)
Definition group_means (date_column key value_column : string)
           (columns : list Series) : res (list (cell * float)) :=
  if String.eqb date_column key then
    Raise (ValueError ("'" +:+ key
                       +:+ "' is both an index level and a column label, which is ambiguous."))
  else
    keys ← column_of key columns;
    values ← column_of value_column columns;
    for_each_res (fun k => m ← value_mean (group_values keys values k); Ret (k, m))
                 (group_keys keys).

(** [pattern.std() / pattern.mean()] *)
Definition variation (pattern : list (cell * float)) : float :=
  PrimFloat.div (pattern_std (map snd pattern)) (pattern_mean (map snd pattern)).

(** The seasonality section, on the frame behind [ts_ref]; the day and
    month columns are written into that frame. *)
Definition seasonality_section (ts_ref : nat) (date_column value_column : string)
           (index : list (option Z)) (columns : list Series)
  : M (Seasonality * list Series) :=
  let columns :=
    set_column (mkSeries "day_of_week" (fst (dayofweek index)) (snd (dayofweek index)))
               columns in
  _ ← write_frame ts_ref (indexed_frame date_column index columns);
  weekly ← lift (group_means date_column "day_of_week" value_column columns);
  let weekly_variation := variation weekly in
  let columns :=
    set_column (mkSeries "month" (fst (month index)) (snd (month index))) columns in
  _ ← write_frame ts_ref (indexed_frame date_column index columns);
  monthly ← lift (group_means date_column "month" value_column columns);
  let monthly_variation := variation monthly in
  mret (mkSeasonality weekly_variation monthly_variation
                      (PrimFloat.ltb f0_1 weekly_variation)
                      (PrimFloat.ltb f0_1 monthly_variation)
                      weekly monthly,
        columns).

(** The stationarity section: only a failed import is caught. *)
Definition stationarity_section (values : list cell) : res Stationarity :=
  match adfuller with
  | Some test =>
      '(statistic, p_value, critical) ← test (dropna values);
      Ret (AdfOutcome statistic p_value (PrimFloat.ltb p_value f0_05) critical)
  | None => Ret (StationarityError "statsmodels not available")
  end.

(** [DeepAnalysisEngine.time_series_analysis(df, date_column, value_column)] *)
Definition time_series_analysis (df_ref : nat) (date_column value_column : string)
  : MS TimeSeriesOutcome :=
  df ← in_world (read_frame df_ref);
  if negb (has_column date_column df) || negb (has_column value_column df) then
    mret (TimeSeriesError "Date or value column not found")
  else
    dates_in ← in_world (lift (get_column date_column df));
    values_in ← in_world (lift (get_column value_column df));
    ts_ref ← in_world (new_frame (mkFrame (n_rows df) [dates_in; values_in]));
    dates ← in_world (lift (if String.eqb date_column value_column
                            then Raise (ValueError "cannot assemble with duplicate keys")
                            else to_datetime (s_values dates_in)));
    (* the assignment of the converted column is refused on another length *)
    _ ← in_world (lift (if len dates =? len (s_values dates_in) then Ret tt
                        else Raise (ValueError
                                      "Length of values does not match length of index")));
    _ ← in_world (write_frame ts_ref
                    (mkFrame (n_rows df)
                             [mkSeries date_column Datetime64 (map date_cell dates);
                              values_in]));
    let sorted := sort_rows (combine dates (s_values values_in)) in
    sorted_ref ← in_world (new_frame
                   (indexed_frame date_column (map fst sorted)
                      [mkSeries value_column (s_dtype values_in) (map snd sorted)]));
    let clean := List.filter (fun row => negb (isna (snd row))) sorted in
    let index := map fst clean in
    let columns := [mkSeries value_column (s_dtype values_in) (map snd clean)] in
    clean_ref ← in_world (new_frame (indexed_frame date_column index columns));
    if len clean <? 10 then
      mret (TimeSeriesError "Not enough data points for time series analysis")
    else
      values ← in_world (lift (column_of value_column columns));
      mean ← in_world (lift (value_mean (s_values values)));
      std ← in_world (lift (value_std (s_values values)));
      rising ← in_world (lift (cell_gt (List.last (s_values values) VNA)
                                       (hd VNA (s_values values))));
      let stats :=
        mkBasicStats (isoformat (index_min index)) (isoformat (index_max index))
                     (len clean) mean std
                     (if (rising : bool) then "increasing" else "decreasing") in
      '(season, columns) ←
        (if len clean >=? 24 then
           '(section, columns) ← in_world (seasonality_section clean_ref date_column
                                              value_column index columns);
           mret (Some section, columns)
         else mret (None, columns));
      values ← in_world (lift (column_of value_column columns));
      stationary ← in_world (lift (stationarity_section (s_values values)));
      let results := mkTimeSeriesResult stats season stationary in
      _ ← set_time_series results;
      mret (TimeSeries results).

(** [DeepAnalysisEngine.get_analysis_summary()]: a copy of the results held,
    the time series result with the others. *)
Definition get_analysis_summary
  : MS (gmap string AnalysisResult * option TimeSeriesResult) :=
  mkMS (fun s => (Ret (analysis_results (engine_world s), time_series_slot s), s)).

(** [DeepAnalysisEngine()]: no results and no models yet. *)
Definition new_session (store : gmap nat DataFrame) : Session :=
  mkSession (new_engine store) None.

End TimeSeries.

Arguments mkMS {B A} run_session.
Arguments run_session {B A} m s.

(** ** A small time backend for running the analysis on examples

    Integer cells are read as timestamps, rows are sorted by insertion with
    NaT last, every day is a Thursday of January and statsmodels is
    missing. *)

Definition date_le (a b : option Z) : bool :=
  match a, b with
  | Some x, Some y => x <=? y
  | Some _, None => true
  | None, Some _ => false
  | None, None => true
  end.

Fixpoint insert_row (r : option Z * cell) (l : list (option Z * cell))
  : list (option Z * cell) :=
  match l with
  | [] => [r]
  | y :: tl => if date_le (fst r) (fst y) then r :: l else y :: insert_row r tl
  end.

Definition demo_sort_rows (l : list (option Z * cell)) : list (option Z * cell) :=
  foldr insert_row [] l.

Lemma insert_row_perm (r : option Z * cell) (l : list (option Z * cell)) :
  Permutation (insert_row r l) (r :: l).
Proof.
  induction l as [| y tl IH]; simpl; [ reflexivity | ].
  destruct (date_le (fst r) (fst y)); [ reflexivity | ].
  rewrite IH. apply perm_swap.
Qed.

Lemma demo_sort_rows_perm (l : list (option Z * cell)) :
  Permutation (demo_sort_rows l) l.
Proof.
  induction l as [| x tl IH]; simpl; [ reflexivity | ].
  rewrite insert_row_perm. constructor. assumption.
Qed.

#[local] Instance demo_time_backend : TimeBackend := {|
  to_datetime := fun vs =>
    Ret (map (fun c => match c with VInt z => Some z | _ => None end) vs);
  sort_rows := demo_sort_rows;
  sort_rows_perm := demo_sort_rows_perm;
  isoformat := fun d => match d with Some _ => "1970-01-01T00:00:00" | None => "NaT" end;
  dayofweek := fun index => (Int64, map (fun _ => VInt 3) index);
  month := fun index => (Int64, map (fun _ => VInt 1) index);
  value_mean := fun _ => Ret 7%float;
  value_std := fun _ => Ret 0%float;
  pattern_mean := fun _ => 7%float;
  pattern_std := fun _ => 0%float;
  adfuller := None
|}.

(** Twelve rows of a constant series, one value missing. *)
Definition flat_series_frame : DataFrame :=
  mkFrame 12
    [mkSeries "day" Int64 (map VInt [3; 1; 2; 4; 5; 6; 7; 8; 9; 10; 11; 12]);
     mkSeries "sales" Int64
              [VInt 7; VInt 7; VNA; VInt 7; VInt 7; VInt 7;
               VInt 7; VInt 7; VInt 7; VInt 7; VInt 7; VInt 7]].

(** Four rows: too few for a time series. *)
Definition short_series_frame : DataFrame :=
  mkFrame 4 [mkSeries "day" Int64 (map VInt [1; 2; 3; 4]);
             mkSeries "sales" Int64 [VInt 5; VInt 6; VInt 7; VInt 8]].

Definition session_of (df : DataFrame) : Session :=
  mkSession (world_of df) None.

(** Whatever a step of the time series analysis returns satisfies [P]. *)
Definition returns_ms `{B : Backend} {A} (P : A -> Prop) (m : MS A) : Prop :=
  forall s a s', run_session m s = (Ret a, s') -> P a.

(** What [time_series_analysis] can return on a value column with [n]
    non-missing entries. *)
Definition series_shape `{T : TimeBackend} (n : Z) (out : TimeSeriesOutcome) : Prop :=
  match out with
  | TimeSeriesError msg =>
      msg = "Not enough data points for time series analysis" /\ n < 10
  | TimeSeries r =>
      10 <= n /\
      data_points (basic_stats r) = n /\
      (is_Some (seasonality r) <-> 24 <= n) /\
      (trend (basic_stats r) = "increasing" \/ trend (basic_stats r) = "decreasing") /\
      (stationarity r = StationarityError "statsmodels not available" <->
       adfuller = None)
  end.

(** A returned time series result reports a decreasing trend. *)
Definition reports_decreasing (out : TimeSeriesOutcome) : Prop :=
  match out with
  | TimeSeries r => trend (basic_stats r) = "decreasing"
  | TimeSeriesError _ => True
  end.

(** Started in a store that holds the frames of [w0], a step ends in such a
    store, and what it returns satisfies [Q]. *)
Definition keeps_old `{B : Backend} {A} (w0 : World) (Q : A -> Prop) (m : M A) : Prop :=
  forall w, frames w0 ⊆ frames w ->
            frames w0 ⊆ frames (snd (run m w)) /\
            forall a, fst (run m w) = Ret a -> Q a.

Definition keeps_old_ms `{B : Backend} {A} (w0 : World) (Q : A -> Prop) (m : MS A)
  : Prop :=
  forall s, frames w0 ⊆ frames (engine_world s) ->
            frames w0 ⊆ frames (engine_world (snd (run_session m s))) /\
            forall a, fst (run_session m s) = Ret a -> Q a.

(** The reference is not one of the frames of [w0]. *)
Definition new_to `{B : Backend} (w0 : World) (l : nat) : Prop :=
  frames w0 !! l = None.

(** Results, models and the time series slot of [s'] are those of [s]. *)
Definition session_quiet `{B : Backend} (s s' : Session) : Prop :=
  session_kept (engine_world s) (engine_world s') /\
  time_series_slot s' = time_series_slot s.

Definition quiet `{B : Backend} {A} (m : MS A) : Prop :=
  forall s, session_quiet s (snd (run_session m s)).

(** What one run of [time_series_analysis] did to the session: a result is
    put in the time series slot, an error or an exception changes nothing;
    the other results and the models are never touched. *)
Definition time_series_effect `{B : Backend} (s : Session)
           (out : res TimeSeriesOutcome) (s' : Session) : Prop :=
  session_kept (engine_world s) (engine_world s') /\
  match out with
  | Ret (TimeSeries r) => time_series_slot s' = Some r
  | _ => time_series_slot s' = time_series_slot s
  end.

Definition has_time_series_effect `{B : Backend} (m : MS TimeSeriesOutcome) : Prop :=
  forall s, time_series_effect s (fst (run_session m s)) (snd (run_session m s)).

(** The results dict after a clustering run that returned [r]. *)
Definition with_clustering `{B : Backend} (r : AnalysisResult)
           (results : gmap string AnalysisResult) : gmap string AnalysisResult :=
  match r with
  | ErrorResult _ => results
  | _ => <["clustering" := r]> results
  end.

(** The time series slot after a run that returned [out]. *)
Definition with_time_series (out : TimeSeriesOutcome) (slot : option TimeSeriesResult)
  : option TimeSeriesResult :=
  match out with
  | TimeSeries r => Some r
  | TimeSeriesError _ => slot
  end.

(** ** Facts on the order of binary64 values *)

Module FloatOrderFacts.

Import FloatOrder.

Ltac finite_cases e1 e2 m1 m2 :=
  change (PosDef.Pos.compare_cont Eq m1 m2) with (Pos.compare m1 m2);
  destruct (Z.compare_spec e1 e2); destruct (Pos.compare_spec m1 m2);
  simpl;
  (split;
   [ intros Hc; try discriminate Hc; repeat split; try discriminate; lia
   | intros (_ & _ & Hc); try reflexivity; exfalso; lia ]).

Lemma SFleb_lex (a b : spec_float) :
  SFleb a b = true <-> not_nan a /\ not_nan b /\ lex_le a b.
Proof.
  unfold SFleb, not_nan, lex_le.
  destruct a as [[]|[]| |[] m1 e1], b as [[]|[]| |[] m2 e2]; simpl;
    try (split; [ intros; repeat split; try discriminate; lia
                | intros (? & ? & ?); try reflexivity; try congruence; lia ]).
  - finite_cases e1 e2 m1 m2.
  - finite_cases e1 e2 m1 m2.
Qed.

Lemma SFltb_lex (a b : spec_float) :
  SFltb a b = true <-> not_nan a /\ not_nan b /\ lex_lt a b.
Proof.
  unfold SFltb, not_nan, lex_lt.
  destruct a as [[]|[]| |[] m1 e1], b as [[]|[]| |[] m2 e2]; simpl;
    try (split; [ intros; repeat split; try discriminate; lia
                | intros (? & ? & ?); try reflexivity; try congruence; lia ]).
  - finite_cases e1 e2 m1 m2.
  - finite_cases e1 e2 m1 m2.
Qed.

Lemma is_nan_spec (x : float) :
  PrimFloat.is_nan x = false <-> not_nan (Prim2SF x).
Proof.
  unfold PrimFloat.is_nan, not_nan. rewrite FloatAxioms.eqb_spec. unfold SFeqb.
  destruct (Prim2SF x) as [[]|[]| |[] m e]; simpl;
    try (split; [ intros; discriminate | reflexivity ]);
    try (split; [ discriminate | intros H; exfalso; apply H; reflexivity ]).
  - rewrite Z.compare_refl. fold (Pos.compare m m). rewrite Pos.compare_refl.
    split; [ intros; discriminate | reflexivity ].
  - rewrite Z.compare_refl. fold (Pos.compare m m). rewrite Pos.compare_refl.
    split; [ intros; discriminate | reflexivity ].
Qed.

(** [x <= y] holds only between two non-NaN values. *)
Lemma leb_not_nan (x y : float) :
  PrimFloat.leb x y = true ->
  PrimFloat.is_nan x = false /\ PrimFloat.is_nan y = false.
Proof.
  rewrite FloatAxioms.leb_spec, SFleb_lex, !is_nan_spec. tauto.
Qed.

Lemma leb_trans (x y z : float) :
  PrimFloat.leb x y = true -> PrimFloat.leb y z = true ->
  PrimFloat.leb x z = true.
Proof.
  rewrite !FloatAxioms.leb_spec, !SFleb_lex. unfold lex_le.
  intros (? & ? & ?) (? & ? & ?). repeat split; try assumption. lia.
Qed.

(** Away from NaN, [not (x < y)] is [y <= x]. *)
Lemma not_ltb_leb (x y : float) :
  PrimFloat.is_nan x = false -> PrimFloat.is_nan y = false ->
  PrimFloat.ltb x y = false -> PrimFloat.leb y x = true.
Proof.
  rewrite !is_nan_spec, FloatAxioms.leb_spec, SFleb_lex. intros Hx Hy Hlt.
  repeat split; try assumption.
  destruct (SFltb (Prim2SF x) (Prim2SF y)) eqn:E; rewrite FloatAxioms.ltb_spec in Hlt;
    [ congruence | ].
  assert (~ lex_lt (Prim2SF x) (Prim2SF y)) as Hn.
  { intros Hl. assert (SFltb (Prim2SF x) (Prim2SF y) = true) as Ht
      by (apply SFltb_lex; tauto). congruence. }
  unfold lex_lt in Hn. unfold lex_le. lia.
Qed.

Lemma ltb_leb (x y : float) :
  PrimFloat.ltb x y = true -> PrimFloat.leb x y = true.
Proof.
  rewrite FloatAxioms.ltb_spec, FloatAxioms.leb_spec, SFltb_lex, SFleb_lex. unfold lex_lt, lex_le.
  intros (? & ? & ?). repeat split; try assumption. lia.
Qed.

(** [abs] keeps NaN apart from the numbers. *)
Lemma abs_not_nan (x : float) :
  PrimFloat.is_nan (PrimFloat.abs x) = false <-> PrimFloat.is_nan x = false.
Proof.
  rewrite !is_nan_spec, FloatAxioms.abs_spec. unfold not_nan, SFabs.
  destruct (Prim2SF x); simpl; split; intros; congruence.
Qed.

End FloatOrderFacts.

Example K_range_20 : range_to_list (K_range 20) = [2; 3; 4; 5; 6; 7; 8; 9; 10].
Proof. reflexivity. Qed.

Example K_range_5 : range_to_list (K_range 5) = [2; 3; 4].
Proof. reflexivity. Qed.

Example find_elbow_two :
  _find_elbow (mkRange 2 4) [10%float; 5%float] = Ret 2.
Proof. reflexivity. Qed.

Example find_elbow_sharp :
  _find_elbow (K_range 7) [100%float; 40%float; 30%float; 25%float; 22%float] = Ret 4.
Proof. vm_compute. reflexivity. Qed.

Example nunique_ex :
  nunique (mkSeries "y" Int64 [VInt 1; VInt 2; VNA; VInt 1; VInt 3]) = 3.
Proof. reflexivity. Qed.

Example dbscan_result_ex :
  let r := dbscan_result [0; 0; -1; 1; -1; 0] in
  dbscan_n_clusters r = 2 /\ dbscan_n_noise_points r = 2 /\
  dbscan_cluster_sizes r !! 0 = Some 3 /\ dbscan_cluster_sizes r !! 1 = Some 1 /\
  dbscan_cluster_sizes r !! (-1) = None.
Proof. vm_compute. repeat split; reflexivity. Qed.

Example index_pairs_3 : index_pairs 3 = [(0, 1); (0, 2); (1, 2)]%nat.
Proof. reflexivity. Qed.

Example strong_correlations_example :
  _find_strong_correlations corr_example f0_7 =
  Ret [mkStrongCorr "a" "c" (-0.9375)%float "very strong";
       mkStrongCorr "a" "b" 0.75%float "strong"].
Proof. vm_compute. reflexivity. Qed.

(** ** Ranges and the elbow selection *)

Lemma len_nonneg {A} (l : list A) : 0 <= len l.
Proof. unfold len. lia. Qed.

Lemma range_getitem_inside (r : range) (i : Z) :
  0 <= i < range_len r -> range_getitem r i = Ret (start r + i).
Proof.
  intros Hi. unfold range_getitem.
  destruct (i <? 0) eqn:Hneg; [ apply Z.ltb_lt in Hneg; lia | ].
  destruct (0 <=? i) eqn:H0; [ | apply Z.leb_gt in H0; lia ].
  destruct (i <? range_len r) eqn:H1; [ reflexivity | apply Z.ltb_ge in H1; lia ].
Qed.

Lemma range_getitem_empty (r : range) (i : Z) :
  range_len r = 0 ->
  range_getitem r i = Raise (IndexError "range object index out of range").
Proof.
  intros Hlen. unfold range_getitem. rewrite Hlen.
  destruct (i <? 0) eqn:Hneg.
  - apply Z.ltb_lt in Hneg.
    destruct (0 <=? i + 0) eqn:H0; [ apply Z.leb_le in H0; lia | reflexivity ].
  - destruct (i <? 0) eqn:H1; [ congruence | ].
    rewrite andb_false_r. reflexivity.
Qed.

Lemma range_to_list_spec (r : range) (k : Z) :
  In k (range_to_list r) <-> start r <= k < stop r.
Proof.
  unfold range_to_list, range_len. rewrite in_map_iff. split.
  - intros (i & <- & Hi). apply in_seq in Hi. lia.
  - intros Hk. exists (Z.to_nat (k - start r)). split; [ lia | ].
    apply in_seq. lia.
Qed.

Lemma argmax_scan_bounds (a : list float) :
  forall mp best i, 0 <= best -> 0 <= i -> 0 <= Np.argmax_scan mp best i a.
Proof.
  induction a as [| x tl IH]; intros mp best i Hb Hi; simpl; [ assumption | ].
  destruct (PrimFloat.is_nan mp); [ assumption | ].
  destruct (negb (PrimFloat.leb x mp)); apply IH; lia.
Qed.

Lemma argmax_nonempty (a : list float) :
  len a > 0 -> exists am, Np.argmax a = Ret am /\ 0 <= am.
Proof.
  destruct a as [| x tl]; unfold len; simpl; [ lia | ].
  intros _. eexists. split; [ reflexivity | ].
  apply argmax_scan_bounds; lia.
Qed.

(** Whatever the inertias, a non-empty candidate range yields one of its
    own elements. *)
Lemma find_elbow_in_range (k_range : range) (inertias : list float) :
  start k_range < stop k_range ->
  exists k, _find_elbow k_range inertias = Ret k /\
            start k_range <= k < stop k_range.
Proof.
  intros Hne.
  assert (range_len k_range = stop k_range - start k_range) as Hlen
      by (unfold range_len; lia).
  unfold _find_elbow.
  destruct (len inertias <? 3).
  - exists (start k_range + 0). split; [ apply range_getitem_inside | ]; lia.
  - destruct (len (Np.diff (Np.diff inertias)) >? 0) eqn:Hd.
    + destruct (argmax_nonempty (Np.diff (Np.diff inertias))) as (am & Ham & Hpos);
        [ lia | ].
      rewrite Ham. simpl.
      eexists. split; [ apply range_getitem_inside | ]; lia.
    + eexists. split.
      * apply range_getitem_inside.
        split; [ apply Z.div_pos | apply Z.div_lt_upper_bound ]; lia.
      * pose proof (Z.div_pos (range_len k_range) 2).
        pose proof (Z.div_lt_upper_bound (range_len k_range) 2 (range_len k_range)).
        lia.
Qed.

(** C6, as stated, fails: with two inertia samples the selection returns the
    first candidate, not the middle one.  Rows 4 give the candidates [2; 3]
    with middle [k_range[len // 2] = 3]; the same happens on the full range
    [2 .. 10], whose middle is 6. *)
Lemma find_elbow_two_samples_first_not_middle :
  len [10%float; 5%float] = 2 /\
  _find_elbow (K_range 4) [10%float; 5%float] = Ret 2 /\
  range_getitem (K_range 4) (range_len (K_range 4) / 2) = Ret 3 /\
  _find_elbow (K_range 4) [10%float; 5%float]
    <> range_getitem (K_range 4) (range_len (K_range 4) / 2) /\
  _find_elbow (K_range 11) [10%float; 5%float] = Ret 2 /\
  range_getitem (K_range 11) (range_len (K_range 11) / 2) = Ret 6.
Proof. repeat split; try reflexivity. vm_compute. discriminate. Qed.

(** C6, amended: with fewer than 3 inertia samples (one or two) and a
    non-empty candidate range, the selection returns the first candidate. *)
Theorem find_elbow_few_samples_first (k_range : range) (inertias : list float) :
  len inertias < 3 ->
  start k_range < stop k_range ->
  _find_elbow k_range inertias = Ret (start k_range).
Proof.
  intros Hfew Hne. unfold _find_elbow.
  destruct (len inertias <? 3) eqn:E; [ | apply Z.ltb_ge in E; lia ].
  rewrite range_getitem_inside; [ f_equal; lia | ].
  unfold range_len. lia.
Qed.

Lemma find_elbow_few_samples_first_witness :
  _find_elbow (K_range 4) [10%float; 5%float] = Ret (start (K_range 4)).
Proof.
  apply (find_elbow_few_samples_first (K_range 4) [10%float; 5%float]).
  - vm_compute. reflexivity.
  - vm_compute. reflexivity.
Defined.

(** C1, as stated, fails: the sweep stops short of [min(11, row_count)].
    With 20 rows, 11 is inside [2, min(11, 20)] and is not a candidate. *)
Lemma sweep_excludes_upper_bound :
  2 <= 11 <= Z.min 11 20 /\ ~ In 11 (range_to_list (K_range 20)).
Proof.
  split; [ vm_compute; split; discriminate | ].
  rewrite range_to_list_spec. simpl. lia.
Qed.

Lemma find_elbow_ret_in_range (k_range : range) (inertias : list float) (k : Z) :
  _find_elbow k_range inertias = Ret k -> start k_range <= k < stop k_range.
Proof.
  intros Hk. destruct (Z.lt_ge_cases (start k_range) (stop k_range)) as [Hne | Hempty].
  - destruct (find_elbow_in_range k_range inertias Hne) as (k' & Hk' & Hin).
    rewrite Hk' in Hk. injection Hk as <-. exact Hin.
  - exfalso. assert (range_len k_range = 0) as Hlen by (unfold range_len; lia).
    unfold _find_elbow in Hk.
    destruct (len inertias <? 3);
      [ rewrite (range_getitem_empty _ _ Hlen) in Hk; discriminate | ].
    destruct (len (Np.diff (Np.diff inertias)) >? 0);
      [ | rewrite (range_getitem_empty _ _ Hlen) in Hk; discriminate ].
    destruct (Np.argmax (Np.diff (Np.diff inertias))) as [am | e]; simpl in Hk;
      [ rewrite (range_getitem_empty _ _ Hlen) in Hk | ]; discriminate.
Qed.

(** ** Task-type inference *)

(** C2, as stated, fails: a numeric target with exactly 10 distinct values
    is inferred as regression (the test is [nunique < 10]). *)
Lemma ten_distinct_numeric_is_regression :
  is_number (s_dtype ten_valued_target) = true /\
  nunique ten_valued_target = 10 /\
  infer_task_type "auto" ten_valued_target = "regression".
Proof. repeat split; reflexivity. Qed.

(** The dtype test is [== 'object'] alone: a categorical-dtype target with
    ten or more levels is inferred as regression as well. *)
Example category_target_is_regression :
  is_number (s_dtype twelve_level_target) = false /\
  infer_task_type "auto" twelve_level_target = "regression".
Proof. repeat split; reflexivity. Qed.

(** C2, amended: under ['auto'] the task is classification exactly when the
    target's dtype is [object] or it has fewer than 10 distinct values, and
    regression otherwise; a numeric target with exactly 10 distinct values
    is inferred as regression.  An explicit task type is kept as given. *)
Theorem infer_task_type_spec (y : Series) :
  (infer_task_type "auto" y = "classification" <->
   s_dtype y = Object \/ nunique y < 10) /\
  (infer_task_type "auto" y = "regression" <->
   s_dtype y <> Object /\ 10 <= nunique y) /\
  (is_number (s_dtype y) = true -> nunique y = 10 ->
   infer_task_type "auto" y = "regression") /\
  (forall task, task <> "auto" -> infer_task_type task y = task).
Proof.
  assert (forall task, task <> "auto" -> infer_task_type task y = task) as Hkeep.
  { intros task Htask. unfold infer_task_type.
    destruct (String.eqb_spec task "auto"); congruence. }
  assert (infer_task_type "auto" y =
          if bool_decide (s_dtype y = Object) || (nunique y <? 10)
          then "classification" else "regression") as Hauto by reflexivity.
  rewrite Hauto.
  destruct (bool_decide (s_dtype y = Object)) eqn:Hd;
    [ apply bool_decide_eq_true in Hd | apply bool_decide_eq_false in Hd ];
    (destruct (nunique y <? 10) eqn:Hn;
     [ apply Z.ltb_lt in Hn | apply Z.ltb_ge in Hn ]); simpl.
  all: repeat split; intros; try assumption; try reflexivity;
    try discriminate; try tauto; try lia;
    try (rewrite Hd in *; discriminate);
    try (apply Hkeep; assumption);
    try (match goal with H : _ \/ _ |- _ => destruct H; [ contradiction | lia ] end).
Qed.

Lemma infer_task_type_spec_witness :
  infer_task_type "auto" ten_valued_target = "regression".
Proof.
  apply (infer_task_type_spec ten_valued_target); reflexivity.
Defined.

(** ** The density-based clustering summary *)

Lemma count_count_occ (v : Z) (labels : list Z) :
  count v labels = Z.of_nat (count_occ Z.eq_dec labels v).
Proof.
  unfold count, len. f_equal.
  induction labels as [| x tl IH]; simpl; [ reflexivity | ].
  destruct (Z.eqb_spec v x) as [-> | Hne].
  - destruct (Z.eq_dec x x); [ simpl; congruence | contradiction ].
  - destruct (Z.eq_dec x v); [ congruence | assumption ].
Qed.

Lemma contains_elem_of (v : Z) (labels : list Z) :
  contains v labels = true <-> v ∈ labels.
Proof.
  unfold contains. rewrite existsb_exists, list_elem_of_In. split.
  - intros (x & Hin & Heq). apply Z.eqb_eq in Heq. congruence.
  - intros Hin. exists v. split; [ assumption | apply Z.eqb_refl ].
Qed.

Lemma value_counts_lookup (labels : list Z) (l : Z) :
  value_counts labels !! l =
  if bool_decide (l ∈ labels)
  then Some (Z.of_nat (count_occ Z.eq_dec labels l)) else None.
Proof.
  induction labels as [| x tl IH].
  - unfold value_counts; cbn [foldr]. rewrite lookup_empty.
    case_bool_decide as Hin; [ | reflexivity ].
    apply not_elem_of_nil in Hin. contradiction.
  - change (value_counts (x :: tl))
      with (<[x := default 0 (value_counts tl !! x) + 1]> (value_counts tl)).
    cbn [count_occ].
    destruct (Z.eq_dec x l) as [-> | Hne].
    + rewrite lookup_insert_eq, IH.
      rewrite (bool_decide_eq_true_2 (l ∈ l :: tl)) by apply list_elem_of_here.
      f_equal. case_bool_decide as Hin; unfold default; cbn [from_option id]; [ lia | ].
      rewrite (proj1 (count_occ_not_In Z.eq_dec tl l)); [ reflexivity | ].
      rewrite <- list_elem_of_In. assumption.
    + rewrite lookup_insert_ne by assumption. rewrite IH.
      case_bool_decide as Hin.
      * rewrite bool_decide_eq_true_2; [ reflexivity | ].
        apply list_elem_of_further. assumption.
      * rewrite bool_decide_eq_false_2; [ reflexivity | ].
        intros Hx. apply elem_of_cons in Hx. destruct Hx; congruence.
Qed.

Lemma count_occ_without (v : Z) (labels : list Z) (l : Z) :
  l <> v ->
  count_occ Z.eq_dec (List.filter (fun x => negb (x =? v)) labels) l =
  count_occ Z.eq_dec labels l.
Proof.
  intros Hne. induction labels as [| x tl IH]; simpl; [ reflexivity | ].
  destruct (Z.eqb_spec x v) as [-> | Hxv]; simpl.
  - destruct (Z.eq_dec v l); [ congruence | assumption ].
  - destruct (Z.eq_dec x l); congruence.
Qed.

Lemma elem_of_without (v : Z) (labels : list Z) (l : Z) :
  l ∈ List.filter (fun x => negb (x =? v)) labels <-> l ∈ labels /\ l <> v.
Proof.
  rewrite !list_elem_of_In, filter_In. split.
  - intros [Hin Hb]. split; [ assumption | ].
    destruct (Z.eqb_spec l v); [ discriminate | assumption ].
  - intros [Hin Hne]. split; [ assumption | ].
    destruct (Z.eqb_spec l v); [ contradiction | reflexivity ].
Qed.

Lemma distinct_without (v : Z) (labels : list Z) :
  Z.of_nat (size (list_to_set labels : gset Z))
    - (if contains v labels then 1 else 0)
  = Z.of_nat (size ((list_to_set labels : gset Z) ∖ {[ v ]})).
Proof.
  destruct (contains v labels) eqn:Hc.
  - apply contains_elem_of in Hc.
    assert ({[ v ]} ⊆ (list_to_set labels : gset Z)) as Hsub.
    { apply singleton_subseteq_l. apply elem_of_list_to_set. assumption. }
    pose proof (size_difference _ _ Hsub) as Hsz.
    rewrite size_singleton in Hsz.
    assert (size (list_to_set labels : gset Z) <> 0%nat) as Hpos.
    { apply size_non_empty_iff. intros Hempty.
      assert (v ∈ (list_to_set labels : gset Z)) as Hv
          by (apply elem_of_list_to_set; assumption).
      rewrite Hempty in Hv. apply not_elem_of_empty in Hv. assumption. }
    lia.
  - assert (v ∉ labels) as Hnot.
    { intros Hin. apply contains_elem_of in Hin. congruence. }
    assert ((list_to_set labels : gset Z) ∖ {[ v ]} = list_to_set labels) as ->.
    { apply set_eq. intros x. rewrite elem_of_difference, elem_of_singleton,
        elem_of_list_to_set. split; [ tauto | ]. intros Hx. split; [ assumption | ].
      intros ->. contradiction. }
    lia.
Qed.

(** The three density-based figures, for any label array. *)
Lemma dbscan_result_spec (labels : list Z) :
  dbscan_labels (dbscan_result labels) = labels /\
  dbscan_n_noise_points (dbscan_result labels)
    = Z.of_nat (count_occ Z.eq_dec labels (-1)) /\
  dbscan_n_clusters (dbscan_result labels)
    = Z.of_nat (size ((list_to_set labels : gset Z) ∖ {[ -1 ]})) /\
  forall l, dbscan_cluster_sizes (dbscan_result labels) !! l =
            if bool_decide (l ∈ labels /\ l <> -1)
            then Some (Z.of_nat (count_occ Z.eq_dec labels l)) else None.
Proof.
  unfold dbscan_result; simpl. repeat split.
  - apply count_count_occ.
  - apply distinct_without.
  - intros l. rewrite value_counts_lookup.
    destruct (bool_decide (l ∈ labels /\ l <> -1)) eqn:Hd.
    + apply bool_decide_eq_true in Hd.
      rewrite bool_decide_eq_true_2 by (apply elem_of_without; assumption).
      rewrite count_occ_without by tauto. reflexivity.
    + apply bool_decide_eq_false in Hd.
      rewrite bool_decide_eq_false_2; [ reflexivity | ].
      rewrite elem_of_without. assumption.
Qed.

(** ** The hypothesis-test dispatcher *)

Lemma valid_groups_spec (cat num : Series) (g : list cell) :
  In g (valid_groups cat num) <-> In g (groups_of cat num) /\ 2 <= len g.
Proof.
  unfold valid_groups. rewrite filter_In.
  destruct (len g >? 1) eqn:E.
  - apply Z.gtb_lt in E. split; intros [? ?]; split; try assumption; try reflexivity; lia.
  - rewrite Z.gtb_ltb in E. apply Z.ltb_ge in E.
    split; intros [? ?]; [ discriminate | lia ].
Qed.

(** ** The order of the entries of a column *)

Module FloatEquality.

Import FloatOrder.

Lemma SFeqb_lex (a b : spec_float) :
  SFeqb a b = true <->
  not_nan a /\ not_nan b /\
  (rank1 a = rank1 b /\ rank2 a = rank2 b /\ rank3 a = rank3 b).
Proof.
  unfold SFeqb, not_nan.
  destruct a as [[]|[]| |[] m1 e1], b as [[]|[]| |[] m2 e2]; simpl;
    try (split; [ intros; repeat split; try discriminate; lia
                | intros (? & ? & ?); try reflexivity; try congruence; lia ]).
  - FloatOrderFacts.finite_cases e1 e2 m1 m2.
  - FloatOrderFacts.finite_cases e1 e2 m1 m2.
Qed.

Lemma float_eqb_refl (x : float) :
  PrimFloat.is_nan x = false -> PrimFloat.eqb x x = true.
Proof.
  rewrite FloatOrderFacts.is_nan_spec, FloatAxioms.eqb_spec, SFeqb_lex. tauto.
Qed.

Lemma float_eqb_trans (x y z : float) :
  PrimFloat.eqb x y = true -> PrimFloat.eqb y z = true -> PrimFloat.eqb x z = true.
Proof.
  rewrite !FloatAxioms.eqb_spec, !SFeqb_lex.
  intros (? & ? & ?) (? & ? & ?). repeat split; try assumption; lia.
Qed.

Lemma float_ltb_transitive (x y z : float) :
  PrimFloat.ltb x y = true -> PrimFloat.ltb y z = true -> PrimFloat.ltb x z = true.
Proof.
  rewrite !FloatAxioms.ltb_spec, !FloatOrderFacts.SFltb_lex. unfold lex_lt.
  intros (? & ? & ?) (? & ? & ?). repeat split; try assumption. lia.
Qed.

(** Two numbers that are not equal are ordered one way or the other. *)
Lemma float_ltb_total (x y : float) :
  PrimFloat.is_nan x = false -> PrimFloat.is_nan y = false ->
  PrimFloat.ltb x y = false -> PrimFloat.eqb x y = false ->
  PrimFloat.ltb y x = true.
Proof.
  rewrite !FloatOrderFacts.is_nan_spec. intros Hx Hy Hlt Heq.
  rewrite FloatAxioms.ltb_spec, FloatOrderFacts.SFltb_lex.
  repeat split; try assumption.
  assert (~ lex_lt (Prim2SF x) (Prim2SF y)) as Hn.
  { intros Hl. rewrite FloatAxioms.ltb_spec in Hlt.
    assert (SFltb (Prim2SF x) (Prim2SF y) = true) as Ht
        by (apply FloatOrderFacts.SFltb_lex; tauto).
    congruence. }
  assert (~ (rank1 (Prim2SF x) = rank1 (Prim2SF y) /\
             rank2 (Prim2SF x) = rank2 (Prim2SF y) /\
             rank3 (Prim2SF x) = rank3 (Prim2SF y))) as Hne.
  { intros He. rewrite FloatAxioms.eqb_spec in Heq.
    assert (SFeqb (Prim2SF x) (Prim2SF y) = true) as Ht by (apply SFeqb_lex; tauto).
    congruence. }
  unfold lex_lt in *. lia.
Qed.

End FloatEquality.

Lemma ascii_compare_lt (a b : Ascii.ascii) :
  Ascii.compare a b = Lt <-> (Ascii.N_of_ascii a < Ascii.N_of_ascii b)%N.
Proof. unfold Ascii.compare. apply N.compare_lt_iff. Qed.

Lemma ascii_compare_eq (a b : Ascii.ascii) :
  Ascii.compare a b = Eq <-> a = b.
Proof.
  split; [ apply Ascii.compare_eq_iff | intros -> ].
  unfold Ascii.compare. apply N.compare_refl.
Qed.

Lemma string_compare_lt_trans (a b c : string) :
  String.compare a b = Lt -> String.compare b c = Lt -> String.compare a c = Lt.
Proof.
  revert b c. induction a as [| x a IH]; intros [| y b] [| z c]; simpl;
    try discriminate; try reflexivity.
  destruct (Ascii.compare x y) eqn:Hxy; try discriminate;
    destruct (Ascii.compare y z) eqn:Hyz; try discriminate; intros Hab Hbc.
  - apply ascii_compare_eq in Hxy, Hyz. subst.
    rewrite (proj2 (ascii_compare_eq z z) eq_refl). eapply IH; eassumption.
  - apply ascii_compare_eq in Hxy. subst. rewrite Hyz. reflexivity.
  - apply ascii_compare_eq in Hyz. subst. rewrite Hxy. reflexivity.
  - apply ascii_compare_lt in Hxy. apply ascii_compare_lt in Hyz.
    rewrite (proj2 (ascii_compare_lt x z)); [ reflexivity | ].
    eapply N.lt_trans; eassumption.
Qed.

Lemma string_ltb_lt (a b : string) : String.ltb a b = true <-> String.compare a b = Lt.
Proof.
  unfold String.ltb. destruct (String.compare a b); split; intros; congruence.
Qed.

Lemma string_ltb_transitive (a b c : string) :
  String.ltb a b = true -> String.ltb b c = true -> String.ltb a c = true.
Proof. rewrite !string_ltb_lt. apply string_compare_lt_trans. Qed.

Lemma string_ltb_total (a b : string) :
  String.ltb a b = false -> String.eqb a b = false -> String.ltb b a = true.
Proof.
  intros Hlt Hne. apply string_ltb_lt.
  destruct (String.compare a b) eqn:Hc.
  - apply String.compare_eq_iff in Hc. subst. rewrite String.eqb_refl in Hne. discriminate.
  - apply string_ltb_lt in Hc. congruence.
  - rewrite String.compare_antisym in Hc.
    destruct (String.compare b a); simpl in Hc; congruence.
Qed.

Lemma cell_eqb_refl (a : cell) : isna a = false -> cell_eqb a a = true.
Proof.
  destruct a as [z | f | b | s |]; simpl; intros Ha.
  - apply Z.eqb_refl.
  - apply FloatEquality.float_eqb_refl. assumption.
  - destruct b; reflexivity.
  - apply String.eqb_refl.
  - discriminate.
Qed.

Lemma cell_eqb_trans (a b c : cell) :
  cell_eqb a b = true -> cell_eqb b c = true -> cell_eqb a c = true.
Proof.
  destruct a as [x | x | x | x |], b as [y | y | y | y |], c as [z | z | z | z |];
    simpl; try discriminate.
  - rewrite !Z.eqb_eq. congruence.
  - apply FloatEquality.float_eqb_trans.
  - destruct x, y, z; simpl; congruence.
  - rewrite !String.eqb_eq. congruence.
Qed.

Lemma cell_ltb_trans (a b c : cell) :
  cell_lt a b -> cell_lt b c -> cell_lt a c.
Proof.
  unfold cell_lt.
  destruct a as [x | x | x | x |], b as [y | y | y | y |], c as [z | z | z | z |];
    simpl; try discriminate.
  - rewrite !Z.ltb_lt. lia.
  - apply FloatEquality.float_ltb_transitive.
  - destruct x, y, z; simpl; congruence.
  - apply string_ltb_transitive.
Qed.

(** Two entries of one kind that are not equal are ordered one way or the
    other. *)
Lemma cell_ltb_total (a b : cell) :
  same_kind a b = true -> isna a = false -> isna b = false ->
  cell_ltb a b = false -> cell_eqb a b = false -> cell_lt b a.
Proof.
  unfold cell_lt.
  destruct a as [x | x | x | x |], b as [y | y | y | y |]; simpl; try discriminate.
  - intros _ _ _. rewrite Z.ltb_ge, Z.eqb_neq, Z.ltb_lt. lia.
  - intros _. apply FloatEquality.float_ltb_total.
  - intros _ _ _. destruct x, y; simpl; congruence.
  - intros _ _ _. apply string_ltb_total.
Qed.

(** ** The keys and the groups of [groupby] *)

Lemma insert_key_perm (k : cell) (l : list cell) :
  Permutation (insert_key k l) (k :: l).
Proof.
  induction l as [| y tl IH]; simpl; [ reflexivity | ].
  destruct (cell_ltb k y); [ reflexivity | ].
  rewrite IH. apply perm_swap.
Qed.

Lemma sort_keys_perm (l : list cell) : Permutation (sort_keys l) l.
Proof.
  induction l as [| x tl IH]; simpl; [ reflexivity | ].
  rewrite insert_key_perm. constructor. assumption.
Qed.

Lemma unique_subset (vs : list cell) (c : cell) : c ∈ unique vs -> c ∈ vs.
Proof.
  induction vs as [| v tl IH]; simpl; [ tauto | ].
  rewrite !elem_of_cons. intros [-> | Hc]; [ left; reflexivity | right ].
  apply IH. apply list_elem_of_In, filter_In in Hc. apply list_elem_of_In. tauto.
Qed.

(** Every entry is equal to one that [unique] keeps. *)
Lemma unique_covers (vs : list cell) (c : cell) :
  c ∈ vs -> isna c = false -> exists k, k ∈ unique vs /\ cell_eqb k c = true.
Proof.
  induction vs as [| v tl IH]; simpl; [ intros H; inversion H | ].
  rewrite elem_of_cons. intros [-> | Hc] Hna.
  - exists v. split; [ left | apply cell_eqb_refl; assumption ].
  - destruct (IH Hc Hna) as (k & Hk & Hkc).
    destruct (cell_eqb v k) eqn:Hvk.
    + exists v. split; [ left | eapply cell_eqb_trans; eassumption ].
    + exists k. split; [ | assumption ]. right.
      apply list_elem_of_In, filter_In. split; [ apply list_elem_of_In; assumption | ].
      rewrite Hvk. reflexivity.
Qed.

Lemma StronglySorted_filter {A} (R : A -> A -> Prop) (f : A -> bool) (l : list A) :
  StronglySorted R l -> StronglySorted R (List.filter f l).
Proof.
  induction 1 as [| x tl Hs IH Hx]; simpl; [ constructor | ].
  destruct (f x); [ | assumption ].
  constructor; [ assumption | ].
  apply Forall_forall. intros y Hy. apply list_elem_of_In, filter_In in Hy.
  rewrite Forall_forall in Hx. apply Hx, list_elem_of_In. tauto.
Qed.

(** No two entries that [unique] keeps are equal. *)
Lemma unique_distinct (vs : list cell) :
  StronglySorted (fun a b => cell_eqb a b = false) (unique vs).
Proof.
  induction vs as [| v tl IH]; simpl; [ constructor | ].
  constructor; [ apply StronglySorted_filter; assumption | ].
  apply Forall_forall. intros c Hc. apply list_elem_of_In, filter_In in Hc.
  destruct Hc as [_ Hc]. destruct (cell_eqb v c); [ discriminate | reflexivity ].
Qed.

Lemma insert_key_sorted (k : cell) (l : list cell) :
  isna k = false ->
  Forall (fun y => isna y = false /\ same_kind k y = true /\ cell_eqb k y = false) l ->
  StronglySorted cell_lt l -> StronglySorted cell_lt (insert_key k l).
Proof.
  intros Hk Hl Hs. induction Hs as [| y tl Hs IH Hy]; simpl.
  - constructor; constructor.
  - apply Forall_cons in Hl. destruct Hl as [(Hyna & Hkind & Hne) Hl].
    destruct (cell_ltb k y) eqn:Hlt.
    + constructor; [ constructor; assumption | ].
      constructor; [ exact Hlt | ].
      eapply Forall_impl; [ exact Hy | ].
      intros z Hyz. eapply cell_ltb_trans; [ exact Hlt | exact Hyz ].
    + constructor; [ apply IH; assumption | ].
      rewrite (insert_key_perm k tl). constructor; [ | assumption ].
      apply cell_ltb_total; assumption.
Qed.

Lemma same_kind_sym (a b : cell) : same_kind a b = same_kind b a.
Proof. destruct a, b; reflexivity. Qed.

(** Sorting distinct entries of one kind lists them in strictly ascending
    order. *)
Lemma sort_keys_sorted (l : list cell) :
  Forall (fun c => isna c = false) l ->
  (forall a b, a ∈ l -> b ∈ l -> same_kind a b = true) ->
  StronglySorted (fun a b => cell_eqb a b = false) l ->
  StronglySorted cell_lt (sort_keys l).
Proof.
  intros Hna Hkind Hd. induction Hd as [| x tl Hd IH Hx]; simpl; [ constructor | ].
  apply Forall_cons in Hna. destruct Hna as [Hxna Hna].
  apply insert_key_sorted.
  - assumption.
  - rewrite (sort_keys_perm tl). apply Forall_forall. intros y Hy.
    rewrite Forall_forall in Hna, Hx.
    split; [ apply Hna; assumption | ].
    split; [ apply Hkind; [ left | right; assumption ] | apply Hx; assumption ].
  - apply IH; [ assumption | ].
    intros a b Ha Hb. apply Hkind; right; assumption.
Qed.

Lemma elem_of_dropna (vs : list cell) (c : cell) :
  c ∈ dropna vs <-> c ∈ vs /\ isna c = false.
Proof.
  unfold dropna. rewrite !list_elem_of_In, filter_In.
  destruct (isna c); simpl; split; intros [? ?]; split; congruence.
Qed.

(** The keys of a column that is not categorical: its distinct non-missing
    values, in ascending order when they are of one kind. *)
Lemma group_keys_values (cat : Series) :
  (forall categories, s_dtype cat <> Category categories) ->
  let keys := group_keys cat in
  (forall k, k ∈ keys -> k ∈ s_values cat /\ isna k = false) /\
  (forall c, c ∈ s_values cat -> isna c = false ->
             exists k, k ∈ keys /\ cell_eqb k c = true) /\
  (one_kind (s_values cat) -> StronglySorted cell_lt keys).
Proof.
  intros Hnot keys.
  assert (keys = sort_keys (unique (dropna (s_values cat)))) as ->.
  { unfold keys, group_keys. destruct (s_dtype cat) eqn:Hd; try reflexivity.
    exfalso. eapply Hnot. reflexivity. }
  split; [ | split ].
  - intros k Hk. rewrite (sort_keys_perm _) in Hk.
    apply unique_subset, elem_of_dropna in Hk. exact Hk.
  - intros c Hc Hna.
    destruct (unique_covers (dropna (s_values cat)) c) as (k & Hk & Hkc).
    + apply elem_of_dropna. tauto.
    + assumption.
    + exists k. split; [ rewrite (sort_keys_perm _); assumption | assumption ].
  - intros Hkind. apply sort_keys_sorted.
    + apply Forall_forall. intros c Hc.
      apply unique_subset, elem_of_dropna in Hc. tauto.
    + intros a b Ha Hb.
      apply unique_subset, elem_of_dropna in Ha, Hb.
      apply Hkind; tauto.
    + apply unique_distinct.
Qed.

(** The group of a key, as [groupby] and [dropna] build it, holds the
    observations of that key. *)
Lemma group_values_observations (cat num : Series) (k : cell) :
  group_values cat num k = observations cat num k.
Proof.
  unfold group_values, observations, dropna.
  induction (combine (s_values cat) (s_values num)) as [| [c v] tl IH];
    simpl; [ reflexivity | ].
  destruct (cell_eqb c k); simpl.
  - destruct (isna v); simpl; rewrite IH; reflexivity.
  - exact IH.
Qed.

Lemma valid_groups_observations (cat num : Series) :
  valid_groups cat num = groups_with_two cat num (group_keys cat).
Proof.
  unfold valid_groups, groups_with_two, groups_of.
  rewrite (map_ext _ _ (group_values_observations cat num)).
  apply filter_ext. intros g.
  destruct (Z.leb_spec 2 (len g)); [ apply Z.gtb_lt | rewrite Z.gtb_ltb; apply Z.ltb_ge ]; lia.
Qed.

(** The dispatcher by the number of groups it is given. *)
Lemma dispatch_cases (groups : list (list cell)) :
  dispatch groups =
  match groups with
  | [a; b] => Some (Call_ttest_ind a b)
  | _ :: _ :: _ :: _ => Some (Call_f_oneway groups)
  | _ => None
  end.
Proof.
  destruct groups as [| a [| b [| c tl]]]; try reflexivity.
  unfold dispatch.
  assert (3 <= len (a :: b :: c :: tl)) as Hlen by (unfold len; cbn [length]; lia).
  destruct (len (a :: b :: c :: tl) >=? 2) eqn:Hge.
  - destruct (Z.eqb_spec (len (a :: b :: c :: tl)) 2); [ lia | reflexivity ].
  - rewrite Z.geb_leb in Hge. apply Z.leb_gt in Hge. lia.
Qed.

Lemma test_pair_entry `{B : Backend} (cat num : Series) :
  test_pair cat num =
  match dispatch (valid_groups cat num) with
  | None => None
  | Some call =>
      Some (entry_of (test_name call) (run_test call) (len (valid_groups cat num)))
  end.
Proof.
  unfold test_pair. destruct (dispatch (valid_groups cat num)) as [call |];
    [ | reflexivity ].
  unfold entry_of. destruct (run_test call) as [[stat p_value] | e]; reflexivity.
Qed.

Ltac list_length_case :=
  unfold len in *; cbn [length] in *;
  repeat match goal with
         | H : _ /\ _ |- _ => destruct H
         | H : ex _ |- _ => destruct H
         end;
  try discriminate; try congruence; try lia.


(** With the categories listed as b, a the two-sample test gets the
    observations of b first. *)
Example category_order_groups :
  group_keys reversed_categories = [VStr "b"; VStr "a"] /\
  valid_groups reversed_categories four_values
  = [[VInt 3; VInt 5]; [VInt 1; VInt 2]] /\
  dispatch (valid_groups reversed_categories four_values)
  = Some (Call_ttest_ind [VInt 3; VInt 5] [VInt 1; VInt 2]).
Proof. repeat split; reflexivity. Qed.

(** The same values in an object column: the keys are sorted, a first. *)
Example sorted_order_groups :
  valid_groups (mkSeries "g" Object (s_values reversed_categories)) four_values
  = [[VInt 1; VInt 2]; [VInt 3; VInt 5]].
Proof. reflexivity. Qed.


(** ** Strong correlations *)

Lemma index_pairs_spec (n i j : nat) :
  In (i, j) (index_pairs n) <-> (i < j < n)%nat.
Proof.
  unfold index_pairs. rewrite in_flat_map. split.
  - intros (i' & Hi' & Hin). apply in_map_iff in Hin.
    destruct Hin as (j' & Heq & Hj'). injection Heq as -> ->.
    apply in_seq in Hi'. apply in_seq in Hj'. lia.
  - intros Hij. exists i. split; [ apply in_seq; lia | ].
    apply in_map_iff. exists j. split; [ reflexivity | apply in_seq; lia ].
Qed.

Lemma index_pairs_from_NoDup (n : nat) (rows : list nat) :
  NoDup rows ->
  NoDup (flat_map (fun i => map (fun j => (i, j)) (seq (S i) (n - S i))) rows).
Proof.
  induction 1 as [| i rows Hnot Hnd IH]; simpl; [ constructor | ].
  apply NoDup_app. repeat split.
  - apply NoDup_fmap_2; [ intros a b Hab; congruence | apply NoDup_seq ].
  - intros [i' j'] Hin Hin'. apply list_elem_of_In in Hin, Hin'.
    apply in_map_iff in Hin. destruct Hin as (j0 & Heq & _).
    injection Heq as <- <-.
    apply in_flat_map in Hin'. destruct Hin' as (i0 & Hi0 & Hin0).
    apply in_map_iff in Hin0. destruct Hin0 as (j1 & Heq & _).
    injection Heq as -> ->. apply Hnot, list_elem_of_In. assumption.
  - assumption.
Qed.

Lemma index_pairs_NoDup (n : nat) : NoDup (index_pairs n).
Proof. apply index_pairs_from_NoDup, NoDup_seq. Qed.

Lemma iloc_square (m : CorrMatrix) (i j : nat) :
  square m -> (i < length (cm_columns m))%nat -> (j < length (cm_columns m))%nat ->
  iloc m i j = Ret (cell_at m i j).
Proof.
  intros [Hrows Hcols] Hi Hj. unfold iloc, cell_at.
  rewrite bool_decide_eq_false_2 by lia.
  destruct (cm_values m !! i) as [row |] eqn:Hrow.
  - assert (length row = length (cm_columns m)) as Hlen.
    { rewrite Forall_forall in Hcols. apply Hcols.
      eapply list_elem_of_lookup_2. eassumption. }
    simpl. destruct (row !! j) as [v |] eqn:Hv; [ reflexivity | ].
    apply lookup_ge_None in Hv. lia.
  - apply lookup_ge_None in Hrow. lia.
Qed.

(** The loops append, in order, the entries of the pairs that pass. *)
Lemma scan_pairs_spec (m : CorrMatrix) (threshold : float) (pairs : list (nat * nat)) :
  square m ->
  (forall i j, In (i, j) pairs ->
               (i < length (cm_columns m))%nat /\ (j < length (cm_columns m))%nat) ->
  forall acc,
    scan_pairs m threshold pairs acc =
    Ret (acc ++ map (fun p => strong_entry m (fst p) (snd p) (cell_at m (fst p) (snd p)))
                    (List.filter
                       (fun p => float_ge (PrimFloat.abs (cell_at m (fst p) (snd p))) threshold)
                       pairs)).
Proof.
  intros Hsq. induction pairs as [| [i j] tl IH]; intros Hin acc; simpl.
  - rewrite app_nil_r. reflexivity.
  - destruct (Hin i j (or_introl eq_refl)) as [Hi Hj].
    rewrite (iloc_square m i j Hsq Hi Hj). simpl.
    rewrite IH by (intros; apply Hin; right; assumption).
    destruct (float_ge (PrimFloat.abs (cell_at m i j)) threshold); simpl.
    + rewrite <- app_assoc. reflexivity.
    + reflexivity.
Qed.

(** The stable sort rearranges its input and ranks it by decreasing key,
    provided no key is NaN. *)
Lemma insert_desc_perm {A} (key : A -> float) (x : A) (l : list A) :
  Permutation (insert_desc key x l) (x :: l).
Proof.
  induction l as [| y tl IH]; simpl; [ reflexivity | ].
  destruct (PrimFloat.ltb (key x) (key y)); [ | reflexivity ].
  rewrite IH. apply perm_swap.
Qed.

Lemma sorted_desc_perm {A} (key : A -> float) (l : list A) :
  Permutation (sorted_desc key l) l.
Proof.
  induction l as [| x tl IH]; simpl; [ reflexivity | ].
  rewrite insert_desc_perm. constructor. assumption.
Qed.

Section Ranking.

Context {A : Type} (key : A -> float).

Lemma insert_desc_sorted (x : A) (l : list A) :
  key_ok key x -> Forall (key_ok key) l ->
  StronglySorted (key_ge key) l -> StronglySorted (key_ge key) (insert_desc key x l).
Proof.
  intros Hx Hl Hs. induction Hs as [| y tl Hs IH Hy]; simpl.
  - constructor; constructor.
  - apply Forall_cons in Hl. destruct Hl as [Hky Hl].
    destruct (PrimFloat.ltb (key x) (key y)) eqn:Hlt.
    + constructor; [ apply IH; assumption | ].
      rewrite (insert_desc_perm key x tl). constructor; [ | assumption ].
      unfold key_ge, float_ge. apply FloatOrderFacts.ltb_leb. assumption.
    + assert (key_ge key x y) as Hxy
          by (apply FloatOrderFacts.not_ltb_leb; assumption).
      constructor; [ constructor; assumption | ].
      constructor; [ assumption | ].
      eapply Forall_impl; [ exact Hy | ].
      intros t Hyt. unfold key_ge, float_ge in *.
      eapply FloatOrderFacts.leb_trans; eassumption.
Qed.

Lemma sorted_desc_sorted (l : list A) :
  Forall (key_ok key) l -> StronglySorted (key_ge key) (sorted_desc key l).
Proof.
  induction l as [| x tl IH]; simpl; intros Hl; [ constructor | ].
  apply Forall_cons in Hl. destruct Hl as [Hx Hl].
  apply insert_desc_sorted; [ assumption | | apply IH; assumption ].
  rewrite (sorted_desc_perm key tl). assumption.
Qed.

End Ranking.

Lemma strength_label_spec (v : float) :
  (strength_label v = "very strong" <-> float_ge (PrimFloat.abs v) f0_9 = true) /\
  (strength_label v = "strong" <-> float_ge (PrimFloat.abs v) f0_9 = false).
Proof.
  unfold strength_label.
  destruct (float_ge (PrimFloat.abs v) f0_9); repeat split; intros;
    try reflexivity; discriminate.
Qed.

Lemma insert_desc_map {A C} (f : A -> C) (key : C -> float) (x : A) (l : list A) :
  insert_desc key (f x) (map f l) = map f (insert_desc (fun a => key (f a)) x l).
Proof.
  induction l as [| y tl IH]; simpl; [ reflexivity | ].
  destruct (PrimFloat.ltb (key (f x)) (key (f y))); simpl; [ | reflexivity ].
  rewrite IH. reflexivity.
Qed.

(** Ranking the records is ranking the pairs they come from. *)
Lemma sorted_desc_map {A C} (f : A -> C) (key : C -> float) (l : list A) :
  sorted_desc key (map f l) = map f (sorted_desc (fun a => key (f a)) l).
Proof.
  induction l as [| x tl IH]; simpl; [ reflexivity | ].
  rewrite IH. apply insert_desc_map.
Qed.

Lemma strong_entry_of_pair (m : CorrMatrix) (i j : nat) :
  square m -> (i < length (cm_columns m))%nat -> (j < length (cm_columns m))%nat ->
  record_of_pair m i j (strong_entry m i j (cell_at m i j)).
Proof.
  intros [Hrows Hcols] Hi Hj. unfold record_of_pair, strong_entry; cbn.
  destruct (lookup_lt_is_Some_2 (cm_columns m) i Hi) as [a Ha].
  destruct (lookup_lt_is_Some_2 (cm_columns m) j Hj) as [b Hb].
  assert (i < length (cm_values m))%nat as Hi' by lia.
  destruct (lookup_lt_is_Some_2 (cm_values m) i Hi') as [row Hrow].
  assert (length row = length (cm_columns m)) as Hlen.
  { rewrite Forall_forall in Hcols. apply Hcols.
    eapply list_elem_of_lookup_2. eassumption. }
  assert (j < length row)%nat as Hj' by lia.
  destruct (lookup_lt_is_Some_2 row j Hj') as [v Hv].
  unfold column_label, cell_at. rewrite Ha, Hb, Hrow. cbn. rewrite Hv. cbn.
  split; [ reflexivity | ]. split; [ reflexivity | ].
  split; [ exists row; split; [ reflexivity | assumption ] | ].
  exact (strength_label_spec v).
Qed.

(** C4: on a (square) correlation matrix the strong-correlations list has
    one record for each index pair [i < j] whose absolute correlation is at
    least 0.70, and for no other pair: the records, in the order of the
    list, are those of a duplicate-free list of exactly these pairs.  The
    record of a pair names its two columns, carries its correlation and is
    labelled "very strong" exactly when the absolute correlation is at least
    0.90, "strong" otherwise.  The list is ranked by non-increasing absolute
    correlation. *)
Theorem strong_correlations_spec (m : CorrMatrix) :
  square m ->
  exists (result : list StrongCorr) (pairs : list (nat * nat)),
    _find_strong_correlations m f0_7 = Ret result /\
    NoDup pairs /\
    (forall i j, (i, j) ∈ pairs <->
                 (i < j < length (cm_columns m))%nat /\
                 PrimFloat.leb 0x1.6666666666666p-1 (PrimFloat.abs (cell_at m i j)) = true) /\
    Forall2 (fun e p => record_of_pair m (fst p) (snd p) e) result pairs /\
    StronglySorted ranked_before result /\
    Forall strong_record_ok result.
Proof.
  intros Hsq.
  set (n := length (cm_columns m)).
  set (pass := fun p : nat * nat =>
                 float_ge (PrimFloat.abs (cell_at m (fst p) (snd p))) f0_7).
  set (entry := fun p : nat * nat =>
                  strong_entry m (fst p) (snd p) (cell_at m (fst p) (snd p))).
  set (rank := fun p : nat * nat => abs_correlation (entry p)).
  assert (Forall strong_record_ok (map entry (List.filter pass (index_pairs n)))) as Hok.
  { apply Forall_forall. intros e He. apply list_elem_of_In, in_map_iff in He.
    destruct He as (p & <- & Hp). apply filter_In in Hp. destruct Hp as [_ Hp].
    split; [ exact Hp | ].
    apply (strength_label_spec (cell_at m (fst p) (snd p))). }
  exists (sorted_desc abs_correlation (map entry (List.filter pass (index_pairs n)))),
         (sorted_desc rank (List.filter pass (index_pairs n))).
  split; [ | split; [ | split; [ | split; [ | split ] ] ] ].
  - unfold _find_strong_correlations. fold n.
    rewrite (scan_pairs_spec m f0_7 (index_pairs n) Hsq).
    + reflexivity.
    + intros i j Hin. apply index_pairs_spec in Hin. lia.
  - rewrite (sorted_desc_perm rank).
    apply NoDup_ListNoDup, List.NoDup_filter, NoDup_ListNoDup, index_pairs_NoDup.
  - intros i j. rewrite (sorted_desc_perm rank).
    rewrite list_elem_of_In, filter_In, index_pairs_spec. reflexivity.
  - rewrite (sorted_desc_map entry abs_correlation). fold rank.
    apply Forall2_fmap_l, Forall_Forall2_diag, Forall_forall.
    intros [i j] Hp. rewrite (sorted_desc_perm rank) in Hp.
    apply list_elem_of_In, filter_In in Hp. destruct Hp as [Hp _].
    apply index_pairs_spec in Hp. unfold n in Hp.
    change (record_of_pair m i j (strong_entry m i j (cell_at m i j))).
    apply strong_entry_of_pair; [ assumption | lia | lia ].
  - apply (sorted_desc_sorted abs_correlation).
    eapply Forall_impl; [ exact Hok | ].
    intros e (Hge & _). unfold key_ok.
    apply FloatOrderFacts.leb_not_nan in Hge. tauto.
  - rewrite (sorted_desc_perm abs_correlation). exact Hok.
Qed.

Lemma strong_correlations_spec_witness :
  exists (result : list StrongCorr) (pairs : list (nat * nat)),
    _find_strong_correlations corr_example f0_7 = Ret result /\
    NoDup pairs /\
    (forall i j, (i, j) ∈ pairs <->
                 (i < j < length (cm_columns corr_example))%nat /\
                 PrimFloat.leb 0x1.6666666666666p-1
                               (PrimFloat.abs (cell_at corr_example i j)) = true) /\
    Forall2 (fun e p => record_of_pair corr_example (fst p) (snd p) e) result pairs /\
    StronglySorted ranked_before result /\
    Forall strong_record_ok result.
Proof.
  apply (strong_correlations_spec corr_example).
  split; [ reflexivity | ].
  repeat constructor.
Defined.

(** On the example matrix the records are those of the pairs (a, c) and
    (a, b), in that order. *)
Example strong_correlations_pairs :
  exists result,
    _find_strong_correlations corr_example f0_7 = Ret result /\
    Forall2 (fun e p => record_of_pair corr_example (fst p) (snd p) e)
            result [(0, 2); (0, 1)]%nat /\
    map variable1 result = ["a"; "a"] /\ map variable2 result = ["c"; "b"].
Proof.
  eexists. split; [ vm_compute; reflexivity | ].
  split; [ | split; reflexivity ].
  repeat constructor; cbn; try reflexivity;
    try (eexists; split; reflexivity);
    try (intros _; vm_compute; reflexivity);
    try (intros H; discriminate H);
    try (intros H; vm_compute in H; discriminate H).
Qed.

(** ** Running the engine: one step at a time *)

Section Steps.

Context `{B : Backend}.

Lemma run_bind {A C} (m : M A) (k : A -> M C) (w : World) :
  run (m ≫= k) w =
  match run m w with
  | (Ret a, w') => run (k a) w'
  | (Raise e, w') => (Raise e, w')
  end.
Proof. reflexivity. Qed.

Lemma run_ret {A} (a : A) (w : World) : run (mret a) w = (Ret a, w).
Proof. reflexivity. Qed.

Lemma run_lift {A} (r : res A) (w : World) : run (lift r) w = (r, w).
Proof. reflexivity. Qed.

Lemma run_read_frame (l : nat) (df : DataFrame) (w : World) :
  frames w !! l = Some df -> run (read_frame l) w = (Ret df, w).
Proof. intros H. unfold read_frame; simpl. rewrite H. reflexivity. Qed.

Lemma run_new_frame (df : DataFrame) (w : World) :
  run (new_frame df) w = (Ret (fresh (dom (frames w))), stored df w).
Proof. reflexivity. Qed.

Lemma stored_lookup_new (df : DataFrame) (w : World) :
  frames (stored df w) !! fresh (dom (frames w)) = Some df.
Proof. unfold stored; simpl. apply lookup_insert_eq. Qed.

Lemma fresh_not_stored (w : World) : frames w !! fresh (dom (frames w)) = None.
Proof. apply not_elem_of_dom, is_fresh. Qed.

Lemma stored_lookup_old (df df' : DataFrame) (w : World) (l : nat) :
  frames w !! l = Some df' -> frames (stored df w) !! l = Some df'.
Proof.
  intros H. unfold stored; simpl. rewrite lookup_insert_ne; [ assumption | ].
  intros <-. rewrite fresh_not_stored in H. discriminate.
Qed.

End Steps.

(** ** Clustering on a Dataset with at most two rows *)

Lemma K_range_few_rows (n : Z) :
  n <= 2 -> range_len (K_range n) = 0 /\ range_to_list (K_range n) = [].
Proof.
  intros Hn. assert (range_len (K_range n) = 0) as Hlen
      by (unfold range_len, K_range; simpl; lia).
  split; [ assumption | ]. unfold range_to_list. rewrite Hlen. reflexivity.
Qed.

(** C10: with at least 2 numeric columns, at most 2 rows and no cluster
    count from the caller, [clustering_analysis] raises the out-of-range
    indexing error of the empty candidate range; nothing is recorded in the
    session, and the only new frame is the imputed input matrix. *)
Theorem clustering_few_rows_raises `{B : Backend}
        (w : World) (df_ref : nat) (df : DataFrame) :
  frames w !! df_ref = Some df ->
  2 <= len (df_columns (select_number df)) ->
  n_rows df <= 2 ->
  run (clustering_analysis df_ref None) w =
  (Raise (IndexError "range object index out of range"),
   stored (fillna column_mean (select_number df)) w).
Proof.
  intros Hdf Hcols Hrows. unfold clustering_analysis.
  rewrite run_bind, (run_read_frame _ _ _ Hdf).
  destruct (len (df_columns (select_number df)) <? 2) eqn:E;
    [ apply Z.ltb_lt in E; lia | ].
  rewrite run_bind, run_new_frame.
  rewrite run_bind, (run_read_frame _ _ _ (stored_lookup_new _ w)).
  change (n_rows (fillna column_mean (select_number df))) with (n_rows df).
  destruct (K_range_few_rows (n_rows df) Hrows) as [Hlen Hlist].
  rewrite run_bind. rewrite run_bind. rewrite Hlist.
  unfold sweep. cbn [for_each]. rewrite run_ret, run_lift.
  unfold _find_elbow. cbn [len length Z.of_nat Z.ltb Z.compare].
  rewrite (range_getitem_empty _ 0 Hlen). reflexivity.
Qed.

Lemma clustering_few_rows_raises_witness :
  run (B := demo_backend) (clustering_analysis 0%nat None) (world_of tiny_frame) =
  (Raise (IndexError "range object index out of range"),
   stored (fillna column_mean (select_number tiny_frame)) (world_of tiny_frame)).
Proof.
  apply (clustering_few_rows_raises (world_of tiny_frame) 0%nat tiny_frame).
  - reflexivity.
  - vm_compute. discriminate.
  - vm_compute. discriminate.
Defined.

(** ** Recoverable conditions are returned, everything else is not *)

Section ErrorResults.

Context `{B : Backend}.

Lemma never_error_bind {A} (m : M A) (k : A -> M AnalysisResult) :
  (forall a, never_error (k a)) -> never_error (m ≫= k).
Proof.
  intros Hk w. rewrite run_bind.
  destruct (run m w) as [[a | e] w'].
  - apply Hk.
  - simpl. intros (msg & Hmsg). discriminate.
Qed.

Lemma never_error_ret (r : AnalysisResult) :
  (forall msg, r <> ErrorResult msg) -> never_error (mret r).
Proof.
  intros Hr w (msg & Hmsg). simpl in Hmsg.
  injection Hmsg as Hmsg. exact (Hr msg Hmsg).
Qed.

Ltac never_error_steps :=
  repeat first
    [ apply never_error_ret; intros; discriminate
    | apply never_error_bind; intros
    | match goal with
      | |- never_error (let '(_, _) := ?x in _) => destruct x
      end ].

Ltac to_never_error w :=
  match goal with
  | |- ~ returns_error (fst (run ?m w)) => generalize w; change (never_error m)
  end.

Lemma has_column_spec (name : string) (df : DataFrame) :
  has_column name df = true <-> name ∈ column_names df.
Proof.
  unfold has_column. rewrite existsb_exists, list_elem_of_In. split.
  - intros (x & Hin & Heq). apply String.eqb_eq in Heq. congruence.
  - intros Hin. exists name. split; [ assumption | apply String.eqb_refl ].
Qed.

Lemma clustering_error_run (w : World) (df_ref : nat) (df : DataFrame) (n : option Z) :
  frames w !! df_ref = Some df ->
  len (df_columns (select_number df)) < 2 ->
  run (clustering_analysis df_ref n) w =
  (Ret (ErrorResult "Need at least 2 numerical columns for clustering"), w).
Proof.
  intros Hdf Hcols. unfold clustering_analysis.
  rewrite run_bind, (run_read_frame _ _ _ Hdf).
  destruct (len (df_columns (select_number df)) <? 2) eqn:E;
    [ reflexivity | apply Z.ltb_ge in E; lia ].
Qed.

Lemma clustering_no_error (w : World) (df_ref : nat) (df : DataFrame) (n : option Z) :
  frames w !! df_ref = Some df ->
  2 <= len (df_columns (select_number df)) ->
  ~ returns_error (fst (run (clustering_analysis df_ref n) w)).
Proof.
  intros Hdf Hcols. unfold clustering_analysis.
  rewrite run_bind, (run_read_frame _ _ _ Hdf).
  destruct (len (df_columns (select_number df)) <? 2) eqn:E;
    [ apply Z.ltb_lt in E; lia | ].
  clear Hdf. to_never_error w. never_error_steps.
Qed.

Lemma feature_importance_error_run (w : World) (df_ref : nat) (df : DataFrame)
      (target_column task : string) :
  frames w !! df_ref = Some df ->
  target_column ∉ column_names df ->
  run (feature_importance_analysis df_ref target_column task) w =
  (Ret (ErrorResult ("Target column " +:+ target_column +:+ " not found")), w).
Proof.
  intros Hdf Hcol. unfold feature_importance_analysis.
  rewrite run_bind, (run_read_frame _ _ _ Hdf).
  destruct (has_column target_column df) eqn:E; [ | reflexivity ].
  apply has_column_spec in E. contradiction.
Qed.

Lemma feature_importance_no_error (w : World) (df_ref : nat) (df : DataFrame)
      (target_column task : string) :
  frames w !! df_ref = Some df ->
  target_column ∈ column_names df ->
  ~ returns_error (fst (run (feature_importance_analysis df_ref target_column task) w)).
Proof.
  intros Hdf Hcol. unfold feature_importance_analysis.
  rewrite run_bind, (run_read_frame _ _ _ Hdf).
  apply has_column_spec in Hcol. rewrite Hcol. cbn [negb].
  clear Hdf. to_never_error w. never_error_steps.
Qed.

End ErrorResults.

(** C8: the two recoverable conditions come back as [ErrorResult] values
    with their diagnostic string, and only they do.  [clustering_analysis]
    returns an [ErrorResult] exactly when the Dataset has fewer than 2
    numeric columns, [feature_importance_analysis] exactly when the target
    column is absent; in both cases nothing is raised and the session is
    left as it was. *)
Theorem error_results_exactly `{B : Backend}
        (w : World) (df_ref : nat) (df : DataFrame) :
  frames w !! df_ref = Some df ->
  (forall n,
      (returns_error (fst (run (clustering_analysis df_ref n) w)) <->
       len (df_columns (select_number df)) < 2) /\
      (len (df_columns (select_number df)) < 2 ->
       run (clustering_analysis df_ref n) w =
       (Ret (ErrorResult "Need at least 2 numerical columns for clustering"), w))) /\
  (forall target_column task,
      (returns_error
         (fst (run (feature_importance_analysis df_ref target_column task) w)) <->
       target_column ∉ column_names df) /\
      (target_column ∉ column_names df ->
       run (feature_importance_analysis df_ref target_column task) w =
       (Ret (ErrorResult ("Target column " +:+ target_column +:+ " not found")), w))).
Proof.
  intros Hdf. split.
  - intros n. split; [ split | ].
    + intros Herr.
      destruct (Z.lt_ge_cases (len (df_columns (select_number df))) 2) as [Hlt | Hge];
        [ assumption | ].
      exfalso. exact (clustering_no_error w df_ref df n Hdf Hge Herr).
    + intros Hlt. rewrite (clustering_error_run w df_ref df n Hdf Hlt).
      eexists. reflexivity.
    + apply clustering_error_run. assumption.
  - intros target_column task. split; [ split | ].
    + intros Herr Hin.
      exact (feature_importance_no_error w df_ref df target_column task Hdf Hin Herr).
    + intros Hnot.
      rewrite (feature_importance_error_run w df_ref df target_column task Hdf Hnot).
      eexists. reflexivity.
    + apply feature_importance_error_run. assumption.
Qed.

Lemma error_results_exactly_witness :
  (forall n,
      (returns_error (fst (run (B := demo_backend) (clustering_analysis 0%nat n)
                               (world_of demo_frame))) <->
       len (df_columns (select_number demo_frame)) < 2) /\
      (len (df_columns (select_number demo_frame)) < 2 ->
       run (B := demo_backend) (clustering_analysis 0%nat n) (world_of demo_frame) =
       (Ret (ErrorResult "Need at least 2 numerical columns for clustering"),
        world_of demo_frame))) /\
  (forall target_column task,
      (returns_error
         (fst (run (B := demo_backend)
                   (feature_importance_analysis 0%nat target_column task)
                   (world_of demo_frame))) <->
       target_column ∉ column_names demo_frame) /\
      (target_column ∉ column_names demo_frame ->
       run (B := demo_backend) (feature_importance_analysis 0%nat target_column task)
           (world_of demo_frame) =
       (Ret (ErrorResult ("Target column " +:+ target_column +:+ " not found")),
        world_of demo_frame))).
Proof.
  apply (error_results_exactly (world_of demo_frame) 0%nat demo_frame).
  reflexivity.
Defined.

(** ** The explainability fallback *)

Section Fallback.

Context `{B : Backend}.

Lemma run_try_except_raise {A} (body : M A) (handler : exn -> M A)
      (w w' : World) (e : exn) :
  run body w = (Raise e, w') ->
  run (try_except body handler) w = run (handler e) w'.
Proof. intros H. unfold try_except; simpl. rewrite H. reflexivity. Qed.

Lemma run_try_except_ret {A} (body : M A) (handler : exn -> M A)
      (w w' : World) (a : A) :
  run body w = (Ret a, w') ->
  run (try_except body handler) w = (Ret a, w').
Proof. intros H. unfold try_except; simpl. rewrite H. reflexivity. Qed.

Lemma get_column_has_column (name : string) (df : DataFrame) (y : Series) :
  get_column name df = Ret y -> has_column name df = true.
Proof.
  unfold get_column, has_column, column_names.
  destruct (find _ _) as [s |] eqn:Hfind; [ | discriminate ].
  intros _. apply find_some in Hfind. destruct Hfind as [Hin Heq].
  apply existsb_exists. exists (s_name s). split; [ | assumption ].
  apply in_map. assumption.
Qed.

(** Both rankings go through the same two steps, so the records agree
    field by field. *)
Lemma records_agree (t : list (string * float)) :
  map (fun s => (shap_feature s, shap_importance_value s)) (shap_records t) =
  map (fun i => (feature i, importance i)) (importance_records t).
Proof.
  unfold shap_records, importance_records. rewrite !map_map. reflexivity.
Qed.

End Fallback.

(** C3: when everything before the SHAP step has succeeded and the step
    raises, whatever the exception, [feature_importance_analysis] still
    returns a [FeatureImportanceResult]; its [shap_importance] holds the
    native importances (the same features in the same order with the same
    numbers as [feature_importance]), and the result is recorded in the
    session like any other. *)
Theorem shap_failure_falls_back `{B : Backend}
        (w : World) (df_ref : nat) (df : DataFrame) (target_column task : string)
        (y y_train y_test : Series) (X_train X_test : DataFrame)
        (model : estimator) (perf : Performance)
        (table : list (string * float)) (e : exn) :
  let X_encoded := get_dummies (drop_column target_column df) in
  let task' := infer_task_type task y in
  frames w !! df_ref = Some df ->
  get_column target_column df = Ret y ->
  train_test_split X_encoded y = Ret (X_train, X_test, y_train, y_test) ->
  fit_and_score task' X_train X_test y_train y_test = Ret (model, perf) ->
  importance_table (column_names X_encoded) (feature_importances_ model) = Ret table ->
  shap_attempt task' model X_test (column_names X_encoded) = Raise e ->
  exists (r : FeatureImportanceResult) (w' : World),
    run (feature_importance_analysis df_ref target_column task) w
      = (Ret (FeatureImportance r), w') /\
    feature_importance r = importance_records (sort_values_desc table) /\
    shap_importance r = shap_records (sort_values_desc table) /\
    map (fun s => (shap_feature s, shap_importance_value s)) (shap_importance r) =
    map (fun i => (feature i, importance i)) (feature_importance r) /\
    analysis_results w' !! "feature_importance" = Some (FeatureImportance r).
Proof.
  intros X_encoded task' Hdf Hy Hsplit Hfit Htable Hshap.
  pose proof (get_column_has_column _ _ _ Hy) as Hcol.
  set (w1 := stored (drop_column target_column df) w).
  set (w2 := stored X_encoded w1).
  set (w3 := stored X_train w2).
  set (w4 := stored X_test w3).
  assert (frames w4 !! fresh (dom (frames w2)) = Some X_train) as Htrain
      by (apply stored_lookup_old, stored_lookup_new).
  assert (frames w4 !! fresh (dom (frames w3)) = Some X_test) as Htest
      by apply stored_lookup_new.
  assert (frames w1 !! fresh (dom (frames w)) = Some (drop_column target_column df))
    as HX by apply stored_lookup_new.
  assert (frames w2 !! fresh (dom (frames w1)) = Some X_encoded) as Henc
      by apply stored_lookup_new.
  assert (run (shap_step task' model (fresh (dom (frames w3))) (column_names X_encoded)) w4
          = (Raise e, w4)) as Hstep.
  { unfold shap_step.
    rewrite run_bind, (run_read_frame _ _ _ Htest).
    rewrite run_lift, Hshap. reflexivity. }
  eexists. eexists. split.
  - unfold feature_importance_analysis.
    rewrite run_bind, (run_read_frame _ _ _ Hdf). rewrite Hcol. cbn [negb].
    rewrite run_bind, run_new_frame. fold w1.
    rewrite run_bind, run_lift, Hy.
    rewrite run_bind, (run_read_frame _ _ _ HX).
    rewrite run_bind, run_new_frame. fold X_encoded. fold w2.
    rewrite run_bind, (run_read_frame _ _ _ Henc).
    fold task'.
    rewrite run_bind, run_lift, Hsplit.
    rewrite run_bind, run_new_frame. fold w3.
    rewrite run_bind, run_new_frame. fold w4.
    rewrite run_bind, (run_read_frame _ _ _ Htrain).
    rewrite run_bind, (run_read_frame _ _ _ Htest).
    rewrite run_bind, run_lift, Hfit.
    rewrite run_bind, run_lift, Htable.
    rewrite run_bind, (run_try_except_raise _ _ _ _ _ Hstep).
    unfold shap_fallback. rewrite run_bind, run_lift, Htable, run_ret.
    reflexivity.
  - cbn [feature_importance shap_importance]. repeat split.
    + apply records_agree.
    + apply lookup_insert_eq.
Qed.

Lemma shap_failure_falls_back_witness :
  exists (r : FeatureImportanceResult) (w' : World),
    run (B := demo_backend) (feature_importance_analysis 0%nat "y" "auto")
        (world_of demo_frame)
      = (Ret (FeatureImportance r), w') /\
    feature_importance r = importance_records (sort_values_desc [("x", 0.5%float)]) /\
    shap_importance r = shap_records (sort_values_desc [("x", 0.5%float)]) /\
    map (fun s => (shap_feature s, shap_importance_value s)) (shap_importance r) =
    map (fun i => (feature i, importance i)) (feature_importance r) /\
    analysis_results w' !! "feature_importance" = Some (FeatureImportance r).
Proof.
  apply (shap_failure_falls_back (B := demo_backend)
           (world_of demo_frame) 0%nat demo_frame "y" "auto"
           (mkSeries "y" Int64 [VInt 1; VInt 2; VInt 3])
           (mkSeries "y" Int64 [VInt 1; VInt 2; VInt 3])
           (mkSeries "y" Int64 [VInt 1; VInt 2; VInt 3])
           (select_number (drop_column "y" demo_frame))
           (iloc_head 1 (select_number (drop_column "y" demo_frame)))
           ([0.5%float] : @estimator demo_backend)
           (@ClassificationPerformance demo_backend tt 1%float)
           [("x", 0.5%float)]
           (LibraryError "Model type not yet supported by TreeExplainer"));
    reflexivity.
Defined.

(** ** The Dataset is left as it was *)

Section Frames.

Context `{B : Backend}.

Lemma preserves_ret {A} (a : A) : preserves_frames (mret a).
Proof. intros w. reflexivity. Qed.

Lemma preserves_lift {A} (r : res A) : preserves_frames (lift r).
Proof. intros w. reflexivity. Qed.

Lemma preserves_read_frame (l : nat) : preserves_frames (read_frame l).
Proof. intros w. unfold read_frame; simpl. destruct (frames w !! l); reflexivity. Qed.

Lemma preserves_set_result (key : string) (r : AnalysisResult) :
  preserves_frames (set_result key r).
Proof. intros w. reflexivity. Qed.

Lemma preserves_set_model (key : string) (model : estimator) :
  preserves_frames (set_model key model).
Proof. intros w. reflexivity. Qed.

Lemma preserves_new_frame (df : DataFrame) : preserves_frames (new_frame df).
Proof.
  intros w. rewrite run_new_frame. unfold stored; simpl.
  apply insert_subseteq, fresh_not_stored.
Qed.

Lemma preserves_bind {A C} (m : M A) (k : A -> M C) :
  preserves_frames m -> (forall a, preserves_frames (k a)) ->
  preserves_frames (m ≫= k).
Proof.
  intros Hm Hk w. rewrite run_bind. specialize (Hm w).
  destruct (run m w) as [[a | e] w']; simpl in *.
  - etransitivity; [ exact Hm | apply Hk ].
  - exact Hm.
Qed.

Lemma preserves_try_except {A} (body : M A) (handler : exn -> M A) :
  preserves_frames body -> (forall e, preserves_frames (handler e)) ->
  preserves_frames (try_except body handler).
Proof.
  intros Hb Hh w. unfold try_except; simpl. specialize (Hb w).
  destruct (run body w) as [[a | e] w']; simpl in *.
  - exact Hb.
  - etransitivity; [ exact Hb | apply Hh ].
Qed.

Lemma preserves_for_each {A C} (f : A -> M C) (l : list A) :
  (forall a, preserves_frames (f a)) -> preserves_frames (for_each f l).
Proof.
  intros Hf. induction l as [| x tl IH]; cbn [for_each].
  - apply preserves_ret.
  - apply preserves_bind; [ apply Hf | intros y ].
    apply preserves_bind; [ exact IH | intros ys; apply preserves_ret ].
Qed.

Lemma preserves_for_fold {A S} (f : S -> A -> M S) (l : list A) :
  (forall s a, preserves_frames (f s a)) ->
  forall s, preserves_frames (for_fold f l s).
Proof.
  intros Hf. induction l as [| x tl IH]; intros s; cbn [for_fold].
  - apply preserves_ret.
  - apply preserves_bind; [ apply Hf | intros s'; apply IH ].
Qed.

Ltac frame_steps :=
  repeat first
    [ apply preserves_ret
    | apply preserves_lift
    | apply preserves_read_frame
    | apply preserves_new_frame
    | apply preserves_set_result
    | apply preserves_set_model
    | apply preserves_for_each; intros
    | apply preserves_for_fold; intros
    | apply preserves_try_except; intros
    | apply preserves_bind; intros
    | match goal with
      | |- preserves_frames (let '(_, _) := ?x in _) => destruct x
      | |- preserves_frames (if ?c then _ else _) => destruct c
      | |- preserves_frames (match ?x with Some _ => _ | None => _ end) => destruct x
      end ].

Lemma statistical_preserves (df_ref : nat) :
  preserves_frames (statistical_analysis df_ref).
Proof. unfold statistical_analysis, distribution_step. frame_steps. Qed.

Lemma clustering_preserves (df_ref : nat) (n : option Z) :
  preserves_frames (clustering_analysis df_ref n).
Proof. unfold clustering_analysis, sweep. frame_steps. Qed.

Lemma feature_importance_preserves (df_ref : nat) (target_column task : string) :
  preserves_frames (feature_importance_analysis df_ref target_column task).
Proof.
  unfold feature_importance_analysis, shap_step, shap_fallback. frame_steps.
Qed.

End Frames.

(** C9: none of the three analysis operations changes the Dataset it is
    given, whether it returns or raises: the frame behind the reference has
    the same columns, values and row count afterwards, and so has every other
    frame of the store.  In the clustering path the mean-filled matrix is a
    new frame under a reference of its own. *)
Theorem analyses_leave_dataset `{B : Backend}
        (w : World) (df_ref : nat) (df : DataFrame) :
  frames w !! df_ref = Some df ->
  frames (snd (run (statistical_analysis df_ref) w)) !! df_ref = Some df /\
  frames w ⊆ frames (snd (run (statistical_analysis df_ref) w)) /\
  (forall n,
      frames (snd (run (clustering_analysis df_ref n) w)) !! df_ref = Some df /\
      frames w ⊆ frames (snd (run (clustering_analysis df_ref n) w)) /\
      (2 <= len (df_columns (select_number df)) ->
       exists X_ref, X_ref <> df_ref /\
         frames (snd (run (clustering_analysis df_ref n) w)) !! X_ref
         = Some (fillna column_mean (select_number df)))) /\
  (forall target_column task,
      frames (snd (run (feature_importance_analysis df_ref target_column task) w))
        !! df_ref = Some df /\
      frames w ⊆
        frames (snd (run (feature_importance_analysis df_ref target_column task) w))).
Proof.
  intros Hdf.
  assert (forall w', frames w ⊆ frames w' -> frames w' !! df_ref = Some df) as Hkeep
      by (intros w' Hsub; eapply lookup_weaken; eassumption).
  split; [ apply Hkeep, statistical_preserves | ].
  split; [ apply statistical_preserves | ].
  split.
  - intros n.
    split; [ apply Hkeep, clustering_preserves | ].
    split; [ apply clustering_preserves | ].
    intros Hcols. exists (fresh (dom (frames w))). split.
    + intros Heq. pose proof (fresh_not_stored w) as Hnone.
      rewrite Heq, Hdf in Hnone. discriminate.
    + unfold clustering_analysis.
      rewrite run_bind, (run_read_frame _ _ _ Hdf).
      destruct (len (df_columns (select_number df)) <? 2) eqn:E;
        [ apply Z.ltb_lt in E; lia | ].
      rewrite run_bind, run_new_frame.
      match goal with
      | |- frames (snd (run ?rest ?w1)) !! _ = _ =>
          assert (preserves_frames rest) as Hrest
      end.
      { unfold sweep.
        repeat first
          [ apply preserves_ret | apply preserves_lift | apply preserves_read_frame
          | apply preserves_set_result | apply preserves_for_each; intros
          | apply preserves_bind; intros
          | match goal with
            | |- preserves_frames (match ?x with Some _ => _ | None => _ end) =>
                destruct x
            end ]. }
      eapply lookup_weaken; [ apply stored_lookup_new | apply Hrest ].
  - intros target_column task.
    split; [ apply Hkeep, feature_importance_preserves | ].
    apply feature_importance_preserves.
Qed.

(** ** The density-based entry of the clustering result *)

Section Returns.

Context `{B : Backend}.

Lemma returns_only_ret {A} (P : A -> Prop) (a : A) :
  P a -> returns_only P (mret a).
Proof. intros Ha w a' w' Hrun. injection Hrun as <- _. exact Ha. Qed.

Lemma returns_only_bind {A C} (P : C -> Prop) (m : M A) (k : A -> M C) :
  (forall a, returns_only P (k a)) -> returns_only P (m ≫= k).
Proof.
  intros Hk w c w' Hrun. rewrite run_bind in Hrun.
  destruct (run m w) as [[a | e] w1]; [ | discriminate ].
  exact (Hk a w1 c w' Hrun).
Qed.

Lemma returns_only_lift_bind {A C} (P : C -> Prop) (r : res A) (k : A -> M C) :
  (forall a, r = Ret a -> returns_only P (k a)) -> returns_only P (lift r ≫= k).
Proof.
  intros Hk w c w' Hrun. rewrite run_bind, run_lift in Hrun.
  destruct r as [a | e]; [ | discriminate ].
  exact (Hk a eq_refl w c w' Hrun).
Qed.

Lemma returns_only_lift {A} (P : A -> Prop) (r : res A) :
  (forall a, r = Ret a -> P a) -> returns_only P (lift r).
Proof.
  intros Hr w a w' Hrun. rewrite run_lift in Hrun.
  injection Hrun as -> _. apply Hr. reflexivity.
Qed.

Lemma returns_only_bind_with {A C} (Q : A -> Prop) (P : C -> Prop)
      (m : M A) (k : A -> M C) :
  returns_only Q m -> (forall a, Q a -> returns_only P (k a)) ->
  returns_only P (m ≫= k).
Proof.
  intros Hm Hk w c w' Hrun. rewrite run_bind in Hrun.
  destruct (run m w) as [[a | e] w1] eqn:Hmw; [ | discriminate ].
  exact (Hk a (Hm w a w1 Hmw) w1 c w' Hrun).
Qed.

Lemma clustering_chosen_k (w w' : World) (df_ref : nat) (df : DataFrame)
      (r : AnalysisResult) :
  frames w !! df_ref = Some df ->
  run (clustering_analysis df_ref None) w = (Ret r, w') ->
  chosen_k_within (n_rows df) r.
Proof.
  intros Hdf. unfold clustering_analysis.
  rewrite run_bind, (run_read_frame _ _ _ Hdf).
  destruct (len (df_columns (select_number df)) <? 2).
  - rewrite run_ret. intros Hrun. injection Hrun as <- _. exact I.
  - rewrite run_bind, run_new_frame.
    rewrite run_bind, (run_read_frame _ _ _ (stored_lookup_new _ w)).
    change (n_rows (fillna column_mean (select_number df))) with (n_rows df).
    revert r w'.
    match goal with
    | |- forall r w', run ?m ?w1 = _ -> _ =>
        cut (returns_only (chosen_k_within (n_rows df)) m);
        [ intros Hall r w' Hrun; exact (Hall _ _ _ Hrun) | ]
    end.
    apply (returns_only_bind_with
             (fun k => 2 <= k <= Z.min 11 (n_rows df) - 1)).
    + apply returns_only_bind; intros inertias.
      apply returns_only_lift. intros k Hk.
      apply find_elbow_ret_in_range in Hk. simpl in Hk. lia.
    + intros k Hk.
      apply returns_only_bind; intros km.
      apply returns_only_bind; intros labels.
      apply returns_only_bind; intros _.
      apply returns_only_ret. exact Hk.
Qed.

Lemma clustering_dbscan_entry (w w' : World) (df_ref : nat) (df : DataFrame)
      (n : option Z) (r : AnalysisResult) :
  frames w !! df_ref = Some df ->
  run (clustering_analysis df_ref n) w = (Ret r, w') ->
  dbscan_from (fillna column_mean (select_number df)) r.
Proof.
  intros Hdf. unfold clustering_analysis.
  rewrite run_bind, (run_read_frame _ _ _ Hdf).
  destruct (len (df_columns (select_number df)) <? 2).
  - rewrite run_ret. intros Hrun. injection Hrun as <- _. exact I.
  - rewrite run_bind, run_new_frame.
    rewrite run_bind, (run_read_frame _ _ _ (stored_lookup_new _ w)).
    revert r w'.
    match goal with
    | |- forall r w', run ?m ?w1 = _ -> _ =>
        cut (returns_only (dbscan_from (fillna column_mean (select_number df))) m);
        [ intros Hall r w' Hrun; exact (Hall _ _ _ Hrun) | ]
    end.
    apply returns_only_bind; intros k.
    apply returns_only_bind; intros km.
    apply returns_only_lift_bind; intros labels Hlabels.
    apply returns_only_bind; intros _.
    apply returns_only_ret. split; [ exact Hlabels | reflexivity ].
Qed.

End Returns.

(** C7: in a clustering result the density-based entry is computed from the
    labels [DBSCAN] returned on the input matrix: [n_noise_points] is the
    number of points labelled [-1], [n_clusters] is the number of distinct
    labels other than [-1], and [cluster_sizes] maps each label other than
    [-1] to its number of points and has no entry for [-1]. *)
Theorem dbscan_entry_counts `{B : Backend}
        (w w' : World) (df_ref : nat) (df : DataFrame) (n : option Z)
        (r : ClusteringResult) :
  frames w !! df_ref = Some df ->
  run (clustering_analysis df_ref n) w = (Ret (Clustering r), w') ->
  let labels := dbscan_labels (dbscan r) in
  DBSCAN_fit_predict (fillna column_mean (select_number df)) = Ret labels /\
  dbscan_n_noise_points (dbscan r) = Z.of_nat (count_occ Z.eq_dec labels (-1)) /\
  dbscan_n_clusters (dbscan r)
    = Z.of_nat (size ((list_to_set labels : gset Z) ∖ {[ -1 ]})) /\
  (forall l, dbscan_cluster_sizes (dbscan r) !! l =
             if bool_decide (l ∈ labels /\ l <> -1)
             then Some (Z.of_nat (count_occ Z.eq_dec labels l)) else None) /\
  dbscan_cluster_sizes (dbscan r) !! (-1) = None.
Proof.
  intros Hdf Hrun labels.
  destruct (clustering_dbscan_entry w w' df_ref df n _ Hdf Hrun) as [Hfit Hentry].
  destruct (dbscan_result_spec labels) as (_ & Hnoise & Hclusters & Hsizes).
  fold labels in Hentry. rewrite Hentry.
  split; [ exact Hfit | ].
  split; [ exact Hnoise | ].
  split; [ exact Hclusters | ].
  split; [ exact Hsizes | ].
  rewrite Hsizes. rewrite bool_decide_eq_false_2; [ reflexivity | ].
  intros [_ Hne]. apply Hne. reflexivity.
Qed.

Lemma dbscan_entry_counts_witness :
  exists (r : ClusteringResult) (w' : World),
    run (B := demo_backend) (clustering_analysis 0%nat None) (world_of demo_frame)
      = (Ret (Clustering r), w') /\
    dbscan_labels (dbscan r) = [-1; 0; 0] /\
    dbscan_n_noise_points (dbscan r)
      = Z.of_nat (count_occ Z.eq_dec (dbscan_labels (dbscan r)) (-1)) /\
    dbscan_n_clusters (dbscan r)
      = Z.of_nat (size ((list_to_set (dbscan_labels (dbscan r)) : gset Z) ∖ {[ -1 ]})) /\
    dbscan_cluster_sizes (dbscan r) !! (-1) = None.
Proof.
  eexists. eexists. split; [ vm_compute; reflexivity | ].
  split; [ reflexivity | ].
  refine (let H := dbscan_entry_counts (B := demo_backend)
                     (world_of demo_frame) _ 0%nat demo_frame None _
                     eq_refl eq_refl in _).
  destruct H as (_ & Hnoise & Hclusters & _ & Hminus).
  split; [ exact Hnoise | ]. split; [ exact Hclusters | exact Hminus ].
Defined.

Lemma analyses_leave_dataset_witness :
  frames (snd (run (B := demo_backend) (clustering_analysis 0%nat None)
                   (world_of demo_frame))) !! 0%nat = Some demo_frame /\
  frames (snd (run (B := demo_backend) (statistical_analysis 0%nat)
                   (world_of demo_frame))) !! 0%nat = Some demo_frame /\
  frames (snd (run (B := demo_backend) (feature_importance_analysis 0%nat "y" "auto")
                   (world_of demo_frame))) !! 0%nat = Some demo_frame.
Proof.
  destruct (analyses_leave_dataset (B := demo_backend)
              (world_of demo_frame) 0%nat demo_frame eq_refl)
    as (Hstat & _ & Hclu & Hfi).
  split; [ apply (Hclu None) | ].
  split; [ exact Hstat | apply (Hfi "y" "auto") ].
Defined.

(** ** The automatic cluster count *)

(** ** The sweep over the candidate cluster counts *)

Section Sweep.

Context `{B : Backend}.

Lemma range_to_list_seqZ (r : range) :
  range_to_list r = seqZ (start r) (stop r - start r).
Proof.
  unfold range_to_list, range_len, seqZ.
  replace (Z.to_nat (Z.max 0 (stop r - start r))) with (Z.to_nat (stop r - start r))
    by lia.
  apply map_ext. intros i. lia.
Qed.

(** One pass of the loop: fit for [k], keep the inertia. *)
Lemma sweep_cons (X_ref : nat) (X : DataFrame) (k : Z) (ks : list Z) (w : World) :
  frames w !! X_ref = Some X ->
  run (sweep X_ref (k :: ks)) w =
  match KMeans_fit k X with
  | Ret fit =>
      match run (sweep X_ref ks) w with
      | (Ret inertias, w') => (Ret (km_inertia fit :: inertias), w')
      | (Raise e, w') => (Raise e, w')
      end
  | Raise e => (Raise e, w)
  end.
Proof.
  intros HX. unfold sweep. cbn [for_each].
  rewrite run_bind, run_bind, (run_read_frame _ _ _ HX), run_bind, run_lift.
  destruct (KMeans_fit k X) as [fit | e]; [ | reflexivity ].
  rewrite run_ret, run_bind.
  match goal with
  | |- context [run (for_each ?f ks) w] => destruct (run (for_each f ks) w) as [[ys | e] w']
  end; reflexivity.
Qed.

(** The sweep leaves the world alone. *)
Lemma sweep_world (X_ref : nat) (X : DataFrame) (ks : list Z) (w : World) :
  frames w !! X_ref = Some X -> snd (run (sweep X_ref ks) w) = w.
Proof.
  intros HX. induction ks as [| k ks IH]; [ reflexivity | ].
  rewrite (sweep_cons _ _ _ _ _ HX).
  destruct (KMeans_fit k X) as [fit | e]; [ | reflexivity ].
  destruct (run (sweep X_ref ks) w) as [[ys | e] w']; exact IH.
Qed.

(** A sweep that returns has fitted every candidate and returns their
    inertias in order. *)
Lemma sweep_returned (X_ref : nat) (X : DataFrame) (ks : list Z) (w w' : World)
      (inertias : list float) :
  frames w !! X_ref = Some X ->
  run (sweep X_ref ks) w = (Ret inertias, w') ->
  exists fits,
    Forall2 (fun k fit => KMeans_fit k X = Ret fit) ks fits /\
    inertias = map km_inertia fits.
Proof.
  intros HX. revert inertias w'. induction ks as [| k ks IH]; intros inertias w'.
  - intros Hrun. injection Hrun as <- _. exists []. split; [ constructor | reflexivity ].
  - rewrite (sweep_cons _ _ _ _ _ HX).
    destruct (KMeans_fit k X) as [fit | e] eqn:Hfit; [ | discriminate ].
    destruct (run (sweep X_ref ks) w) as [[ys | e] w1] eqn:Hrest; [ | discriminate ].
    intros Hrun. injection Hrun as <- _.
    destruct (IH ys w1 eq_refl) as (fits & Hfits & ->).
    exists (fit :: fits). split; [ constructor; assumption | reflexivity ].
Qed.

(** The first candidate whose fit raises ends the sweep. *)
Lemma sweep_raises (X_ref : nat) (X : DataFrame) (fitted rest : list Z) (k : Z)
      (e : exn) (w : World) :
  frames w !! X_ref = Some X ->
  Forall (fun k' => exists fit, KMeans_fit k' X = Ret fit) fitted ->
  KMeans_fit k X = Raise e ->
  run (sweep X_ref (fitted ++ k :: rest)) w = (Raise e, w).
Proof.
  intros HX Hfitted Hk. induction Hfitted as [| k' fitted [fit Hfit] _ IH]; cbn [app].
  - rewrite (sweep_cons _ _ _ _ _ HX), Hk. reflexivity.
  - rewrite (sweep_cons _ _ _ _ _ HX), Hfit, IH. reflexivity.
Qed.

(** An automatic run up to the end of the sweep. *)
Lemma clustering_auto_run (w : World) (df_ref : nat) (df : DataFrame) :
  frames w !! df_ref = Some df ->
  2 <= len (df_columns (select_number df)) ->
  let X := fillna column_mean (select_number df) in
  let X_ref := fresh (dom (frames w)) in
  run (clustering_analysis df_ref None) w =
  match run (sweep X_ref (range_to_list (K_range (n_rows df)))) (stored X w) with
  | (Ret inertias, w1) =>
      run (n_clusters ← lift (_find_elbow (K_range (n_rows df)) inertias);
           km ← lift (KMeans_fit n_clusters X);
           dbscan_labels ← lift (DBSCAN_fit_predict X);
           let results :=
             mkClusteringResult
               (mkKMeansResult n_clusters (km_labels km) (km_centers km) (km_inertia km)
                               (value_counts (km_labels km)))
               (dbscan_result dbscan_labels) in
           _ ← set_result "clustering" (Clustering results);
           mret (Clustering results)) w1
  | (Raise e, w1) => (Raise e, w1)
  end.
Proof.
  intros Hdf Hcols X X_ref. unfold clustering_analysis.
  rewrite run_bind, (run_read_frame _ _ _ Hdf).
  replace (len (df_columns (select_number df)) <? 2) with false
    by (symmetry; apply Z.ltb_ge; assumption).
  rewrite run_bind, run_new_frame.
  rewrite run_bind, (run_read_frame _ _ _ (stored_lookup_new _ w)).
  change (n_rows (fillna column_mean (select_number df))) with (n_rows df).
  fold X. fold X_ref.
  rewrite run_bind, run_bind.
  destruct (run (sweep X_ref (range_to_list (K_range (n_rows df)))) (stored X w))
    as [[inertias | e] w1]; [ | reflexivity ].
  rewrite run_bind. reflexivity.
Qed.

End Sweep.

Section SweepRuns.

Context `{B : Backend}.

(** When every candidate is fitted the sweep returns the inertias. *)
Lemma sweep_fitted (X_ref : nat) (X : DataFrame) (ks : list Z)
      (fits : list KMeansFit) (w : World) :
  frames w !! X_ref = Some X ->
  Forall2 (fun k fit => KMeans_fit k X = Ret fit) ks fits ->
  run (sweep X_ref ks) w = (Ret (map km_inertia fits), w).
Proof.
  intros HX Hfits. induction Hfits as [| k fit ks fits Hfit _ IH]; [ reflexivity | ].
  rewrite (sweep_cons _ _ _ _ _ HX), Hfit, IH. reflexivity.
Qed.

(** A run with the cluster count given, from the fit on. *)
Lemma clustering_given_run (w : World) (df_ref : nat) (df : DataFrame) (k : Z) :
  frames w !! df_ref = Some df ->
  2 <= len (df_columns (select_number df)) ->
  let X := fillna column_mean (select_number df) in
  run (clustering_analysis df_ref (Some k)) w =
  run (km ← lift (KMeans_fit k X);
       dbscan_labels ← lift (DBSCAN_fit_predict X);
       let results :=
         mkClusteringResult
           (mkKMeansResult k (km_labels km) (km_centers km) (km_inertia km)
                           (value_counts (km_labels km)))
           (dbscan_result dbscan_labels) in
       _ ← set_result "clustering" (Clustering results);
       mret (Clustering results)) (stored X w).
Proof.
  intros Hdf Hcols X. unfold clustering_analysis.
  rewrite run_bind, (run_read_frame _ _ _ Hdf).
  replace (len (df_columns (select_number df)) <? 2) with false
    by (symmetry; apply Z.ltb_ge; assumption).
  rewrite run_bind, run_new_frame.
  rewrite run_bind, (run_read_frame _ _ _ (stored_lookup_new _ w)).
  fold X. rewrite run_bind, run_ret. reflexivity.
Qed.

End SweepRuns.

(** C1, amended: the candidates are exactly [k = 2 .. min(11, row_count) - 1];
    from 3 rows on the elbow selection returns a [k] with
    [2 <= k <= min(11, row_count) - 1], whatever the inertias; and every
    clustering result computed without a caller-supplied count carries such
    a [k].  On a Dataset with at least 2 numeric columns the run fits the
    centroid clustering for every candidate, in increasing order, on the
    mean-filled matrix: the first candidate whose fit raises ends the run
    with that exception; when all the fits succeed the run goes on as a run
    with the count the elbow selection gives on their inertias; and a run
    that returns a result has fitted every candidate and carries that
    count. *)
Theorem elbow_within_sweep `{B : Backend} :
  (forall row_count k,
      In k (range_to_list (K_range row_count)) <->
      2 <= k <= Z.min 11 row_count - 1) /\
  (forall row_count inertias,
      3 <= row_count ->
      exists k, _find_elbow (K_range row_count) inertias = Ret k /\
                2 <= k <= Z.min 11 row_count - 1) /\
  (forall w w' df_ref df r,
      frames w !! df_ref = Some df ->
      run (clustering_analysis df_ref None) w = (Ret (Clustering r), w') ->
      2 <= kmeans_n_clusters (kmeans r) <= Z.min 11 (n_rows df) - 1) /\
  (forall w df_ref df,
      frames w !! df_ref = Some df ->
      2 <= len (df_columns (select_number df)) ->
      let X := fillna column_mean (select_number df) in
      let candidates := seqZ 2 (Z.min 11 (n_rows df) - 2) in
      let k_range := mkRange 2 (Z.min 11 (n_rows df)) in
      (forall fitted k rest e,
          candidates = fitted ++ k :: rest ->
          Forall (fun k' => exists fit, KMeans_fit k' X = Ret fit) fitted ->
          KMeans_fit k X = Raise e ->
          run (clustering_analysis df_ref None) w = (Raise e, stored X w)) /\
      (forall fits,
          Forall2 (fun k fit => KMeans_fit k X = Ret fit) candidates fits ->
          match _find_elbow k_range (map km_inertia fits) with
          | Ret k =>
              run (clustering_analysis df_ref None) w
              = run (clustering_analysis df_ref (Some k)) w
          | Raise e =>
              run (clustering_analysis df_ref None) w = (Raise e, stored X w)
          end) /\
      (forall r w',
          run (clustering_analysis df_ref None) w = (Ret (Clustering r), w') ->
          exists fits,
            Forall2 (fun k fit => KMeans_fit k X = Ret fit) candidates fits /\
            _find_elbow k_range (map km_inertia fits)
            = Ret (kmeans_n_clusters (kmeans r)))).
Proof.
  split; [ | split; [ | split ] ].
  - intros row_count k. rewrite range_to_list_spec. simpl. lia.
  - intros row_count inertias Hrows.
    destruct (find_elbow_in_range (K_range row_count) inertias) as (k & Hk & Hin).
    + simpl. lia.
    + exists k. split; [ assumption | ]. simpl in Hin. lia.
  - intros w w' df_ref df r Hdf Hrun.
    exact (clustering_chosen_k w w' df_ref df _ Hdf Hrun).
  - intros w df_ref df Hdf Hcols X candidates k_range.
    pose proof (clustering_auto_run w df_ref df Hdf Hcols) as Hauto.
    cbv zeta in Hauto. fold X in Hauto.
    change (K_range (n_rows df)) with k_range in Hauto.
    assert (range_to_list k_range = candidates) as Hcand
        by (rewrite range_to_list_seqZ; reflexivity).
    rewrite Hcand in Hauto.
    pose proof (stored_lookup_new X w) as HX.
    split; [ | split ].
    + intros fitted k rest e Hsplit Hfitted Hk.
      rewrite Hauto, Hsplit, (sweep_raises _ _ _ _ _ _ _ HX Hfitted Hk). reflexivity.
    + intros fits Hfits.
      rewrite Hauto, (sweep_fitted _ _ _ _ _ HX Hfits), run_bind, run_lift.
      destruct (_find_elbow k_range (map km_inertia fits)) as [k | e];
        [ | reflexivity ].
      rewrite (clustering_given_run w df_ref df k Hdf Hcols). reflexivity.
    + intros r w' Hrun. rewrite Hauto in Hrun.
      destruct (run (sweep (fresh (dom (frames w))) candidates) (stored X w))
        as [[inertias | e] w1] eqn:Hsweep; [ | discriminate ].
      destruct (sweep_returned _ _ _ _ _ _ HX Hsweep) as (fits & Hfits & ->).
      exists fits. split; [ exact Hfits | ].
      rewrite run_bind, run_lift in Hrun.
      destruct (_find_elbow k_range (map km_inertia fits)) as [k | e];
        [ | discriminate ].
      rewrite run_bind, run_lift in Hrun.
      destruct (KMeans_fit k X) as [km | e]; [ | discriminate ].
      rewrite run_bind, run_lift in Hrun.
      destruct (DBSCAN_fit_predict X) as [labels | e]; [ | discriminate ].
      cbv zeta in Hrun. rewrite run_bind in Hrun.
      cbn in Hrun. injection Hrun as <- _. reflexivity.
Qed.

Lemma elbow_within_sweep_witness :
  (exists k, _find_elbow (K_range 7)
               [100%float; 40%float; 30%float; 25%float; 22%float] = Ret k /\
             2 <= k <= Z.min 11 7 - 1) /\
  (exists r w',
      run (B := demo_backend) (clustering_analysis 0%nat None) (world_of demo_frame)
        = (Ret (Clustering r), w') /\
      2 <= kmeans_n_clusters (kmeans r) <= Z.min 11 (n_rows demo_frame) - 1 /\
      exists fits,
        Forall2 (fun k fit =>
                   KMeans_fit (Backend := demo_backend) k
                              (fillna (column_mean (Backend := demo_backend))
                                      (select_number demo_frame)) = Ret fit)
                [2] fits /\
        _find_elbow (mkRange 2 3) (map km_inertia fits)
        = Ret (kmeans_n_clusters (kmeans r))).
Proof.
  destruct (elbow_within_sweep (B := demo_backend)) as (_ & Helbow & Hrun & Hsweep).
  split.
  - apply (Helbow 7 [100%float; 40%float; 30%float; 25%float; 22%float]). lia.
  - eexists. eexists.
    match goal with
    | |- ?E /\ _ => assert (Hr : E) by (vm_compute; reflexivity)
    end.
    split; [ exact Hr | ]. split.
    + exact (Hrun (world_of demo_frame) _ 0%nat demo_frame _ eq_refl Hr).
    + destruct (Hsweep (world_of demo_frame) 0%nat demo_frame eq_refl)
        as (_ & _ & Hret); [ vm_compute; discriminate | ].
      exact (Hret _ _ Hr).
Defined.

(** ** More on the order of binary64 values *)

Module FloatOrderMore.

Import FloatOrder.

Lemma leb_refl (x : float) :
  PrimFloat.is_nan x = false -> PrimFloat.leb x x = true.
Proof.
  rewrite FloatOrderFacts.is_nan_spec, FloatAxioms.leb_spec, FloatOrderFacts.SFleb_lex.
  intros Hx. repeat split; try assumption. unfold lex_le. lia.
Qed.

(** Away from NaN, [not (x <= y)] is [y < x]. *)
Lemma not_leb_ltb (x y : float) :
  PrimFloat.is_nan x = false -> PrimFloat.is_nan y = false ->
  PrimFloat.leb x y = false -> PrimFloat.ltb y x = true.
Proof.
  rewrite !FloatOrderFacts.is_nan_spec, FloatAxioms.ltb_spec, FloatOrderFacts.SFltb_lex.
  intros Hx Hy Hle. repeat split; try assumption.
  rewrite FloatAxioms.leb_spec in Hle.
  assert (~ lex_le (Prim2SF x) (Prim2SF y)) as Hn.
  { intros Hl. assert (SFleb (Prim2SF x) (Prim2SF y) = true) as Ht
      by (apply FloatOrderFacts.SFleb_lex; tauto). congruence. }
  unfold lex_le in Hn. unfold lex_lt. lia.
Qed.

Lemma leb_ltb_trans (x y z : float) :
  PrimFloat.leb x y = true -> PrimFloat.ltb y z = true -> PrimFloat.ltb x z = true.
Proof.
  rewrite FloatAxioms.leb_spec, !FloatAxioms.ltb_spec,
    FloatOrderFacts.SFleb_lex, !FloatOrderFacts.SFltb_lex.
  unfold lex_le, lex_lt. intros (? & ? & ?) (? & ? & ?).
  repeat split; try assumption. lia.
Qed.

Lemma ltb_trans (x y z : float) :
  PrimFloat.ltb x y = true -> PrimFloat.ltb y z = true -> PrimFloat.ltb x z = true.
Proof.
  intros Hxy. apply leb_ltb_trans, FloatOrderFacts.ltb_leb. assumption.
Qed.

(** [x < y] and [y <= x] exclude each other. *)
Lemma ltb_not_leb (x y : float) :
  PrimFloat.ltb x y = true -> PrimFloat.leb y x = false.
Proof.
  rewrite FloatAxioms.ltb_spec, FloatOrderFacts.SFltb_lex. intros (Hx & Hy & Hlt).
  destruct (PrimFloat.leb y x) eqn:E; [ | reflexivity ].
  rewrite FloatAxioms.leb_spec, FloatOrderFacts.SFleb_lex in E.
  destruct E as (_ & _ & Hle). unfold lex_lt in Hlt. unfold lex_le in Hle. lia.
Qed.

End FloatOrderMore.

(** ** The elbow selection past its guard *)

Lemma diff_length (a : list float) : len (Np.diff a) = Z.max 0 (len a - 1).
Proof.
  unfold len. induction a as [| x [| y tl] IH]; try reflexivity.
  change (Np.diff (x :: y :: tl)) with (PrimFloat.sub y x :: Np.diff (y :: tl)).
  cbn [length] in *. lia.
Qed.

Lemma argmax_scan_upper (a : list float) :
  forall mp best i, best < i -> Np.argmax_scan mp best i a < i + len a.
Proof.
  unfold len. induction a as [| x tl IH]; intros mp best i Hb; cbn [Np.argmax_scan length].
  - lia.
  - destruct (PrimFloat.is_nan mp); [ lia | ].
    destruct (negb (PrimFloat.leb x mp)).
    + specialize (IH x i (i + 1)). lia.
    + specialize (IH mp best (i + 1)). lia.
Qed.

Lemma argmax_in_bounds (a : list float) :
  len a > 0 -> exists am, Np.argmax a = Ret am /\ 0 <= am < len a.
Proof.
  destruct a as [| x tl]; [ unfold len; simpl; lia | ].
  intros _. eexists. split; [ reflexivity | ]. split.
  - apply argmax_scan_bounds; lia.
  - pose proof (argmax_scan_upper tl x 0 1). unfold len in *. cbn [length]. lia.
Qed.

Lemma find_elbow_three_samples (k_range : range) (inertias : list float) :
  3 <= len inertias ->
  len (Np.diff (Np.diff inertias)) = len inertias - 2 /\
  exists am,
    Np.argmax (Np.diff (Np.diff inertias)) = Ret am /\
    0 <= am < len inertias - 2 /\
    _find_elbow k_range inertias =
    range_getitem k_range (Z.min (am + 2) (range_len k_range - 1)).
Proof.
  intros Hlen.
  assert (len (Np.diff (Np.diff inertias)) = len inertias - 2) as Hd2
      by (rewrite !diff_length; lia).
  split; [ exact Hd2 | ].
  destruct (argmax_in_bounds (Np.diff (Np.diff inertias))) as (am & Ham & Hb);
    [ lia | ].
  exists am. split; [ exact Ham | ]. split; [ lia | ].
  unfold _find_elbow.
  destruct (len inertias <? 3) eqn:E; [ apply Z.ltb_lt in E; lia | ].
  destruct (len (Np.diff (Np.diff inertias)) >? 0) eqn:E2.
  - rewrite Ham. reflexivity.
  - rewrite Z.gtb_ltb in E2. apply Z.ltb_ge in E2. lia.
Qed.

(** X1: with 3 or more inertia samples the second difference has
    [len(inertias) - 2 > 0] entries, so the selection always returns
    [k_range[min(argmax(diffs2) + 2, len(k_range) - 1)]]; the final
    "default to middle" return is never reached. *)
Theorem find_elbow_past_guard (k_range : range) (inertias : list float) :
  3 <= len inertias ->
  len (Np.diff (Np.diff inertias)) = len inertias - 2 /\
  exists am,
    Np.argmax (Np.diff (Np.diff inertias)) = Ret am /\
    0 <= am < len inertias - 2 /\
    _find_elbow k_range inertias =
    range_getitem k_range (Z.min (am + 2) (range_len k_range - 1)).
Proof. apply find_elbow_three_samples. Qed.

Lemma find_elbow_past_guard_witness :
  exists am,
    Np.argmax (Np.diff (Np.diff [100%float; 40%float; 30%float; 25%float; 22%float]))
      = Ret am /\
    0 <= am < 3 /\
    _find_elbow (K_range 7) [100%float; 40%float; 30%float; 25%float; 22%float] =
    range_getitem (K_range 7) (Z.min (am + 2) (range_len (K_range 7) - 1)).
Proof.
  apply (find_elbow_past_guard (K_range 7)
           [100%float; 40%float; 30%float; 25%float; 22%float]).
  vm_compute. discriminate.
Defined.

Lemma argmax_scan_first_maximum (tl : list float) :
  forall (pre : list float) (mp : float) (best : nat),
    no_nan (pre ++ tl) ->
    pre !! best = Some mp ->
    Forall (fun y => PrimFloat.leb y mp = true) pre ->
    (forall j y, (j < best)%nat -> pre !! j = Some y -> PrimFloat.ltb y mp = true) ->
    exists v, first_maximum (pre ++ tl)
                (Np.argmax_scan mp (Z.of_nat best) (len pre) tl) v.
Proof.
  induction tl as [| x tl IH]; intros pre mp best Hnan Hbest Hle Hlt.
  - cbn [Np.argmax_scan]. rewrite app_nil_r. exists mp.
    unfold first_maximum. rewrite Nat2Z.id. repeat split; try assumption; lia.
  - assert (PrimFloat.is_nan mp = false) as Hmp.
    { unfold no_nan in Hnan. rewrite Forall_forall in Hnan. apply Hnan.
      apply elem_of_app. left. eapply list_elem_of_lookup_2. eassumption. }
    assert (PrimFloat.is_nan x = false) as Hx.
    { unfold no_nan in Hnan. rewrite Forall_forall in Hnan. apply Hnan.
      apply elem_of_app. right. apply list_elem_of_here. }
    cbn [Np.argmax_scan]. rewrite Hmp.
    assert (len pre + 1 = len (pre ++ [x])) as Hlen
        by (unfold len; rewrite length_app; cbn [length]; lia).
    rewrite Hlen.
    replace (pre ++ x :: tl) with ((pre ++ [x]) ++ tl) in *
      by (rewrite <- app_assoc; reflexivity).
    destruct (PrimFloat.leb x mp) eqn:Hxmp; cbn [negb].
    + apply IH; try assumption.
      * apply lookup_app_l_Some. assumption.
      * apply Forall_app. split; [ assumption | ].
        constructor; [ assumption | constructor ].
      * intros j y Hj Hy. apply (Hlt j y Hj).
        rewrite lookup_app_l in Hy; [ assumption | ].
        apply lookup_lt_Some in Hbest. lia.
    + pose proof (FloatOrderMore.not_leb_ltb x mp Hx Hmp Hxmp) as Hgt.
      replace (len pre) with (Z.of_nat (length pre)) by reflexivity.
      apply IH; try assumption.
      * rewrite lookup_app_r by lia. rewrite Nat.sub_diag. reflexivity.
      * apply Forall_app. split.
        -- eapply Forall_impl; [ exact Hle | ]. intros y Hy. cbv beta in *.
           apply FloatOrderFacts.ltb_leb.
           eapply FloatOrderMore.leb_ltb_trans; eassumption.
        -- constructor; [ apply FloatOrderMore.leb_refl; assumption | constructor ].
      * intros j y Hj Hy. rewrite lookup_app_l in Hy by assumption.
        eapply FloatOrderMore.leb_ltb_trans; [ | exact Hgt ].
        rewrite Forall_forall in Hle. apply Hle.
        eapply list_elem_of_lookup_2. eassumption.
Qed.

Lemma argmax_first_maximum (a : list float) :
  no_nan a -> len a > 0 ->
  exists am v, Np.argmax a = Ret am /\ first_maximum a am v.
Proof.
  destruct a as [| x tl]; [ unfold len; simpl; lia | ].
  intros Hnan _.
  destruct (argmax_scan_first_maximum tl [x] x 0%nat) as (v & Hv).
  - exact Hnan.
  - reflexivity.
  - constructor; [ | constructor ]. apply FloatOrderMore.leb_refl.
    unfold no_nan in Hnan. apply Forall_cons in Hnan. tauto.
  - intros j y Hj. lia.
  - eexists. exists v. split; [ reflexivity | exact Hv ].
Qed.

(** X2: when no second difference is NaN, the index the selection uses is
    that of the largest second difference, the first one among equals, plus 2
    and clamped to the last candidate. *)
Theorem find_elbow_at_largest_second_difference
        (k_range : range) (inertias : list float) :
  3 <= len inertias ->
  no_nan (Np.diff (Np.diff inertias)) ->
  exists am v,
    first_maximum (Np.diff (Np.diff inertias)) am v /\
    _find_elbow k_range inertias =
    range_getitem k_range (Z.min (am + 2) (range_len k_range - 1)).
Proof.
  intros Hlen Hnan.
  destruct (find_elbow_three_samples k_range inertias Hlen) as (Hd2 & am & Ham & _ & Hk).
  destruct (argmax_first_maximum (Np.diff (Np.diff inertias)) Hnan) as (am' & v & Ham' & Hv);
    [ lia | ].
  rewrite Ham in Ham'. injection Ham' as <-.
  exists am, v. split; assumption.
Qed.

Lemma find_elbow_at_largest_second_difference_witness :
  exists am v,
    first_maximum
      (Np.diff (Np.diff [100%float; 40%float; 30%float; 25%float; 22%float])) am v /\
    _find_elbow (K_range 7) [100%float; 40%float; 30%float; 25%float; 22%float] =
    range_getitem (K_range 7) (Z.min (am + 2) (range_len (K_range 7) - 1)).
Proof.
  apply (find_elbow_at_largest_second_difference (K_range 7)
           [100%float; 40%float; 30%float; 25%float; 22%float]).
  - vm_compute. discriminate.
  - repeat constructor.
Defined.

(** ** Which cluster counts the automatic choice can give *)

Lemma range_to_list_length (r : range) :
  len (range_to_list r) = range_len r.
Proof.
  unfold len, range_to_list. rewrite length_map, length_seq.
  unfold range_len. lia.
Qed.

Lemma find_elbow_full_sweep (row_count : Z) (inertias : list float) (k : Z) :
  len inertias = range_len (K_range row_count) ->
  _find_elbow (K_range row_count) inertias = Ret k ->
  (row_count <= 4 -> k = 2) /\ (5 <= row_count -> 4 <= k).
Proof.
  intros Hlen Hk.
  assert (range_len (K_range row_count) = Z.max 0 (Z.min 11 row_count - 2)) as Hr
      by reflexivity.
  split; intros Hrows.
  - unfold _find_elbow in Hk.
    destruct (len inertias <? 3) eqn:E; [ | apply Z.ltb_ge in E; lia ].
    destruct (Z.le_gt_cases row_count 2) as [Hfew | Hsome].
    + rewrite range_getitem_empty in Hk by lia. discriminate.
    + rewrite range_getitem_inside in Hk by lia.
      injection Hk as <-. reflexivity.
  - destruct (find_elbow_three_samples (K_range row_count) inertias)
      as (_ & am & _ & Ham & Hel); [ lia | ].
    rewrite Hel in Hk.
    rewrite range_getitem_inside in Hk by lia.
    injection Hk as <-. simpl. lia.
Qed.

Section AutoK.

Context `{B : Backend}.

Lemma for_each_length {A C} (f : A -> M C) (l : list A) :
  returns_only (fun ys => length ys = length l) (for_each f l).
Proof.
  induction l as [| x tl IH]; cbn [for_each].
  - apply returns_only_ret. reflexivity.
  - apply returns_only_bind; intros y.
    apply (returns_only_bind_with (fun ys => length ys = length tl)); [ exact IH | ].
    intros ys Hys. apply returns_only_ret. cbn [length]. congruence.
Qed.

Lemma clustering_auto_k (w w' : World) (df_ref : nat) (df : DataFrame)
      (r : AnalysisResult) :
  frames w !! df_ref = Some df ->
  run (clustering_analysis df_ref None) w = (Ret r, w') ->
  auto_k_values (n_rows df) r.
Proof.
  intros Hdf. unfold clustering_analysis.
  rewrite run_bind, (run_read_frame _ _ _ Hdf).
  destruct (len (df_columns (select_number df)) <? 2).
  - rewrite run_ret. intros Hrun. injection Hrun as <- _. exact I.
  - rewrite run_bind, run_new_frame.
    rewrite run_bind, (run_read_frame _ _ _ (stored_lookup_new _ w)).
    change (n_rows (fillna column_mean (select_number df))) with (n_rows df).
    revert r w'.
    match goal with
    | |- forall r w', run ?m ?w1 = _ -> _ =>
        cut (returns_only (auto_k_values (n_rows df)) m);
        [ intros Hall r w' Hrun; exact (Hall _ _ _ Hrun) | ]
    end.
    apply (returns_only_bind_with
             (fun k => (n_rows df <= 4 -> k = 2) /\ (5 <= n_rows df -> 4 <= k))).
    + apply (returns_only_bind_with
               (fun inertias : list float =>
                  len inertias = range_len (K_range (n_rows df)))).
      * unfold sweep. intros w1 ys w2 Hrun.
        pose proof (for_each_length _ _ w1 ys w2 Hrun) as Hl.
        rewrite <- range_to_list_length. unfold len. congruence.
      * intros inertias Hl. apply returns_only_lift. intros k Hk.
        exact (find_elbow_full_sweep _ _ _ Hl Hk).
    + intros k Hk.
      apply returns_only_bind; intros km.
      apply returns_only_bind; intros labels.
      apply returns_only_bind; intros _.
      apply returns_only_ret. exact Hk.
Qed.

End AutoK.

(** X3: a clustering result computed without a caller-supplied count has
    [n_clusters = 2] when the Dataset has 3 or 4 rows and [n_clusters >= 4]
    when it has 5 rows or more: the automatic choice never gives 3. *)
Theorem auto_cluster_count_never_three `{B : Backend}
        (w w' : World) (df_ref : nat) (df : DataFrame) (r : ClusteringResult) :
  frames w !! df_ref = Some df ->
  run (clustering_analysis df_ref None) w = (Ret (Clustering r), w') ->
  (n_rows df <= 4 -> kmeans_n_clusters (kmeans r) = 2) /\
  (5 <= n_rows df -> 4 <= kmeans_n_clusters (kmeans r)) /\
  kmeans_n_clusters (kmeans r) <> 3.
Proof.
  intros Hdf Hrun.
  destruct (clustering_auto_k w w' df_ref df _ Hdf Hrun) as [Hfew Hmany].
  split; [ exact Hfew | ]. split; [ exact Hmany | ].
  destruct (Z.le_gt_cases (n_rows df) 4) as [H4 | H5].
  - rewrite (Hfew H4). discriminate.
  - specialize (Hmany ltac:(lia)). lia.
Qed.

(** ** What a run does to the session *)

Section Respects.

Context `{B : Backend} (R : World -> World -> Prop).
Hypothesis R_refl : forall w, R w w.
Hypothesis R_trans : forall w1 w2 w3, R w1 w2 -> R w2 w3 -> R w1 w3.

Lemma respects_ret {A} (a : A) : respects R (mret a).
Proof. intros w. apply R_refl. Qed.

Lemma respects_lift {A} (r : res A) : respects R (lift r).
Proof. intros w. apply R_refl. Qed.

Lemma respects_read_frame (l : nat) : respects R (read_frame l).
Proof.
  intros w. unfold read_frame; simpl. destruct (frames w !! l); apply R_refl.
Qed.

Lemma respects_bind {A C} (m : M A) (k : A -> M C) :
  respects R m -> (forall a, respects R (k a)) -> respects R (m ≫= k).
Proof.
  intros Hm Hk w. rewrite run_bind. specialize (Hm w).
  destruct (run m w) as [[a | e] w']; simpl in *.
  - eapply R_trans; [ exact Hm | apply Hk ].
  - exact Hm.
Qed.

Lemma respects_try_except {A} (body : M A) (handler : exn -> M A) :
  respects R body -> (forall e, respects R (handler e)) ->
  respects R (try_except body handler).
Proof.
  intros Hb Hh w. unfold try_except; simpl. specialize (Hb w).
  destruct (run body w) as [[a | e] w']; simpl in *.
  - exact Hb.
  - eapply R_trans; [ exact Hb | apply Hh ].
Qed.

Lemma respects_for_each {A C} (f : A -> M C) (l : list A) :
  (forall a, respects R (f a)) -> respects R (for_each f l).
Proof.
  intros Hf. induction l as [| x tl IH]; cbn [for_each].
  - apply respects_ret.
  - apply respects_bind; [ apply Hf | intros y ].
    apply respects_bind; [ exact IH | intros ys; apply respects_ret ].
Qed.

Lemma respects_for_fold {A S} (f : S -> A -> M S) (l : list A) :
  (forall s a, respects R (f s a)) -> forall s, respects R (for_fold f l s).
Proof.
  intros Hf. induction l as [| x tl IH]; intros s; cbn [for_fold].
  - apply respects_ret.
  - apply respects_bind; [ apply Hf | intros s'; apply IH ].
Qed.

End Respects.

Section Session.

Context `{B : Backend}.

Lemma session_kept_refl (w : World) : session_kept w w.
Proof. split; reflexivity. Qed.

Lemma session_kept_trans (w1 w2 w3 : World) :
  session_kept w1 w2 -> session_kept w2 w3 -> session_kept w1 w3.
Proof. unfold session_kept. intros [? ?] [? ?]. split; congruence. Qed.

Lemma session_new_frame (df : DataFrame) : respects session_kept (new_frame df).
Proof. intros w. split; reflexivity. Qed.

Lemma session_effect_after (key : string) (target : option string)
      (w w1 w' : World) (out : res AnalysisResult) :
  session_kept w w1 -> session_effect key target w1 out w' ->
  session_effect key target w out w'.
Proof.
  intros [Hr Hm]. unfold session_effect, session_kept.
  destruct out as [[r | r | r | msg] | e]; rewrite ?Hr, ?Hm; tauto.
Qed.

Lemma effect_bind {A} (key : string) (target : option string)
      (m : M A) (k : A -> M AnalysisResult) :
  respects session_kept m ->
  (forall a, has_session_effect key target (k a)) ->
  has_session_effect key target (m ≫= k).
Proof.
  intros Hm Hk w. rewrite run_bind. specialize (Hm w).
  destruct (run m w) as [[a | e] w1]; simpl in *.
  - eapply session_effect_after; [ exact Hm | apply Hk ].
  - exact Hm.
Qed.

Lemma effect_error (key : string) (target : option string) (msg : string) :
  has_session_effect key target (mret (ErrorResult msg)).
Proof. intros w. apply session_kept_refl. Qed.

Lemma effect_record (key : string) (r : AnalysisResult) :
  (forall msg, r <> ErrorResult msg) ->
  has_session_effect key None (set_result key r ≫= fun _ => mret r).
Proof.
  intros Hr w. simpl. destruct r; try (split; reflexivity).
  exfalso. eapply Hr. reflexivity.
Qed.

Lemma effect_record_model (key target : string) (model : estimator)
      (r : AnalysisResult) :
  (forall msg, r <> ErrorResult msg) ->
  has_session_effect key (Some target)
    (set_model target model ≫= fun _ => set_result key r ≫= fun _ => mret r).
Proof.
  intros Hr w. simpl. destruct r; try (split; [ reflexivity | eexists; reflexivity ]).
  exfalso. eapply Hr. reflexivity.
Qed.

Lemma session_ret {A} (a : A) : respects session_kept (mret a).
Proof. apply respects_ret, session_kept_refl. Qed.

Lemma session_lift {A} (r : res A) : respects session_kept (lift r).
Proof. apply respects_lift, session_kept_refl. Qed.

Lemma session_read_frame (l : nat) : respects session_kept (read_frame l).
Proof. apply respects_read_frame, session_kept_refl. Qed.

Lemma session_bind {A C} (m : M A) (k : A -> M C) :
  respects session_kept m -> (forall a, respects session_kept (k a)) ->
  respects session_kept (m ≫= k).
Proof. apply respects_bind, session_kept_trans. Qed.

Lemma session_try_except {A} (body : M A) (handler : exn -> M A) :
  respects session_kept body -> (forall e, respects session_kept (handler e)) ->
  respects session_kept (try_except body handler).
Proof. apply respects_try_except, session_kept_trans. Qed.

Lemma session_for_each {A C} (f : A -> M C) (l : list A) :
  (forall a, respects session_kept (f a)) -> respects session_kept (for_each f l).
Proof.
  apply respects_for_each; [ apply session_kept_refl | apply session_kept_trans ].
Qed.

Lemma session_for_fold {A S} (f : S -> A -> M S) (l : list A) :
  (forall s a, respects session_kept (f s a)) ->
  forall s, respects session_kept (for_fold f l s).
Proof.
  apply respects_for_fold; [ apply session_kept_refl | apply session_kept_trans ].
Qed.

Ltac session_steps :=
  repeat first
    [ apply session_ret
    | apply session_lift
    | apply session_read_frame
    | apply session_new_frame
    | apply session_for_each; intros
    | apply session_for_fold; intros
    | apply session_try_except; intros
    | apply session_bind; intros
    | match goal with
      | |- respects _ (let '(_, _) := ?x in _) => destruct x
      | |- respects _ (if ?c then _ else _) => destruct c
      | |- respects _ (match ?x with Some _ => _ | None => _ end) => destruct x
      end ].

Ltac effect_steps :=
  repeat first
    [ apply effect_error
    | apply effect_record; intros; discriminate
    | apply effect_record_model; intros; discriminate
    | apply effect_bind; [ session_steps | intros ]
    | match goal with
      | |- has_session_effect _ _ (let '(_, _) := ?x in _) => destruct x
      | |- has_session_effect _ _ (if ?c then _ else _) => destruct c
      end ].

Lemma statistical_effect (df_ref : nat) :
  has_session_effect "statistical" None (statistical_analysis df_ref).
Proof. unfold statistical_analysis, distribution_step. effect_steps. Qed.

Lemma clustering_effect (df_ref : nat) (n : option Z) :
  has_session_effect "clustering" None (clustering_analysis df_ref n).
Proof. unfold clustering_analysis, sweep. effect_steps. Qed.

Lemma feature_importance_effect (df_ref : nat) (target_column task : string) :
  has_session_effect "feature_importance" (Some target_column)
                     (feature_importance_analysis df_ref target_column task).
Proof.
  unfold feature_importance_analysis, shap_step, shap_fallback. effect_steps.
Qed.

End Session.

(** X4: what each analysis operation does to the engine's session.  A
    returned result other than an [ErrorResult] is stored in
    [analysis_results] under the operation's key, every other key being left
    as it was; [feature_importance_analysis] also stores a model under the
    target name, the other two leave [models] alone.  An operation that
    returns an [ErrorResult] or raises leaves [analysis_results] and [models]
    exactly as they were. *)
Theorem analyses_session_effect `{B : Backend} (w : World) (df_ref : nat) :
  session_effect "statistical" None w
    (fst (run (statistical_analysis df_ref) w))
    (snd (run (statistical_analysis df_ref) w)) /\
  (forall n,
      session_effect "clustering" None w
        (fst (run (clustering_analysis df_ref n) w))
        (snd (run (clustering_analysis df_ref n) w))) /\
  (forall target_column task,
      session_effect "feature_importance" (Some target_column) w
        (fst (run (feature_importance_analysis df_ref target_column task) w))
        (snd (run (feature_importance_analysis df_ref target_column task) w))).
Proof.
  split; [ apply statistical_effect | ].
  split; [ intros n; apply clustering_effect | ].
  intros target_column task. apply feature_importance_effect.
Qed.

(** ** The dict of hypothesis tests *)

Section TestsDict.

Context `{B : Backend}.

Lemma foldl_map {A C D} (f : D -> C -> D) (h : A -> C) (l : list A) (d : D) :
  foldl f d (map h l) = foldl (fun d x => f d (h x)) d l.
Proof. revert d. induction l as [| x tl IH]; intros d; simpl; auto. Qed.

Lemma foldl_flat_map {A C D} (f : D -> C -> D) (g : A -> list C) (l : list A) (d : D) :
  foldl f d (flat_map g l) = foldl (fun d x => foldl f d (g x)) d l.
Proof.
  revert d. induction l as [| x tl IH]; intros d; simpl; [ reflexivity | ].
  rewrite foldl_app. apply IH.
Qed.

Lemma foldl_pointwise {A D} (f g : D -> A -> D) (l : list A) (d : D) :
  (forall d x, f d x = g d x) -> foldl f d l = foldl g d l.
Proof.
  intros Hfg. revert d. induction l as [| x tl IH]; intros d; simpl;
    [ reflexivity | ].
  rewrite Hfg. apply IH.
Qed.

Lemma perform_tests_as_fold (df : DataFrame) :
  _perform_hypothesis_tests df = foldl tests_step ∅ (column_pairs df).
Proof.
  unfold _perform_hypothesis_tests, column_pairs. rewrite foldl_flat_map.
  apply foldl_pointwise. intros tests cat.
  rewrite foldl_map. reflexivity.
Qed.

Lemma tests_step_other (tests : gmap string TestEntry) (p : Series * Series)
      (key : string) :
  pair_key (fst p) (snd p) <> key -> tests_step tests p !! key = tests !! key.
Proof.
  intros Hne. unfold tests_step.
  destruct (test_pair (fst p) (snd p)); [ | reflexivity ].
  apply lookup_insert_ne. assumption.
Qed.

Lemma tests_step_same (tests : gmap string TestEntry) (p : Series * Series)
      (o : option TestEntry) :
  test_pair (fst p) (snd p) = o ->
  tests !! pair_key (fst p) (snd p) = o \/ tests !! pair_key (fst p) (snd p) = None ->
  tests_step tests p !! pair_key (fst p) (snd p) = o.
Proof.
  intros Ho Hm. unfold tests_step. rewrite Ho.
  destruct o as [e |]; [ apply lookup_insert_eq | ].
  destruct Hm; assumption.
Qed.

Lemma tests_fold_sound (l : list (Series * Series)) :
  forall (tests : gmap string TestEntry) (key : string) (e : TestEntry),
    foldl tests_step tests l !! key = Some e ->
    tests !! key = Some e \/
    exists p, In p l /\ key = pair_key (fst p) (snd p) /\
              test_pair (fst p) (snd p) = Some e.
Proof.
  induction l as [| p tl IH]; intros tests key e Hlook; simpl in Hlook.
  - left. assumption.
  - destruct (IH _ _ _ Hlook) as [Hstep | (q & Hq & Hkey & Htest)].
    + unfold tests_step in Hstep.
      destruct (test_pair (fst p) (snd p)) as [e' |] eqn:Hp; [ | left; assumption ].
      destruct (decide (pair_key (fst p) (snd p) = key)) as [Heq | Hne].
      * subst key. rewrite lookup_insert_eq in Hstep. injection Hstep as ->.
        right. exists p. split; [ left; reflexivity | split; [ reflexivity | assumption ] ].
      * rewrite lookup_insert_ne in Hstep by assumption. left. assumption.
    + right. exists q. split; [ right; assumption | split; assumption ].
Qed.

Lemma tests_fold_settled (l : list (Series * Series)) (key : string)
      (o : option TestEntry) :
  (forall p, In p l -> pair_key (fst p) (snd p) = key -> test_pair (fst p) (snd p) = o) ->
  forall tests, tests !! key = o -> foldl tests_step tests l !! key = o.
Proof.
  induction l as [| p tl IH]; intros Hall tests Hm; simpl; [ assumption | ].
  apply IH; [ intros q Hq; apply Hall; right; assumption | ].
  destruct (decide (pair_key (fst p) (snd p) = key)) as [Heq | Hne].
  - rewrite <- Heq. apply tests_step_same.
    + apply Hall; [ left; reflexivity | exact Heq ].
    + left. rewrite Heq. assumption.
  - rewrite tests_step_other by assumption. assumption.
Qed.

Lemma tests_fold_written (l : list (Series * Series)) (key : string)
      (o : option TestEntry) :
  (forall p, In p l -> pair_key (fst p) (snd p) = key -> test_pair (fst p) (snd p) = o) ->
  (exists p, In p l /\ pair_key (fst p) (snd p) = key) ->
  forall tests, tests !! key = None -> foldl tests_step tests l !! key = o.
Proof.
  induction l as [| p tl IH]; intros Hall (q & Hq & Hkey) tests Hm; simpl;
    [ destruct Hq | ].
  destruct (decide (pair_key (fst p) (snd p) = key)) as [Heq | Hne].
  - apply tests_fold_settled; [ intros r Hr; apply Hall; right; assumption | ].
    rewrite <- Heq. apply tests_step_same.
    + apply Hall; [ left; reflexivity | exact Heq ].
    + right. rewrite Heq. assumption.
  - apply IH.
    + intros r Hr. apply Hall. right. assumption.
    + destruct Hq as [-> | Hq]; [ contradiction | ]. exists q. split; assumption.
    + rewrite tests_step_other by assumption. assumption.
Qed.

Lemma column_pairs_spec (df : DataFrame) (cat num : Series) :
  In (cat, num) (column_pairs df) <->
  In cat (df_columns (select_categorical df)) /\ In num (df_columns (select_number df)).
Proof.
  unfold column_pairs. rewrite in_flat_map. split.
  - intros (c & Hc & Hin). apply in_map_iff in Hin.
    destruct Hin as (n & Heq & Hn). injection Heq as -> ->. split; assumption.
  - intros [Hc Hn]. exists cat. split; [ assumption | ].
    apply in_map_iff. exists num. split; [ reflexivity | assumption ].
Qed.

End TestsDict.

(** X5: every entry of the dict returned by [_perform_hypothesis_tests] is
    the entry of some pair of a categorical (object or category dtype) and a
    numeric column, stored under that pair's key; a pair whose key no other
    pair shares has exactly its own entry there, or none when it has fewer
    than 2 valid groups; and without categorical or without numeric columns
    the dict is empty. *)
Theorem hypothesis_tests_dict `{B : Backend} (df : DataFrame) :
  (forall key e,
      _perform_hypothesis_tests df !! key = Some e ->
      exists cat num,
        In cat (df_columns (select_categorical df)) /\
        In num (df_columns (select_number df)) /\
        key = pair_key cat num /\ test_pair cat num = Some e) /\
  (forall cat num,
      In cat (df_columns (select_categorical df)) ->
      In num (df_columns (select_number df)) ->
      key_unique df cat num ->
      _perform_hypothesis_tests df !! pair_key cat num = test_pair cat num) /\
  (df_columns (select_categorical df) = [] \/ df_columns (select_number df) = [] ->
   _perform_hypothesis_tests df = ∅).
Proof.
  rewrite perform_tests_as_fold. split; [ | split ].
  - intros key e Hlook.
    destruct (tests_fold_sound _ _ _ _ Hlook) as [Hempty | ([cat num] & Hin & Hkey & Htest)].
    + rewrite lookup_empty in Hempty. discriminate.
    + apply column_pairs_spec in Hin. exists cat, num. tauto.
  - intros cat num Hcat Hnum Huniq.
    apply tests_fold_written.
    + intros [cat' num'] Hin Hkey. destruct (Huniq cat' num' Hin Hkey) as [-> ->].
      reflexivity.
    + exists (cat, num). split; [ apply column_pairs_spec; tauto | reflexivity ].
    + apply lookup_empty.
  - intros Hnone.
    assert (column_pairs df = []) as ->; [ | reflexivity ].
    unfold column_pairs. destruct Hnone as [-> | ->]; [ reflexivity | ].
    induction (df_columns (select_categorical df)); [ reflexivity | assumption ].
Qed.

Lemma hypothesis_tests_dict_witness :
  _perform_hypothesis_tests (B := demo_backend) five_row_frame !! pair_key five_g five_x
  = test_pair (B := demo_backend) five_g five_x /\
  test_pair (B := demo_backend) five_g five_x
  = Some (TestOutcome "t-test" 0%float 1%float false 2).
Proof.
  split; [ | vm_compute; reflexivity ].
  apply (proj1 (proj2 (hypothesis_tests_dict (B := demo_backend) five_row_frame))).
  - simpl. tauto.
  - simpl. tauto.
  - intros cat' num' Hin Hkey. simpl in Hin.
    destruct Hin as [Hin | [Hin | []]]; injection Hin as <- <-.
    + split; reflexivity.
    + vm_compute in Hkey. discriminate.
Defined.

Lemma auto_cluster_count_never_three_witness :
  exists r w',
    run (B := demo_backend) (clustering_analysis 0%nat None) (world_of five_row_frame)
      = (Ret (Clustering r), w') /\
    kmeans_n_clusters (kmeans r) = 4 /\
    4 <= kmeans_n_clusters (kmeans r) /\
    kmeans_n_clusters (kmeans r) <> 3.
Proof.
  eexists. eexists. split; [ vm_compute; reflexivity | ].
  split; [ reflexivity | ].
  refine (let H := auto_cluster_count_never_three (B := demo_backend)
                     (world_of five_row_frame) _ 0%nat five_row_frame _
                     eq_refl eq_refl in _).
  destruct H as (_ & Hmany & Hnot).
  split; [ apply Hmany; vm_compute; discriminate | exact Hnot ].
Defined.

(** ** The first strong correlation *)

Lemma find_strong_unfolded (m : CorrMatrix) (threshold : float) :
  square m ->
  _find_strong_correlations m threshold =
  Ret (sorted_desc abs_correlation
         (map (fun p => strong_entry m (fst p) (snd p) (cell_at m (fst p) (snd p)))
              (List.filter
                 (fun p => float_ge (PrimFloat.abs (cell_at m (fst p) (snd p))) threshold)
                 (index_pairs (length (cm_columns m)))))).
Proof.
  intros Hsq. unfold _find_strong_correlations.
  rewrite (scan_pairs_spec m threshold _ Hsq).
  - reflexivity.
  - intros i j Hin. apply index_pairs_spec in Hin. lia.
Qed.

(** X6: on a square matrix and for any threshold, when the list of strong
    correlations is not empty its first record passes the threshold and has
    the largest absolute correlation of all column pairs [i < j] whose
    correlation is a number (not NaN), above the threshold or not. *)
Theorem strongest_correlation_first (m : CorrMatrix) (threshold : float)
        (strongest : StrongCorr) (others : list StrongCorr) :
  square m ->
  _find_strong_correlations m threshold = Ret (strongest :: others) ->
  float_ge (abs_correlation strongest) threshold = true /\
  forall i j,
    (i < j < length (cm_columns m))%nat ->
    PrimFloat.is_nan (cell_at m i j) = false ->
    float_ge (abs_correlation strongest) (PrimFloat.abs (cell_at m i j)) = true.
Proof.
  intros Hsq Hres. rewrite (find_strong_unfolded m threshold Hsq) in Hres.
  injection Hres as Hres.
  set (pass := fun p : nat * nat =>
                 float_ge (PrimFloat.abs (cell_at m (fst p) (snd p))) threshold) in *.
  set (entry := fun p : nat * nat =>
                  strong_entry m (fst p) (snd p) (cell_at m (fst p) (snd p))) in *.
  set (entries := map entry (List.filter pass (index_pairs (length (cm_columns m))))) in *.
  assert (forall e, In e entries -> float_ge (abs_correlation e) threshold = true) as Hpass.
  { intros e He. apply in_map_iff in He. destruct He as (p & <- & Hp).
    apply filter_In in Hp. destruct Hp as [_ Hp]. exact Hp. }
  assert (Forall (key_ok abs_correlation) entries) as Hok.
  { apply Forall_forall. intros e He. apply list_elem_of_In in He.
    specialize (Hpass e He). unfold key_ok.
    apply FloatOrderFacts.leb_not_nan in Hpass. tauto. }
  pose proof (sorted_desc_sorted abs_correlation entries Hok) as Hsorted.
  pose proof (sorted_desc_perm abs_correlation entries) as Hperm.
  rewrite Hres in Hsorted, Hperm.
  assert (In strongest entries) as Hin
      by (eapply Permutation_in; [ exact Hperm | left; reflexivity ]).
  pose proof (Hpass _ Hin) as Hfirst.
  split; [ exact Hfirst | ].
  intros i j Hij Hnum.
  assert (PrimFloat.is_nan (PrimFloat.abs (cell_at m i j)) = false) as Habs
      by (apply FloatOrderFacts.abs_not_nan; assumption).
  destruct (float_ge (PrimFloat.abs (cell_at m i j)) threshold) eqn:Hp.
  - assert (In (entry (i, j)) (strongest :: others)) as Hmem.
    { eapply Permutation_in; [ symmetry; exact Hperm | ].
      apply in_map. apply filter_In. split; [ apply index_pairs_spec; lia | exact Hp ]. }
    change (PrimFloat.abs (cell_at m i j)) with (abs_correlation (entry (i, j))).
    destruct Hmem as [Heq | Hothers].
    + rewrite Heq. unfold float_ge. apply FloatOrderMore.leb_refl. exact Habs.
    + apply StronglySorted_inv in Hsorted. destruct Hsorted as [_ Hall].
      rewrite Forall_forall in Hall.
      apply (Hall (entry (i, j))). apply list_elem_of_In. exact Hothers.
  - unfold float_ge in *.
    apply FloatOrderFacts.leb_trans with (y := threshold); [ | exact Hfirst ].
    apply FloatOrderFacts.ltb_leb. apply FloatOrderMore.not_leb_ltb.
    + apply FloatOrderFacts.leb_not_nan in Hfirst. tauto.
    + exact Habs.
    + exact Hp.
Qed.

Lemma strongest_correlation_first_witness :
  float_ge (abs_correlation (mkStrongCorr "a" "c" (-0.9375)%float "very strong")) f0_7
  = true /\
  forall i j,
    (i < j < length (cm_columns corr_example))%nat ->
    PrimFloat.is_nan (cell_at corr_example i j) = false ->
    float_ge (abs_correlation (mkStrongCorr "a" "c" (-0.9375)%float "very strong"))
             (PrimFloat.abs (cell_at corr_example i j)) = true.
Proof.
  apply (strongest_correlation_first corr_example f0_7
           (mkStrongCorr "a" "c" (-0.9375)%float "very strong")
           [mkStrongCorr "a" "b" 0.75%float "strong"]).
  - split; [ reflexivity | repeat constructor ].
  - vm_compute. reflexivity.
Defined.

(** ** The shape of a statistical result *)

Section StatisticalShape.

Context `{B : Backend}.

Lemma distribution_step_keys (tests : gmap string DistributionTest) (col : Series) :
  returns_only
    (fun tests' =>
       forall name,
         is_Some (tests' !! name) <->
         is_Some (tests !! name) \/ (s_name col = name /\ 1 < nunique col))
    (distribution_step tests col).
Proof.
  unfold distribution_step.
  destruct (nunique col >? 1) eqn:E.
  - rewrite Z.gtb_ltb in E. apply Z.ltb_lt in E.
    apply returns_only_bind; intros drawn.
    apply returns_only_bind; intros [stat p_value].
    apply returns_only_ret. intros name.
    destruct (decide (s_name col = name)) as [Heq | Hne].
    + rewrite Heq, lookup_insert_eq. split; [ intros _; right; tauto | eauto ].
    + rewrite lookup_insert_ne by assumption. tauto.
  - rewrite Z.gtb_ltb in E. apply Z.ltb_ge in E.
    apply returns_only_ret. intros name. split; [ tauto | ].
    intros [H | [_ H]]; [ assumption | lia ].
Qed.

Lemma distribution_loop_keys (l : list Series) :
  forall tests,
    returns_only
      (fun tests' =>
         forall name,
           is_Some (tests' !! name) <->
           is_Some (tests !! name) \/
           exists col, In col l /\ s_name col = name /\ 1 < nunique col)
      (for_fold distribution_step l tests).
Proof.
  induction l as [| col tl IH]; intros tests; cbn [for_fold].
  - apply returns_only_ret. intros name. split; [ tauto | ].
    intros [H | (c & [] & _)]. assumption.
  - eapply returns_only_bind_with; [ apply distribution_step_keys | ].
    intros tests1 H1 w tests' w' Hrun.
    pose proof (IH tests1 w tests' w' Hrun) as H2.
    intros name. rewrite (H2 name), (H1 name). split.
    + intros [[H | [Hn Hu]] | (c & Hc & Hn & Hu)].
      * left. assumption.
      * right. exists col. split; [ left; reflexivity | tauto ].
      * right. exists c. split; [ right; assumption | tauto ].
    + intros [H | (c & [<- | Hc] & Hn & Hu)].
      * left. left. assumption.
      * left. right. tauto.
      * right. exists c. tauto.
Qed.

Lemma statistical_result_shape (w w' : World) (df_ref : nat) (df : DataFrame)
      (r : AnalysisResult) :
  frames w !! df_ref = Some df ->
  run (statistical_analysis df_ref) w = (Ret r, w') ->
  statistical_shape df r.
Proof.
  intros Hdf. unfold statistical_analysis.
  rewrite run_bind, (run_read_frame _ _ _ Hdf).
  revert r w'.
  match goal with
  | |- forall r w', run ?m ?w1 = _ -> _ =>
      cut (returns_only (statistical_shape df) m);
      [ intros Hall r w' Hrun; exact (Hall _ _ _ Hrun) | ]
  end.
  apply returns_only_lift_bind; intros stats Hstats.
  eapply returns_only_bind_with; [ apply distribution_loop_keys | ].
  intros tests Htests.
  apply (returns_only_bind_with
           (fun c : option Correlations =>
              (c = None <-> len (df_columns (select_number df)) <= 1) /\
              (forall c', c = Some c' ->
                          correlation_matrix c' = corr (select_number df) /\
                          _find_strong_correlations (corr (select_number df)) f0_7
                          = Ret (strong_correlations c')))).
  - destruct (len (df_columns (select_number df)) >? 1) eqn:E.
    + rewrite Z.gtb_ltb in E. apply Z.ltb_lt in E.
      apply returns_only_lift_bind; intros strong Hstrong.
      apply returns_only_ret. split.
      * split; [ discriminate | lia ].
      * intros c' Hc'. injection Hc' as <-. split; [ reflexivity | exact Hstrong ].
    + rewrite Z.gtb_ltb in E. apply Z.ltb_ge in E.
      apply returns_only_ret. split; [ tauto | discriminate ].
  - intros c [Hnone Hsome].
    apply returns_only_bind; intros _.
    apply returns_only_ret. cbn [statistical_shape descriptive_stats distribution_tests
                                   correlations hypothesis_tests].
    split; [ exact Hstats | ].
    split.
    { intros name. rewrite (Htests name), lookup_empty. split.
      - intros [H | H]; [ destruct H; discriminate | exact H ].
      - intros H. right. exact H. }
    split; [ exact Hnone | ]. split; [ exact Hsome | reflexivity ].
Qed.

End StatisticalShape.

(** X7: whatever [statistical_analysis] returns is a statistical result
    (never an [ErrorResult]); it has a distribution test for exactly the
    numeric columns with more than one distinct value (constant columns are
    skipped), a correlation section exactly when there are at least 2 numeric
    columns, whose strong list is that of [_find_strong_correlations] at
    threshold 0.7 on the correlation matrix of the numeric columns, and the
    hypothesis tests of the Dataset. *)
Theorem statistical_analysis_shape `{B : Backend}
        (w w' : World) (df_ref : nat) (df : DataFrame) (r : AnalysisResult) :
  frames w !! df_ref = Some df ->
  run (statistical_analysis df_ref) w = (Ret r, w') ->
  exists s,
    r = Statistical s /\
    describe (select_number df) = Ret (descriptive_stats s) /\
    (forall name,
        is_Some (distribution_tests s !! name) <->
        exists col, In col (df_columns (select_number df)) /\
                    s_name col = name /\ 1 < nunique col) /\
    (correlations s = None <-> len (df_columns (select_number df)) <= 1) /\
    (forall c, correlations s = Some c ->
               correlation_matrix c = corr (select_number df) /\
               _find_strong_correlations (corr (select_number df)) f0_7
               = Ret (strong_correlations c)) /\
    hypothesis_tests s = _perform_hypothesis_tests df.
Proof.
  intros Hdf Hrun.
  pose proof (statistical_result_shape w w' df_ref df r Hdf Hrun) as Hshape.
  destruct r as [s | c | f | msg]; try contradiction.
  exists s. split; [ reflexivity | exact Hshape ].
Qed.

Lemma statistical_analysis_shape_witness :
  exists r w',
    run (B := demo_backend) (statistical_analysis 0%nat) (world_of demo_frame)
      = (Ret r, w') /\
    exists s,
      r = Statistical s /\
      (correlations s = None <-> len (df_columns (select_number demo_frame)) <= 1) /\
      hypothesis_tests s = _perform_hypothesis_tests demo_frame.
Proof.
  eexists. eexists. split; [ vm_compute; reflexivity | ].
  refine (let H := statistical_analysis_shape (B := demo_backend)
                     (world_of demo_frame) _ 0%nat demo_frame _
                     eq_refl eq_refl in _).
  destruct H as (s & Hr & _ & _ & Hc & _ & Ht).
  exists s. split; [ exact Hr | ]. split; [ exact Hc | exact Ht ].
Defined.

(** ** The shape of a feature-importance result *)

Section ImportanceShape.

Context `{B : Backend}.

Lemma fit_and_score_kind (task : string) (X_train X_test : DataFrame)
      (y_train y_test : Series) (model : estimator) (perf : Performance) :
  fit_and_score task X_train X_test y_train y_test = Ret (model, perf) ->
  (task = "classification" <->
   exists report accuracy, perf = ClassificationPerformance report accuracy) /\
  (task <> "classification" <->
   exists mse rmse r2, perf = RegressionPerformance mse rmse r2).
Proof.
  unfold fit_and_score.
  destruct (String.eqb_spec task "classification") as [Heq | Hne].
  - destruct (RandomForestClassifier_fit X_train y_train) as [m |]; [ | discriminate ].
    cbn. destruct (predict m X_test) as [y_pred |]; [ | discriminate ].
    cbn. destruct (classification_report y_test y_pred) as [rep |]; [ | discriminate ].
    cbn. destruct (score m X_test y_test) as [acc |]; [ | discriminate ].
    cbn. intros Hret. injection Hret as _ <-. split.
    + split; [ intros _; eauto | intros _; assumption ].
    + split; [ contradiction | intros (? & ? & ? & H); discriminate ].
  - destruct (RandomForestRegressor_fit X_train y_train) as [m |]; [ | discriminate ].
    cbn. destruct (predict m X_test) as [y_pred |]; [ | discriminate ].
    cbn. destruct (mean_squared_error y_test y_pred) as [mse |]; [ | discriminate ].
    cbn. destruct (r2_score y_test y_pred) as [r2 |]; [ | discriminate ].
    cbn. intros Hret. injection Hret as _ <-. split.
    + split; [ contradiction | intros (? & ? & H); discriminate ].
    + split; [ intros _; eauto | intros _; assumption ].
Qed.

Lemma records_features (t : list (string * float)) :
  map feature (importance_records t) = map fst t.
Proof. unfold importance_records. rewrite map_map. reflexivity. Qed.

Lemma feature_importance_result_shape (w w' : World) (df_ref : nat) (df : DataFrame)
      (target_column task : string) (y : Series) (r : AnalysisResult) :
  frames w !! df_ref = Some df ->
  get_column target_column df = Ret y ->
  run (feature_importance_analysis df_ref target_column task) w = (Ret r, w') ->
  importance_shape task y r.
Proof.
  intros Hdf Hy. unfold feature_importance_analysis.
  rewrite run_bind, (run_read_frame _ _ _ Hdf).
  rewrite (get_column_has_column _ _ _ Hy). cbn [negb].
  revert r w'.
  match goal with
  | |- forall r w', run ?m ?w1 = _ -> _ =>
      cut (returns_only (importance_shape task y) m);
      [ intros Hall r w' Hrun; exact (Hall _ _ _ Hrun) | ]
  end.
  apply returns_only_bind; intros X_ref.
  apply returns_only_lift_bind; intros y' Hy'.
  rewrite Hy in Hy'. injection Hy' as <-.
  apply returns_only_bind; intros X.
  apply returns_only_bind; intros X_encoded_ref.
  apply returns_only_bind; intros X_encoded.
  apply returns_only_bind; intros [[[X_train X_test] y_train] y_test].
  apply returns_only_bind; intros X_train_ref.
  apply returns_only_bind; intros X_test_ref.
  apply returns_only_bind; intros X_train'.
  apply returns_only_bind; intros X_test'.
  apply returns_only_lift_bind; intros [model perf] Hfit.
  apply returns_only_bind; intros table.
  apply returns_only_bind; intros shap.
  apply returns_only_bind; intros _.
  apply returns_only_bind; intros _.
  apply returns_only_ret.
  destruct (fit_and_score_kind _ _ _ _ _ _ _ Hfit) as [Hcls Hreg].
  cbn [importance_shape task_type performance top_features feature_importance].
  split; [ reflexivity | ]. split; [ exact Hcls | ]. split; [ exact Hreg | ].
  rewrite records_features. reflexivity.
Qed.

End ImportanceShape.

(** X8: a result returned by [feature_importance_analysis] for a target
    that is a column of the Dataset is a feature-importance result whose
    [task_type] is the inferred one under ['auto'] and the string given
    otherwise; its performance holds the classification report and accuracy
    exactly when that task type is ['classification'], and the regression
    errors for every other string; and [top_features] are the first ten
    features of [feature_importance], in order. *)
Theorem feature_importance_shape `{B : Backend}
        (w w' : World) (df_ref : nat) (df : DataFrame)
        (target_column task : string) (y : Series) (r : AnalysisResult) :
  frames w !! df_ref = Some df ->
  get_column target_column df = Ret y ->
  run (feature_importance_analysis df_ref target_column task) w = (Ret r, w') ->
  exists f,
    r = FeatureImportance f /\
    task_type f = infer_task_type task y /\
    (task_type f = "classification" <->
     exists report accuracy,
       performance f = ClassificationPerformance report accuracy) /\
    (task_type f <> "classification" <->
     exists mse rmse r2, performance f = RegressionPerformance mse rmse r2) /\
    top_features f = take 10 (map feature (feature_importance f)).
Proof.
  intros Hdf Hy Hrun.
  pose proof (feature_importance_result_shape w w' df_ref df _ _ y r Hdf Hy Hrun)
    as Hshape.
  destruct r as [s | c | f | msg]; try contradiction.
  exists f. split; [ reflexivity | exact Hshape ].
Qed.

Lemma feature_importance_shape_witness :
  exists r w',
    run (B := demo_backend) (feature_importance_analysis 0%nat "y" "Regression")
        (world_of demo_frame) = (Ret r, w') /\
    exists f,
      r = FeatureImportance f /\
      task_type f = "Regression" /\
      (task_type f <> "classification" <->
       exists mse rmse r2, performance f = RegressionPerformance mse rmse r2) /\
      top_features f = take 10 (map feature (feature_importance f)).
Proof.
  eexists. eexists. split; [ vm_compute; reflexivity | ].
  refine (let H := feature_importance_shape (B := demo_backend)
                     (world_of demo_frame) _ 0%nat demo_frame "y" "Regression"
                     (mkSeries "y" Int64 [VInt 1; VInt 2; VInt 3]) _
                     eq_refl eq_refl eq_refl in _).
  destruct H as (f & Hr & Htask & _ & Hreg & Htop).
  exists f. split; [ exact Hr | ]. split; [ exact Htask | ].
  split; [ exact Hreg | exact Htop ].
Defined.

(** ** Cluster sizes add up *)

Lemma sizes_total_perm (l1 l2 : list (Z * Z)) :
  Permutation l1 l2 ->
  foldr (fun kv acc => snd kv + acc) 0 l1 = foldr (fun kv acc => snd kv + acc) 0 l2.
Proof.
  induction 1 as [| x l l' _ IH | x y l | l l' l'' _ IH1 _ IH2]; simpl; lia.
Qed.

Lemma sizes_total_insert (sizes : gmap Z Z) (l n : Z) :
  sizes !! l = None -> sizes_total (<[l := n]> sizes) = n + sizes_total sizes.
Proof.
  intros Hnone. unfold sizes_total.
  rewrite (sizes_total_perm _ _ (map_to_list_insert sizes l n Hnone)). reflexivity.
Qed.

Lemma sizes_total_update (sizes : gmap Z Z) (l n : Z) :
  sizes_total (<[l := n]> sizes) = n - default 0 (sizes !! l) + sizes_total sizes.
Proof.
  destruct (sizes !! l) as [c |] eqn:Hl; cbn.
  - rewrite <- (insert_delete_eq sizes l n).
    rewrite sizes_total_insert by apply lookup_delete_eq.
    rewrite <- (insert_id sizes l c Hl) at 2.
    rewrite <- (insert_delete_eq sizes l c).
    rewrite sizes_total_insert by apply lookup_delete_eq. lia.
  - rewrite sizes_total_insert by assumption. lia.
Qed.

Lemma value_counts_total (labels : list Z) :
  sizes_total (value_counts labels) = len labels.
Proof.
  unfold len. induction labels as [| x tl IH].
  - reflexivity.
  - change (value_counts (x :: tl))
      with (<[x := default 0 (value_counts tl !! x) + 1]> (value_counts tl)).
    rewrite sizes_total_update, IH. cbn [length]. lia.
Qed.

Lemma value_counts_positive (labels : list Z) (l n : Z) :
  value_counts labels !! l = Some n -> 1 <= n.
Proof.
  rewrite value_counts_lookup. case_bool_decide as Hin; [ | discriminate ].
  intros Hn. injection Hn as <-.
  apply list_elem_of_In in Hin.
  apply (count_occ_In Z.eq_dec) in Hin. lia.
Qed.

Lemma noise_and_clusters (labels : list Z) :
  count (-1) labels + len (List.filter (fun l => negb (l =? -1)) labels) = len labels.
Proof.
  unfold count, len. induction labels as [| x tl IH]; [ reflexivity | ].
  cbn [List.filter]. rewrite (Z.eqb_sym (-1) x).
  destruct (x =? -1); cbn [negb length] in *; lia.
Qed.

Section Sizes.

Context `{B : Backend}.

Lemma clustering_sizes (w w' : World) (df_ref : nat) (n : option Z)
      (r : AnalysisResult) :
  run (clustering_analysis df_ref n) w = (Ret r, w') -> sizes_add_up r.
Proof.
  revert r w'.
  cut (returns_only sizes_add_up (clustering_analysis df_ref n));
    [ intros Hall r w' Hrun; exact (Hall _ _ _ Hrun) | ].
  unfold clustering_analysis.
  apply returns_only_bind; intros df.
  destruct (len (df_columns (select_number df)) <? 2).
  - apply returns_only_ret. exact I.
  - apply returns_only_bind; intros X_ref.
    apply returns_only_bind; intros X.
    apply returns_only_bind; intros k.
    apply returns_only_bind; intros km.
    apply returns_only_bind; intros labels.
    apply returns_only_bind; intros _.
    apply returns_only_ret.
    cbn [sizes_add_up kmeans dbscan kmeans_cluster_sizes kmeans_labels].
    unfold dbscan_result.
    cbn [dbscan_n_noise_points dbscan_cluster_sizes dbscan_labels].
    split; [ apply value_counts_total | ].
    split; [ rewrite value_counts_total; apply noise_and_clusters | ].
    split; intros l c; apply value_counts_positive.
Qed.

End Sizes.

(** X9: in every clustering result the K-means cluster sizes add up to the
    number of K-means labels, the density-based cluster sizes plus
    [n_noise_points] add up to the number of density-based labels, and no
    cluster in either histogram has size 0. *)
Theorem cluster_sizes_add_up `{B : Backend}
        (w w' : World) (df_ref : nat) (n : option Z) (r : ClusteringResult) :
  run (clustering_analysis df_ref n) w = (Ret (Clustering r), w') ->
  sizes_total (kmeans_cluster_sizes (kmeans r)) = len (kmeans_labels (kmeans r)) /\
  dbscan_n_noise_points (dbscan r) + sizes_total (dbscan_cluster_sizes (dbscan r))
  = len (dbscan_labels (dbscan r)) /\
  (forall l c, kmeans_cluster_sizes (kmeans r) !! l = Some c -> 1 <= c) /\
  (forall l c, dbscan_cluster_sizes (dbscan r) !! l = Some c -> 1 <= c).
Proof.
  intros Hrun. exact (clustering_sizes w w' df_ref n _ Hrun).
Qed.

Lemma cluster_sizes_add_up_witness :
  exists r w',
    run (B := demo_backend) (clustering_analysis 0%nat None) (world_of five_row_frame)
      = (Ret (Clustering r), w') /\
    len (dbscan_labels (dbscan r)) = 5 /\
    sizes_total (kmeans_cluster_sizes (kmeans r)) = len (kmeans_labels (kmeans r)) /\
    dbscan_n_noise_points (dbscan r) + sizes_total (dbscan_cluster_sizes (dbscan r))
    = len (dbscan_labels (dbscan r)).
Proof.
  eexists. eexists. split; [ vm_compute; reflexivity | ].
  split; [ reflexivity | ].
  refine (let H := cluster_sizes_add_up (B := demo_backend)
                     (world_of five_row_frame) _ 0%nat None _ eq_refl in _).
  destruct H as (Hk & Hd & _). split; [ exact Hk | exact Hd ].
Defined.

(** ** Clustering with a cluster count from the caller *)

(** X10: with at least 2 numeric columns and a cluster count [k] supplied by
    the caller there is no sweep and no elbow selection: [k] goes to K-means
    as it is, on any number of rows.  The run returns a clustering result
    with [n_clusters = k] exactly when the K-means fit and the density-based
    fit both succeed, and otherwise raises what the first failing fit
    raised. *)
Theorem clustering_with_given_count `{B : Backend}
        (w : World) (df_ref : nat) (df : DataFrame) (k : Z) :
  frames w !! df_ref = Some df ->
  2 <= len (df_columns (select_number df)) ->
  let X := fillna column_mean (select_number df) in
  let w1 := stored X w in
  run (clustering_analysis df_ref (Some k)) w =
  match KMeans_fit k X with
  | Raise e => (Raise e, w1)
  | Ret km =>
      match DBSCAN_fit_predict X with
      | Raise e => (Raise e, w1)
      | Ret labels =>
          let result :=
            Clustering
              (mkClusteringResult
                 (mkKMeansResult k (km_labels km) (km_centers km) (km_inertia km)
                                 (value_counts (km_labels km)))
                 (dbscan_result labels)) in
          (Ret result,
           mkWorld (frames w1) (<["clustering" := result]> (analysis_results w1))
                   (models w1))
      end
  end.
Proof.
  intros Hdf Hcols X w1. unfold clustering_analysis.
  rewrite run_bind, (run_read_frame _ _ _ Hdf).
  destruct (len (df_columns (select_number df)) <? 2) eqn:E;
    [ apply Z.ltb_lt in E; lia | ].
  rewrite run_bind, run_new_frame. fold X. fold w1.
  assert (frames w1 !! fresh (dom (frames w)) = Some X) as HX
      by apply stored_lookup_new.
  rewrite run_bind, (run_read_frame _ _ _ HX).
  rewrite run_bind, run_ret.
  rewrite run_bind, run_lift.
  destruct (KMeans_fit k X) as [km | e]; [ | reflexivity ].
  rewrite run_bind, run_lift.
  destruct (DBSCAN_fit_predict X) as [labels | e]; [ | reflexivity ].
  reflexivity.
Qed.

Lemma clustering_with_given_count_witness :
  exists r w',
    run (B := demo_backend) (clustering_analysis 0%nat (Some 2)) (world_of tiny_frame)
    = (Ret (Clustering r), w') /\
    kmeans_n_clusters (kmeans r) = 2.
Proof.
  rewrite (clustering_with_given_count (B := demo_backend)
             (world_of tiny_frame) 0%nat tiny_frame 2).
  - eexists. eexists. split; reflexivity.
  - reflexivity.
  - vm_compute. discriminate.
Defined.

(** ** Time series analysis: one step at a time *)

Section TimeSteps.

Context `{B : Backend} `{T : TimeBackend}.

Lemma run_session_bind {A C} (m : MS A) (k : A -> MS C) (s : Session) :
  run_session (m ≫= k) s =
  match run_session m s with
  | (Ret a, s') => run_session (k a) s'
  | (Raise e, s') => (Raise e, s')
  end.
Proof. reflexivity. Qed.

Lemma run_session_ret {A} (a : A) (s : Session) :
  run_session (mret a) s = (Ret a, s).
Proof. reflexivity. Qed.

Lemma run_in_world {A} (m : M A) (s : Session) :
  run_session (in_world m) s =
  (fst (run m (engine_world s)),
   mkSession (snd (run m (engine_world s))) (time_series_slot s)).
Proof. unfold in_world; simpl. destruct (run m (engine_world s)). reflexivity. Qed.

Lemma run_in_world_lift {A} (r : res A) (s : Session) :
  run_session (in_world (lift r)) s = (r, s).
Proof. rewrite run_in_world. destruct s. reflexivity. Qed.

Lemma run_in_world_read (l : nat) (df : DataFrame) (s : Session) :
  frames (engine_world s) !! l = Some df ->
  run_session (in_world (read_frame l)) s = (Ret df, s).
Proof.
  intros H. rewrite run_in_world, (run_read_frame _ _ _ H). destruct s. reflexivity.
Qed.

Lemma get_column_present (name : string) (df : DataFrame) :
  has_column name df = true -> exists s, get_column name df = Ret s.
Proof.
  unfold has_column, get_column, column_names. intros H.
  apply existsb_exists in H. destruct H as (n & Hin & Heq).
  apply in_map_iff in Hin. destruct Hin as (s & <- & Hs).
  destruct (find _ _) as [s' |] eqn:Hfind; [ eauto | ].
  exfalso. eapply find_none in Hfind; [ | exact Hs ]. congruence.
Qed.

Lemma time_series_missing_run (s : Session) (df_ref : nat) (df : DataFrame)
      (date_column value_column : string) :
  frames (engine_world s) !! df_ref = Some df ->
  date_column ∉ column_names df \/ value_column ∉ column_names df ->
  run_session (time_series_analysis df_ref date_column value_column) s =
  (Ret (TimeSeriesError "Date or value column not found"), s).
Proof.
  intros Hdf Hmiss. unfold time_series_analysis.
  rewrite run_session_bind, (run_in_world_read _ _ _ Hdf).
  assert (negb (has_column date_column df) || negb (has_column value_column df) = true)
    as ->; [ | reflexivity ].
  apply orb_true_iff.
  destruct Hmiss as [H | H]; [ left | right ]; apply negb_true_iff;
    destruct (has_column _ df) eqn:E; try reflexivity;
    apply has_column_spec in E; contradiction.
Qed.

(** Whatever a time series run returns satisfies [P]. *)
Lemma returns_ms_bind {A C} (P : C -> Prop) (m : MS A) (k : A -> MS C) :
  (forall a, forall s c s', run_session (k a) s = (Ret c, s') -> P c) ->
  forall s c s', run_session (m ≫= k) s = (Ret c, s') -> P c.
Proof.
  intros Hk s c s' Hrun. rewrite run_session_bind in Hrun.
  destruct (run_session m s) as [[a | e] s1]; [ | discriminate ].
  exact (Hk a s1 c s' Hrun).
Qed.

Lemma time_series_other_error (s s' : Session) (df_ref : nat) (df : DataFrame)
      (date_column value_column : string) (out : TimeSeriesOutcome) :
  frames (engine_world s) !! df_ref = Some df ->
  date_column ∈ column_names df -> value_column ∈ column_names df ->
  run_session (time_series_analysis df_ref date_column value_column) s = (Ret out, s') ->
  out <> TimeSeriesError "Date or value column not found".
Proof.
  intros Hdf Hd Hv. unfold time_series_analysis.
  rewrite run_session_bind, (run_in_world_read _ _ _ Hdf).
  apply has_column_spec in Hd, Hv. rewrite Hd, Hv. cbn [negb orb].
  clear Hdf. revert s out s'.
  set (P := fun out : TimeSeriesOutcome =>
              out <> TimeSeriesError "Date or value column not found").
  match goal with
  | |- forall s out s', run_session ?m s = _ -> _ =>
      change (forall s out s', run_session m s = (Ret out, s') -> P out)
  end.
  repeat (apply (returns_ms_bind P); intros ?).
  destruct (len _ <? 10).
  - intros s out s' Hrun. injection Hrun as <- _. discriminate.
  - repeat (apply (returns_ms_bind P); intros ?).
    match goal with
    | |- forall s c s', run_session (let '(_, _) := ?x in _) _ = _ -> _ => destruct x
    end.
    repeat (apply (returns_ms_bind P); intros ?).
    intros s out s' Hrun. injection Hrun as <- _. discriminate.
Qed.

End TimeSteps.

(** X11: [time_series_analysis] returns the error 'Date or value column
    not found' exactly when the date column or the value column is not a
    column of the Dataset; in that case nothing is raised and the store, the
    results and the models are as before. *)
Theorem time_series_missing_column `{B : Backend} `{T : TimeBackend}
        (s : Session) (df_ref : nat) (df : DataFrame)
        (date_column value_column : string) :
  frames (engine_world s) !! df_ref = Some df ->
  (fst (run_session (time_series_analysis df_ref date_column value_column) s)
   = Ret (TimeSeriesError "Date or value column not found") <->
   date_column ∉ column_names df \/ value_column ∉ column_names df) /\
  (date_column ∉ column_names df \/ value_column ∉ column_names df ->
   run_session (time_series_analysis df_ref date_column value_column) s =
   (Ret (TimeSeriesError "Date or value column not found"), s)).
Proof.
  intros Hdf. split; [ split | ].
  - intros Hret.
    destruct (decide (date_column ∈ column_names df)) as [Hd | Hd]; [ | tauto ].
    destruct (decide (value_column ∈ column_names df)) as [Hv | Hv]; [ | tauto ].
    exfalso.
    destruct (run_session (time_series_analysis df_ref date_column value_column) s)
      as [out s'] eqn:Hrun.
    simpl in Hret. subst out.
    exact (time_series_other_error s s' df_ref df _ _ _ Hdf Hd Hv Hrun eq_refl).
  - intros Hmiss. rewrite (time_series_missing_run s df_ref df _ _ Hdf Hmiss).
    reflexivity.
  - apply time_series_missing_run. assumption.
Qed.

Lemma time_series_missing_column_witness :
  run_session (B := demo_backend)
    (time_series_analysis (T := demo_time_backend) 0%nat "day" "price")
    (session_of short_series_frame) =
  (Ret (TimeSeriesError "Date or value column not found"), session_of short_series_frame).
Proof.
  apply (time_series_missing_column (B := demo_backend) (T := demo_time_backend)
           (session_of short_series_frame) 0%nat short_series_frame "day" "price").
  - reflexivity.
  - right. vm_compute. intros H.
    repeat (apply elem_of_cons in H; destruct H as [H | H]; [ discriminate | ]).
    apply not_elem_of_nil in H. exact H.
Defined.

(** ** What the time series analysis returns *)

Section TimeShape.

Context `{B : Backend} `{T : TimeBackend}.

Lemma returns_ms_ret {A} (P : A -> Prop) (a : A) : P a -> returns_ms P (mret a).
Proof. intros Ha s a' s' Hrun. injection Hrun as <- _. exact Ha. Qed.

Lemma returns_ms_step {A C} (P : C -> Prop) (m : MS A) (k : A -> MS C) :
  (forall a, returns_ms P (k a)) -> returns_ms P (m ≫= k).
Proof. intros Hk. unfold returns_ms. apply returns_ms_bind. exact Hk. Qed.

Lemma returns_ms_step_with {A C} (Q : A -> Prop) (P : C -> Prop)
      (m : MS A) (k : A -> MS C) :
  returns_ms Q m -> (forall a, Q a -> returns_ms P (k a)) -> returns_ms P (m ≫= k).
Proof.
  intros Hm Hk s c s' Hrun. rewrite run_session_bind in Hrun.
  destruct (run_session m s) as [[a | e] s1] eqn:Hms; [ | discriminate ].
  exact (Hk a (Hm s a s1 Hms) s1 c s' Hrun).
Qed.

Lemma returns_ms_lift {A} (P : A -> Prop) (r : res A) :
  (forall a, r = Ret a -> P a) -> returns_ms P (in_world (lift r)).
Proof.
  intros Hr s a s' Hrun. rewrite run_in_world_lift in Hrun.
  injection Hrun as -> _. apply Hr. reflexivity.
Qed.

Lemma returns_ms_lift_step {A C} (P : C -> Prop) (r : res A) (k : A -> MS C) :
  (forall a, r = Ret a -> returns_ms P (k a)) ->
  returns_ms P (in_world (lift r) ≫= k).
Proof.
  intros Hk. apply (returns_ms_step_with (fun a => r = Ret a)).
  - apply returns_ms_lift. auto.
  - exact Hk.
Qed.

Lemma map_snd_combine {A C} (l1 : list A) (l2 : list C) :
  length l1 = length l2 -> map snd (combine l1 l2) = l2.
Proof.
  revert l2. induction l1 as [| x tl IH]; intros [| y l2] Hlen; simpl in *;
    try reflexivity; try discriminate.
  f_equal. apply IH. lia.
Qed.

Lemma filter_on_snd {A C} (f : C -> bool) (l : list (A * C)) :
  map snd (List.filter (fun row => f (snd row)) l) = List.filter f (map snd l).
Proof.
  induction l as [| [a c] tl IH]; simpl; [ reflexivity | ].
  destruct (f c); simpl; congruence.
Qed.

Lemma filter_perm {A} (f : A -> bool) (l1 l2 : list A) :
  Permutation l1 l2 -> Permutation (List.filter f l1) (List.filter f l2).
Proof.
  induction 1 as [| x l l' _ IH | x y l | l l' l'' _ IH1 _ IH2]; simpl.
  - reflexivity.
  - destruct (f x); [ constructor | ]; assumption.
  - destruct (f x), (f y); try reflexivity. apply perm_swap.
  - etransitivity; eassumption.
Qed.

(** The rows left after sorting and dropping: the values are those of the
    column without its missing entries, in some order. *)
Lemma clean_values_perm (dates : list (option Z)) (values : list cell) :
  length dates = length values ->
  Permutation
    (map snd (List.filter (fun row => negb (isna (snd row)))
                          (sort_rows (combine dates values))))
    (dropna values).
Proof.
  intros Hlen. rewrite (filter_on_snd (fun c => negb (isna c))). unfold dropna.
  apply filter_perm.
  rewrite <- (map_snd_combine dates values Hlen) at 2.
  apply Permutation_map, sort_rows_perm.
Qed.

Lemma clean_count (dates : list (option Z)) (values : list cell) :
  length dates = length values ->
  len (List.filter (fun row => negb (isna (snd row)))
                   (sort_rows (combine dates values)))
  = len (dropna values).
Proof.
  intros Hlen. unfold len.
  rewrite <- (Permutation_length (clean_values_perm dates values Hlen)).
  rewrite length_map. reflexivity.
Qed.

Lemma stationarity_error_iff (values : list cell) (st : Stationarity) :
  stationarity_section values = Ret st ->
  (st = StationarityError "statsmodels not available" <-> adfuller = None).
Proof.
  unfold stationarity_section. destruct adfuller as [test |].
  - destruct (test (dropna values)) as [[[stat p] crit] | e]; [ | discriminate ].
    cbn. intros Hret. injection Hret as <-. split; discriminate.
  - intros Hret. injection Hret as <-. split; reflexivity.
Qed.

Lemma time_series_result_shape (s s' : Session) (df_ref : nat) (df : DataFrame)
      (date_column value_column : string) (d v : Series) (out : TimeSeriesOutcome) :
  frames (engine_world s) !! df_ref = Some df ->
  get_column date_column df = Ret d ->
  get_column value_column df = Ret v ->
  length (s_values d) = length (s_values v) ->
  run_session (time_series_analysis df_ref date_column value_column) s = (Ret out, s') ->
  series_shape (len (dropna (s_values v))) out.
Proof.
  intros Hdf Hd Hv Hlen. unfold time_series_analysis.
  rewrite run_session_bind, (run_in_world_read _ _ _ Hdf).
  rewrite (get_column_has_column _ _ _ Hd), (get_column_has_column _ _ _ Hv).
  cbn [negb orb].
  clear Hdf. revert s out s'.
  set (n := len (dropna (s_values v))).
  match goal with
  | |- forall s out s', run_session ?m s = _ -> _ =>
      change (returns_ms (series_shape n) m)
  end.
  apply returns_ms_lift_step; intros d' Hd'. rewrite Hd in Hd'. injection Hd' as <-.
  apply returns_ms_lift_step; intros v' Hv'. rewrite Hv in Hv'. injection Hv' as <-.
  apply returns_ms_step; intros ts_ref.
  apply returns_ms_step; intros dates.
  apply returns_ms_lift_step; intros [] Hsame.
  assert (length dates = length (s_values v)) as Hdates.
  { destruct (len dates =? len (s_values d)) eqn:E; [ | discriminate ].
    apply Z.eqb_eq in E. unfold len in E. lia. }
  apply returns_ms_step; intros _.
  apply returns_ms_step; intros sorted_ref.
  apply returns_ms_step; intros clean_ref.
  pose proof (clean_count dates (s_values v) Hdates) as Hcount. fold n in Hcount.
  rewrite Hcount.
  destruct (n <? 10) eqn:E10.
  - apply Z.ltb_lt in E10. apply returns_ms_ret. split; [ reflexivity | assumption ].
  - apply Z.ltb_ge in E10.
    apply returns_ms_step; intros values.
    apply returns_ms_step; intros mean.
    apply returns_ms_step; intros std.
    apply returns_ms_step; intros rising.
    apply (returns_ms_step_with
             (fun sc : option Seasonality * list Series =>
                is_Some (fst sc) <-> 24 <= n)).
    + destruct (n >=? 24) eqn:E24.
      * rewrite Z.geb_leb in E24. apply Z.leb_le in E24.
        apply returns_ms_step; intros [section columns].
        apply returns_ms_ret. cbn. split; [ intros _; assumption | eauto ].
      * rewrite Z.geb_leb in E24. apply Z.leb_gt in E24.
        apply returns_ms_ret. cbn. split; [ intros [? H]; discriminate | lia ].
    + intros [season columns] Hseason. cbn [fst] in Hseason.
      apply returns_ms_step; intros values'.
      apply returns_ms_lift_step; intros st Hst.
      apply returns_ms_step; intros _.
      apply returns_ms_ret.
      cbn [series_shape basic_stats data_points seasonality trend stationarity].
      split; [ assumption | ]. split; [ reflexivity | ].
      split; [ exact Hseason | ].
      split; [ destruct rising; tauto | ].
      exact (stationarity_error_iff _ _ Hst).
Qed.

End TimeShape.

(** X12: on a Dataset whose date and value columns have the same length,
    what [time_series_analysis] returns is decided by the number [n] of
    non-missing entries of the value column: with [n < 10] it is the error
    'Not enough data points for time series analysis'; otherwise it is a
    result with [data_points = n], a seasonality section exactly when
    [n >= 24], a trend that is 'increasing' or 'decreasing', and the
    stationarity error entry exactly when statsmodels cannot be imported. *)
Theorem time_series_shape `{B : Backend} `{T : TimeBackend}
        (s s' : Session) (df_ref : nat) (df : DataFrame)
        (date_column value_column : string) (d v : Series) (out : TimeSeriesOutcome) :
  frames (engine_world s) !! df_ref = Some df ->
  get_column date_column df = Ret d ->
  get_column value_column df = Ret v ->
  length (s_values d) = length (s_values v) ->
  run_session (time_series_analysis df_ref date_column value_column) s = (Ret out, s') ->
  let n := len (dropna (s_values v)) in
  (n < 10 ->
   out = TimeSeriesError "Not enough data points for time series analysis") /\
  (10 <= n ->
   exists r,
     out = TimeSeries r /\
     data_points (basic_stats r) = n /\
     (is_Some (seasonality r) <-> 24 <= n) /\
     (trend (basic_stats r) = "increasing" \/ trend (basic_stats r) = "decreasing") /\
     (stationarity r = StationarityError "statsmodels not available" <->
      adfuller = None)).
Proof.
  intros Hdf Hd Hv Hlen Hrun n.
  pose proof (time_series_result_shape s s' df_ref df _ _ d v out Hdf Hd Hv Hlen Hrun)
    as Hshape.
  fold n in Hshape. destruct out as [r | msg]; cbn [series_shape] in Hshape.
  - destruct Hshape as (Hn & Hrest). split; [ lia | ].
    intros _. exists r. split; [ reflexivity | exact Hrest ].
  - destruct Hshape as [-> Hn]. split; [ reflexivity | lia ].
Qed.

Lemma time_series_shape_witness :
  exists out s',
    run_session (B := demo_backend)
      (time_series_analysis (T := demo_time_backend) 0%nat "day" "sales")
      (session_of flat_series_frame) = (Ret out, s') /\
    exists r,
      out = TimeSeries r /\
      data_points (basic_stats r) = 11 /\
      (is_Some (seasonality r) <-> 24 <= 11).
Proof.
  eexists. eexists.
  match goal with |- ?E /\ _ => assert (Hrun : E) by (vm_compute; reflexivity) end.
  split; [ exact Hrun | ].
  refine (let H := time_series_shape (B := demo_backend) (T := demo_time_backend)
                     (session_of flat_series_frame) _ 0%nat flat_series_frame
                     "day" "sales" _ _ _ eq_refl eq_refl eq_refl eq_refl Hrun in _).
  destruct H as [_ H]. destruct H as (r & Hr & Hn & Hs & _).
  - vm_compute. discriminate.
  - exists r. split; [ exact Hr | ]. split; [ exact Hn | exact Hs ].
Defined.

(** ** The trend of a constant series *)

Lemma string_ltb_irrefl (s : string) : String.ltb s s = false.
Proof.
  unfold String.ltb. pose proof (String.compare_antisym s s) as H.
  destruct (String.compare s s); try reflexivity. discriminate.
Qed.

Lemma float_ltb_irrefl (x : float) : PrimFloat.ltb x x = false.
Proof.
  destruct (PrimFloat.ltb x x) eqn:E; [ | reflexivity ].
  rewrite FloatAxioms.ltb_spec, FloatOrderFacts.SFltb_lex in E.
  destruct E as (_ & _ & Hlt). unfold FloatOrder.lex_lt in Hlt. lia.
Qed.

Lemma cell_gt_irrefl (x : cell) (b : bool) : cell_gt x x = Ret b -> b = false.
Proof.
  destruct x as [z | f | c | s |]; simpl; intros H; try discriminate;
    injection H as <-.
  - apply Z.ltb_irrefl.
  - apply float_ltb_irrefl.
  - destruct c; reflexivity.
  - apply string_ltb_irrefl.
Qed.

Lemma hd_in {A} (l : list A) (d : A) : l <> [] -> In (hd d l) l.
Proof. destruct l; [ congruence | intros _; left; reflexivity ]. Qed.

Lemma last_in {A} (l : list A) (d : A) : l <> [] -> In (List.last l d) l.
Proof.
  induction l as [| x [| y tl] IH]; intros Hne; [ congruence | left; reflexivity | ].
  right. apply IH. discriminate.
Qed.

Section FlatSeries.

Context `{B : Backend} `{T : TimeBackend}.

Lemma column_of_single (name : string) (dt : dtype) (values : list cell) :
  column_of name [mkSeries name dt values] = Ret (mkSeries name dt values).
Proof. unfold column_of; simpl. rewrite String.eqb_refl. reflexivity. Qed.

Lemma flat_series_trend (s s' : Session) (df_ref : nat) (df : DataFrame)
      (date_column value_column : string) (d v : Series) (x : cell)
      (out : TimeSeriesOutcome) :
  frames (engine_world s) !! df_ref = Some df ->
  get_column date_column df = Ret d ->
  get_column value_column df = Ret v ->
  length (s_values d) = length (s_values v) ->
  (forall c, In c (dropna (s_values v)) -> c = x) ->
  run_session (time_series_analysis df_ref date_column value_column) s = (Ret out, s') ->
  reports_decreasing out.
Proof.
  intros Hdf Hd Hv Hlen Hflat. unfold time_series_analysis.
  rewrite run_session_bind, (run_in_world_read _ _ _ Hdf).
  rewrite (get_column_has_column _ _ _ Hd), (get_column_has_column _ _ _ Hv).
  cbn [negb orb].
  clear Hdf. revert s out s'.
  match goal with
  | |- forall s out s', run_session ?m s = _ -> _ =>
      change (returns_ms reports_decreasing m)
  end.
  apply returns_ms_lift_step; intros d' Hd'. rewrite Hd in Hd'. injection Hd' as <-.
  apply returns_ms_lift_step; intros v' Hv'. rewrite Hv in Hv'. injection Hv' as <-.
  apply returns_ms_step; intros ts_ref.
  apply returns_ms_step; intros dates.
  apply returns_ms_lift_step; intros [] Hsame.
  assert (length dates = length (s_values v)) as Hdates.
  { destruct (len dates =? len (s_values d)) eqn:E; [ | discriminate ].
    apply Z.eqb_eq in E. unfold len in E. lia. }
  apply returns_ms_step; intros _.
  apply returns_ms_step; intros sorted_ref.
  apply returns_ms_step; intros clean_ref.
  pose proof (clean_values_perm dates (s_values v) Hdates) as Hperm.
  set (clean := List.filter (fun row => negb (isna (snd row)))
                            (sort_rows (combine dates (s_values v)))) in *.
  destruct (len clean <? 10) eqn:E10; [ apply returns_ms_ret; exact I | ].
  apply Z.ltb_ge in E10.
  rewrite column_of_single.
  apply returns_ms_lift_step; intros values Hvalues. injection Hvalues as <-.
  cbn [s_values].
  assert (map snd clean <> []) as Hne.
  { intros Hnil. apply (f_equal (@length cell)) in Hnil.
    rewrite length_map in Hnil. unfold len in E10. simpl in Hnil. lia. }
  assert (forall c, In c (map snd clean) -> c = x) as Hall.
  { intros c Hc. apply Hflat. eapply Permutation_in; eassumption. }
  apply returns_ms_step; intros mean.
  apply returns_ms_step; intros std.
  apply returns_ms_lift_step; intros rising Hrising.
  rewrite (Hall _ (hd_in _ VNA Hne)), (Hall _ (last_in _ VNA Hne)) in Hrising.
  apply cell_gt_irrefl in Hrising. subst rising.
  apply returns_ms_step; intros [season columns].
  apply returns_ms_step; intros values'.
  apply returns_ms_step; intros st.
  apply returns_ms_step; intros _.
  apply returns_ms_ret. reflexivity.
Qed.

End FlatSeries.

(** X13: a series that does not move is reported as falling.  When all the
    non-missing entries of the value column are the same value, every result
    [time_series_analysis] returns has trend 'decreasing' (the test is
    [last > first]). *)
Theorem flat_series_is_decreasing `{B : Backend} `{T : TimeBackend}
        (s s' : Session) (df_ref : nat) (df : DataFrame)
        (date_column value_column : string) (d v : Series) (x : cell)
        (r : TimeSeriesResult) :
  frames (engine_world s) !! df_ref = Some df ->
  get_column date_column df = Ret d ->
  get_column value_column df = Ret v ->
  length (s_values d) = length (s_values v) ->
  (forall c, In c (dropna (s_values v)) -> c = x) ->
  run_session (time_series_analysis df_ref date_column value_column) s
  = (Ret (TimeSeries r), s') ->
  trend (basic_stats r) = "decreasing".
Proof.
  intros Hdf Hd Hv Hlen Hflat Hrun.
  exact (flat_series_trend s s' df_ref df _ _ d v x _ Hdf Hd Hv Hlen Hflat Hrun).
Qed.

Lemma flat_series_is_decreasing_witness :
  exists r s',
    run_session (B := demo_backend)
      (time_series_analysis (T := demo_time_backend) 0%nat "day" "sales")
      (session_of flat_series_frame) = (Ret (TimeSeries r), s') /\
    trend (basic_stats r) = "decreasing".
Proof.
  eexists. eexists.
  match goal with |- ?E /\ _ => assert (Hrun : E) by (vm_compute; reflexivity) end.
  split; [ exact Hrun | ].
  refine (flat_series_is_decreasing (B := demo_backend) (T := demo_time_backend)
            (session_of flat_series_frame) _ 0%nat flat_series_frame
            "day" "sales" _ _ (VInt 7) _ eq_refl eq_refl eq_refl eq_refl _ Hrun).
  intros c Hc. vm_compute in Hc.
  repeat (destruct Hc as [<- | Hc]; [ reflexivity | ]). destruct Hc.
Defined.

(** ** The time series analysis and the frames it writes *)

Section TimeFrames.

Context `{B : Backend} `{T : TimeBackend} (w0 : World).

Lemma keeps_old_ret {A} (Q : A -> Prop) (a : A) : Q a -> keeps_old w0 Q (mret a).
Proof.
  intros Ha w Hsub. split; [ exact Hsub | ].
  intros a' Hret. injection Hret as <-. exact Ha.
Qed.

Lemma keeps_old_lift {A} (r : res A) : keeps_old w0 (fun _ => True) (lift r).
Proof. intros w Hsub. split; [ exact Hsub | auto ]. Qed.

Lemma keeps_old_new_frame (df : DataFrame) : keeps_old w0 (new_to w0) (new_frame df).
Proof.
  intros w Hsub. rewrite run_new_frame. cbn [fst snd].
  assert (new_to w0 (fresh (dom (frames w)))) as Hnew.
  { unfold new_to. destruct (frames w0 !! fresh (dom (frames w))) as [x |] eqn:E;
      [ | reflexivity ].
    pose proof (lookup_weaken _ _ _ _ E Hsub) as Hin.
    rewrite fresh_not_stored in Hin. discriminate. }
  split.
  - unfold stored; cbn [frames]. apply insert_subseteq_r; assumption.
  - intros a Ha. injection Ha as <-. exact Hnew.
Qed.

Lemma keeps_old_write_frame (l : nat) (df : DataFrame) :
  new_to w0 l -> keeps_old w0 (fun _ => True) (write_frame l df).
Proof.
  intros Hnew w Hsub. split; [ | auto ].
  cbn. apply insert_subseteq_r; assumption.
Qed.

Lemma keeps_old_bind {A C} (Q : A -> Prop) (Q' : C -> Prop) (m : M A) (k : A -> M C) :
  keeps_old w0 Q m -> (forall a, Q a -> keeps_old w0 Q' (k a)) ->
  keeps_old w0 Q' (m ≫= k).
Proof.
  intros Hm Hk w Hsub. rewrite run_bind. destruct (Hm w Hsub) as [Hsub1 Hq].
  destruct (run m w) as [[a | e] w1]; cbn [fst snd] in *.
  - apply Hk; [ apply Hq; reflexivity | exact Hsub1 ].
  - split; [ exact Hsub1 | intros a Ha; discriminate ].
Qed.

Lemma seasonality_keeps_old (ts_ref : nat) (date_column value_column : string)
      (index : list (option Z)) (columns : list Series) :
  new_to w0 ts_ref ->
  keeps_old w0 (fun _ => True)
            (seasonality_section ts_ref date_column value_column index columns).
Proof.
  intros Hnew. unfold seasonality_section.
  eapply keeps_old_bind; [ apply keeps_old_write_frame; exact Hnew | intros _ _ ].
  eapply keeps_old_bind; [ apply keeps_old_lift | intros weekly _ ].
  eapply keeps_old_bind; [ apply keeps_old_write_frame; exact Hnew | intros _ _ ].
  eapply keeps_old_bind; [ apply keeps_old_lift | intros monthly _ ].
  apply keeps_old_ret. exact I.
Qed.

Lemma keeps_ms_in_world {A} (Q : A -> Prop) (m : M A) :
  keeps_old w0 Q m -> keeps_old_ms w0 Q (in_world m).
Proof.
  intros Hm s Hsub. rewrite run_in_world. cbn [fst snd engine_world].
  apply Hm. exact Hsub.
Qed.

Lemma keeps_ms_ret {A} (Q : A -> Prop) (a : A) : Q a -> keeps_old_ms w0 Q (mret a).
Proof.
  intros Ha s Hsub. split; [ exact Hsub | ].
  intros a' Hret. injection Hret as <-. exact Ha.
Qed.

Lemma keeps_ms_bind {A C} (Q : A -> Prop) (Q' : C -> Prop) (m : MS A) (k : A -> MS C) :
  keeps_old_ms w0 Q m -> (forall a, Q a -> keeps_old_ms w0 Q' (k a)) ->
  keeps_old_ms w0 Q' (m ≫= k).
Proof.
  intros Hm Hk s Hsub. rewrite run_session_bind. destruct (Hm s Hsub) as [Hsub1 Hq].
  destruct (run_session m s) as [[a | e] s1]; cbn [fst snd] in *.
  - apply Hk; [ apply Hq; reflexivity | exact Hsub1 ].
  - split; [ exact Hsub1 | intros a Ha; discriminate ].
Qed.

Lemma keeps_ms_read (l : nat) : keeps_old_ms w0 (fun _ => True) (in_world (read_frame l)).
Proof.
  apply keeps_ms_in_world. intros w Hsub. split; [ | auto ].
  unfold read_frame; simpl. destruct (frames w !! l); exact Hsub.
Qed.

Lemma keeps_ms_lift {A} (r : res A) :
  keeps_old_ms w0 (fun _ => True) (in_world (lift r)).
Proof. apply keeps_ms_in_world, keeps_old_lift. Qed.

Lemma keeps_ms_set (r : TimeSeriesResult) :
  keeps_old_ms w0 (fun _ => True) (set_time_series r).
Proof. intros s Hsub. split; [ exact Hsub | auto ]. Qed.

Lemma time_series_keeps_old (df_ref : nat) (date_column value_column : string) :
  keeps_old_ms w0 (fun _ => True)
               (time_series_analysis df_ref date_column value_column).
Proof.
  unfold time_series_analysis.
  eapply keeps_ms_bind; [ apply keeps_ms_read | intros df _ ].
  destruct (negb (has_column date_column df) || negb (has_column value_column df));
    [ apply keeps_ms_ret; exact I | ].
  eapply keeps_ms_bind; [ apply keeps_ms_lift | intros dates_in _ ].
  eapply keeps_ms_bind; [ apply keeps_ms_lift | intros values_in _ ].
  eapply keeps_ms_bind;
    [ apply keeps_ms_in_world, keeps_old_new_frame | intros ts_ref Hts ].
  eapply keeps_ms_bind; [ apply keeps_ms_lift | intros dates _ ].
  eapply keeps_ms_bind; [ apply keeps_ms_lift | intros _ _ ].
  eapply keeps_ms_bind;
    [ apply keeps_ms_in_world, keeps_old_write_frame; exact Hts | intros _ _ ].
  eapply keeps_ms_bind;
    [ apply keeps_ms_in_world, keeps_old_new_frame | intros sorted_ref _ ].
  eapply keeps_ms_bind;
    [ apply keeps_ms_in_world, keeps_old_new_frame | intros clean_ref Hclean ].
  destruct (len _ <? 10); [ apply keeps_ms_ret; exact I | ].
  eapply keeps_ms_bind; [ apply keeps_ms_lift | intros values _ ].
  eapply keeps_ms_bind; [ apply keeps_ms_lift | intros mean _ ].
  eapply keeps_ms_bind; [ apply keeps_ms_lift | intros std _ ].
  eapply keeps_ms_bind; [ apply keeps_ms_lift | intros rising _ ].
  eapply (keeps_ms_bind (fun _ => True)).
  - destruct (len _ >=? 24).
    + eapply keeps_ms_bind;
        [ apply keeps_ms_in_world, seasonality_keeps_old; exact Hclean
        | intros [section columns] _ ].
      apply keeps_ms_ret. exact I.
    + apply keeps_ms_ret. exact I.
  - intros [season columns] _.
    eapply keeps_ms_bind; [ apply keeps_ms_lift | intros values' _ ].
    eapply keeps_ms_bind; [ apply keeps_ms_lift | intros st _ ].
    eapply keeps_ms_bind; [ apply keeps_ms_set | intros _ _ ].
    apply keeps_ms_ret. exact I.
Qed.

End TimeFrames.

(** X14: [time_series_analysis] converts, sorts and extends frames of its
    own only.  Whether it returns or raises, the Dataset it was given has
    the same columns, values and row count afterwards, and so has every
    other frame that existed before the call; the frames it assigns columns
    to are the copy and the cleaned frame it made itself. *)
Theorem time_series_leaves_dataset `{B : Backend} `{T : TimeBackend}
        (s : Session) (df_ref : nat) (df : DataFrame)
        (date_column value_column : string) :
  frames (engine_world s) !! df_ref = Some df ->
  let s' := snd (run_session (time_series_analysis df_ref date_column value_column) s) in
  frames (engine_world s') !! df_ref = Some df /\
  frames (engine_world s) ⊆ frames (engine_world s').
Proof.
  intros Hdf s'.
  destruct (time_series_keeps_old (engine_world s) df_ref date_column value_column s)
    as [Hsub _]; [ reflexivity | ].
  split; [ | exact Hsub ].
  eapply lookup_weaken; eassumption.
Qed.

Lemma time_series_leaves_dataset_witness :
  frames (engine_world
            (snd (run_session (B := demo_backend)
                    (time_series_analysis (T := demo_time_backend) 0%nat "day" "sales")
                    (session_of flat_series_frame)))) !! 0%nat
  = Some flat_series_frame /\
  frames (engine_world
            (snd (run_session (B := demo_backend)
                    (time_series_analysis (T := demo_time_backend) 0%nat "day" "sales")
                    (session_of flat_series_frame)))) !! 1%nat
  = Some (mkFrame 12
            [mkSeries "day" Datetime64
                      (map VInt [3; 1; 2; 4; 5; 6; 7; 8; 9; 10; 11; 12]);
             mkSeries "sales" Int64
                      [VInt 7; VInt 7; VNA; VInt 7; VInt 7; VInt 7;
                       VInt 7; VInt 7; VInt 7; VInt 7; VInt 7; VInt 7]]).
Proof.
  split.
  - apply (time_series_leaves_dataset (B := demo_backend) (T := demo_time_backend)
             (session_of flat_series_frame) 0%nat flat_series_frame "day" "sales").
    reflexivity.
  - vm_compute. reflexivity.
Defined.

(** ** The time series analysis and the session *)

Section TimeSession.

Context `{B : Backend} `{T : TimeBackend}.

Lemma session_quiet_refl (s : Session) : session_quiet s s.
Proof. split; [ apply session_kept_refl | reflexivity ]. Qed.

Lemma session_quiet_trans (s1 s2 s3 : Session) :
  session_quiet s1 s2 -> session_quiet s2 s3 -> session_quiet s1 s3.
Proof.
  intros [H1 E1] [H2 E2]. split; [ eapply session_kept_trans; eassumption | congruence ].
Qed.

Lemma quiet_ret {A} (a : A) : quiet (mret a).
Proof. intros s. apply session_quiet_refl. Qed.

Lemma quiet_in_world {A} (m : M A) : respects session_kept m -> quiet (in_world m).
Proof.
  intros Hm s. rewrite run_in_world. cbn [snd]. split; [ apply Hm | reflexivity ].
Qed.

Lemma quiet_bind {A C} (m : MS A) (k : A -> MS C) :
  quiet m -> (forall a, quiet (k a)) -> quiet (m ≫= k).
Proof.
  intros Hm Hk s. rewrite run_session_bind. specialize (Hm s).
  destruct (run_session m s) as [[a | e] s1]; cbn [snd] in *.
  - eapply session_quiet_trans; [ exact Hm | apply Hk ].
  - exact Hm.
Qed.

Lemma session_write_frame (l : nat) (df : DataFrame) :
  respects session_kept (write_frame l df).
Proof. intros w. split; reflexivity. Qed.

Lemma session_seasonality (ts_ref : nat) (date_column value_column : string)
      (index : list (option Z)) (columns : list Series) :
  respects session_kept
           (seasonality_section ts_ref date_column value_column index columns).
Proof.
  unfold seasonality_section.
  apply session_bind; [ apply session_write_frame | intros _ ].
  apply session_bind; [ apply session_lift | intros weekly ].
  apply session_bind; [ apply session_write_frame | intros _ ].
  apply session_bind; [ apply session_lift | intros monthly ].
  apply session_ret.
Qed.

Lemma effect_ms_bind {A} (m : MS A) (k : A -> MS TimeSeriesOutcome) :
  quiet m -> (forall a, has_time_series_effect (k a)) ->
  has_time_series_effect (m ≫= k).
Proof.
  intros Hm Hk s. rewrite run_session_bind. destruct (Hm s) as [Hkept Hslot].
  destruct (run_session m s) as [[a | e] s1]; cbn [fst snd] in *.
  - destruct (Hk a s1) as [Hkept' Hout]. split.
    + eapply session_kept_trans; eassumption.
    + destruct (fst (run_session (k a) s1)) as [[r | msg] | e]; congruence.
  - split; assumption.
Qed.

Lemma effect_ms_error (msg : string) :
  has_time_series_effect (mret (TimeSeriesError msg)).
Proof. intros s. split; [ apply session_kept_refl | reflexivity ]. Qed.

Lemma effect_ms_record (r : TimeSeriesResult) :
  has_time_series_effect (set_time_series r ≫= fun _ => mret (TimeSeries r)).
Proof. intros s. split; [ apply session_kept_refl | reflexivity ]. Qed.

Lemma time_series_has_effect (df_ref : nat) (date_column value_column : string) :
  has_time_series_effect (time_series_analysis df_ref date_column value_column).
Proof.
  unfold time_series_analysis.
  apply effect_ms_bind; [ apply quiet_in_world, session_read_frame | intros df ].
  destruct (negb (has_column date_column df) || negb (has_column value_column df));
    [ apply effect_ms_error | ].
  apply effect_ms_bind; [ apply quiet_in_world, session_lift | intros dates_in ].
  apply effect_ms_bind; [ apply quiet_in_world, session_lift | intros values_in ].
  apply effect_ms_bind; [ apply quiet_in_world, session_new_frame | intros ts_ref ].
  apply effect_ms_bind; [ apply quiet_in_world, session_lift | intros dates ].
  apply effect_ms_bind; [ apply quiet_in_world, session_lift | intros _ ].
  apply effect_ms_bind; [ apply quiet_in_world, session_write_frame | intros _ ].
  apply effect_ms_bind; [ apply quiet_in_world, session_new_frame | intros sorted_ref ].
  apply effect_ms_bind; [ apply quiet_in_world, session_new_frame | intros clean_ref ].
  destruct (len _ <? 10); [ apply effect_ms_error | ].
  apply effect_ms_bind; [ apply quiet_in_world, session_lift | intros values ].
  apply effect_ms_bind; [ apply quiet_in_world, session_lift | intros mean ].
  apply effect_ms_bind; [ apply quiet_in_world, session_lift | intros std ].
  apply effect_ms_bind; [ apply quiet_in_world, session_lift | intros rising ].
  apply effect_ms_bind.
  - destruct (len _ >=? 24); [ | apply quiet_ret ].
    apply quiet_bind; [ apply quiet_in_world, session_seasonality | ].
    intros [section columns]. apply quiet_ret.
  - intros [season columns].
    apply effect_ms_bind; [ apply quiet_in_world, session_lift | intros values' ].
    apply effect_ms_bind; [ apply quiet_in_world, session_lift | intros st ].
    apply effect_ms_record.
Qed.

End TimeSession.

(** X15: [time_series_analysis] puts a result it returns in the
    ['time_series'] slot of the session; when it returns one of its two
    errors or raises, the slot is as before.  In no case does it change the
    other results or the models. *)
Theorem time_series_session_effect `{B : Backend} `{T : TimeBackend}
        (s : Session) (df_ref : nat) (date_column value_column : string) :
  let out := fst (run_session (time_series_analysis df_ref date_column value_column) s) in
  let s' := snd (run_session (time_series_analysis df_ref date_column value_column) s) in
  analysis_results (engine_world s') = analysis_results (engine_world s) /\
  models (engine_world s') = models (engine_world s) /\
  match out with
  | Ret (TimeSeries r) => time_series_slot s' = Some r
  | _ => time_series_slot s' = time_series_slot s
  end.
Proof.
  intros out s'.
  destruct (time_series_has_effect df_ref date_column value_column s) as [[Hr Hm] Hslot].
  split; [ exact Hr | ]. split; [ exact Hm | exact Hslot ].
Qed.

(** ** The summary of a session *)

Section Summary.

Context `{B : Backend} `{T : TimeBackend}.

Lemma statistical_not_error (df_ref : nat) :
  returns_only (fun r => forall msg, r <> ErrorResult msg) (statistical_analysis df_ref).
Proof.
  unfold statistical_analysis.
  repeat (apply returns_only_bind; intros ?).
  apply returns_only_ret. intros msg. discriminate.
Qed.

Lemma in_world_returned {A} (m : M A) (s s' : Session) (a : A) :
  run_session (in_world m) s = (Ret a, s') ->
  run m (engine_world s) = (Ret a, engine_world s') /\
  time_series_slot s' = time_series_slot s.
Proof.
  rewrite run_in_world. destruct (run m (engine_world s)) as [r w'].
  cbn [fst snd]. intros H. injection H as -> <-. split; reflexivity.
Qed.

Lemma recorded_results (key : string) (target : option string) (w w' : World)
      (r : AnalysisResult) :
  session_effect key target w (Ret r) w' ->
  analysis_results w' =
  match r with
  | ErrorResult _ => analysis_results w
  | _ => <[key := r]> (analysis_results w)
  end.
Proof.
  unfold session_effect, session_kept. destruct r; tauto.
Qed.

End Summary.

(** X16: the three analyses one after the other, then the summary.  When
    [statistical_analysis], [clustering_analysis] and [time_series_analysis]
    have returned in that order on one engine, [get_analysis_summary] gives
    the results held before with the statistical result under
    ['statistical'], the clustering result under ['clustering'] unless it is
    an [ErrorResult], and the time series result unless it is an error; the
    summary itself changes nothing.  A new engine has an empty summary. *)
Theorem summary_after_analyses `{B : Backend} `{T : TimeBackend}
        (s s1 s2 s3 : Session) (df_ref : nat) (n : option Z)
        (date_column value_column : string)
        (r1 r2 : AnalysisResult) (out : TimeSeriesOutcome) :
  run_session (in_world (statistical_analysis df_ref)) s = (Ret r1, s1) ->
  run_session (in_world (clustering_analysis df_ref n)) s1 = (Ret r2, s2) ->
  run_session (time_series_analysis df_ref date_column value_column) s2 = (Ret out, s3) ->
  run_session get_analysis_summary s3 =
  (Ret (with_clustering r2 (<["statistical" := r1]> (analysis_results (engine_world s))),
        with_time_series out (time_series_slot s)),
   s3) /\
  forall store,
    run_session get_analysis_summary (new_session store) =
    (Ret (∅, None), new_session store).
Proof.
  intros H1 H2 H3. split; [ | reflexivity ].
  apply in_world_returned in H1. destruct H1 as [H1 Hs1].
  apply in_world_returned in H2. destruct H2 as [H2 Hs2].
  pose proof (statistical_effect df_ref (engine_world s)) as E1.
  rewrite H1 in E1. cbn [fst snd] in E1.
  pose proof (statistical_not_error df_ref _ _ _ H1) as Hne.
  apply recorded_results in E1.
  assert (analysis_results (engine_world s1)
          = <["statistical" := r1]> (analysis_results (engine_world s))) as R1.
  { rewrite E1. destruct r1; try reflexivity. exfalso. eapply Hne. reflexivity. }
  pose proof (clustering_effect df_ref n (engine_world s1)) as E2.
  rewrite H2 in E2. cbn [fst snd] in E2. apply recorded_results in E2.
  assert (analysis_results (engine_world s2)
          = with_clustering r2 (<["statistical" := r1]> (analysis_results (engine_world s))))
    as R2.
  { rewrite E2, R1. unfold with_clustering. destruct r2; reflexivity. }
  pose proof (time_series_has_effect df_ref date_column value_column s2) as E3.
  rewrite H3 in E3. cbn [fst snd] in E3. destruct E3 as [[R3 _] Hslot].
  unfold get_analysis_summary; cbn [run_session].
  rewrite R3, R2. f_equal. f_equal. f_equal.
  unfold with_time_series. destruct out as [r | msg]; congruence.
Qed.

Lemma summary_after_analyses_witness :
  exists r1 r2 out s3,
    run_session (B := demo_backend) get_analysis_summary s3 =
    (Ret (with_clustering r2 (<["statistical" := r1]> ∅), with_time_series out None), s3) /\
    out = TimeSeriesError "Not enough data points for time series analysis" /\
    (forall msg, r2 <> ErrorResult msg).
Proof.
  pose (s := session_of
               (mkFrame 5 (mkSeries "day" Int64 (map VInt [1; 2; 3; 4; 5])
                           :: df_columns five_row_frame))).
  assert (H1 : run_session (B := demo_backend)
                 (in_world (statistical_analysis 0%nat)) s = (Ret ?[r1], ?[s1]))
    by (vm_compute; reflexivity).
  match type of H1 with
  | _ = (_, ?s1) =>
      assert (H2 : run_session (B := demo_backend)
                     (in_world (clustering_analysis 0%nat None)) s1 = (Ret ?[r2], ?[s2]))
        by (vm_compute; reflexivity)
  end.
  match type of H2 with
  | _ = (_, ?s2) =>
      assert (H3 : run_session (B := demo_backend)
                     (time_series_analysis (T := demo_time_backend) 0%nat "day" "y") s2
                   = (Ret ?[out], ?[s3]))
        by (vm_compute; reflexivity)
  end.
  pose proof (proj1 (summary_after_analyses (B := demo_backend) (T := demo_time_backend)
                       _ _ _ _ _ _ _ _ _ _ _ H1 H2 H3)) as H.
  eexists. eexists. eexists. eexists. split; [ exact H | split ].
  - reflexivity.
  - intros msg. discriminate.
Defined.
